(** * MxeReader: a shallow embedding of the MXE / XLB codec engine

    The development follows [src/MxeReader.py] function by function.
    Python objects become inductive types, exceptions and the one loop that
    may spin forever become an explicit outcome type, and the binary files
    become byte lists with a cursor. *)

From Stdlib Require Import ZArith Lia Bool.
From Stdlib Require Import Strings.Byte Strings.Ascii Strings.String.
From Stdlib Require Import Numbers.DecimalString Numbers.DecimalZ.
From stdpp Require Import base tactics option list.

#[local] Open Scope string_scope.
#[local] Open Scope Z_scope.

(** ** Outcomes of a Python call *)

Module Py.

(** The exception classes the modelled code can raise. *)
Inductive exn : Set :=
| StructError      (* struct.error *)
| IndexError
| TypeError
| ValueError
| OSError
| UnicodeError     (* UnicodeDecodeError / UnicodeEncodeError *)
| NameError        (* UnboundLocalError is a NameError *)
| AttributeError
| BinasciiError.   (* binascii.Error, from codecs.decode(_, "hex") *)

(** A call returns, raises, or never comes back. *)
Inductive result (A : Type) : Type :=
| Ok (a : A)
| Raise (e : exn)
| Diverge.

Arguments Ok {A} a.
Arguments Raise {A} e.
Arguments Diverge {A}.

Definition bind {A B} (m : result A) (k : A -> result B) : result B :=
  match m with
  | Ok a => k a
  | Raise e => Raise e
  | Diverge => Diverge
  end.

Definition is_ok {A} (m : result A) : bool :=
  match m with Ok _ => true | _ => false end.

End Py.

Export Py.

Notation "x <- m ;; k" := (Py.bind m (fun x => k))
  (at level 100, m at next level, right associativity).

#[global] Instance exn_eq_dec : EqDecision exn.
Proof. solve_decision. Defined.

(** ** Bytes and the struct module *)

Abbreviation bytes := (list byte).

Definition byte_to_Z (b : byte) : Z := Z.of_N (Byte.to_N b).

Definition byte_of_Z (z : Z) : byte :=
  match Byte.of_N (Z.to_N (z mod 256)) with
  | Some b => b
  | None => x00
  end.

(** Unsigned little-endian value of a byte string. *)
Fixpoint le_uint (bs : bytes) : Z :=
  match bs with
  | [] => 0
  | b :: r => byte_to_Z b + 256 * le_uint r
  end.

(** The [w] low bytes of [n], least significant first. *)
Fixpoint le_bytes (w : nat) (n : Z) : bytes :=
  match w with
  | O => []
  | S k => byte_of_Z (n mod 256) :: le_bytes k (n / 256)
  end.

(** Two's complement reading of an unsigned [w]-byte value. *)
Definition to_signed (w : nat) (u : Z) : Z :=
  if u <? 2 ^ (8 * Z.of_nat w - 1) then u else u - 2 ^ (8 * Z.of_nat w).

Inductive endian : Set := LE | BE.

Definition order (e : endian) (bs : bytes) : bytes :=
  match e with LE => bs | BE => rev bs end.

(** [struct.unpack_from(e + fmt, buf, off)[0]] for a signed integer format of
    [w] bytes: the buffer may be longer than needed, a shorter one is a
    [struct.error]. *)
Definition unpack_from (e : endian) (w : nat) (buf : bytes) (off : nat) : result Z :=
  if (length buf <? off + w)%nat then Raise StructError
  else Ok (to_signed w (le_uint (order e (take w (drop off buf))))).

(** [struct.unpack(e + fmt, buf)[0]]: the buffer must have exactly [w] bytes. *)
Definition unpack (e : endian) (w : nat) (buf : bytes) : result Z :=
  if (length buf =? w)%nat then Ok (to_signed w (le_uint (order e buf)))
  else Raise StructError.

(** [struct.pack(e + fmt, n)] for a signed integer format of [w] bytes. *)
Definition pack (e : endian) (w : nat) (n : Z) : result bytes :=
  if (- 2 ^ (8 * Z.of_nat w - 1) <=? n) && (n <? 2 ^ (8 * Z.of_nat w - 1))
  then Ok (order e (le_bytes w (n mod 2 ^ (8 * Z.of_nat w))))
  else Raise StructError.

(** ** Python sequence indexing *)

(** [l[i]] and [l[i] = x]: a negative index counts from the end, anything
    outside [-len, len) is an [IndexError]. *)
Definition py_index {A} (l : list A) (i : Z) : option nat :=
  let n := Z.of_nat (length l) in
  if (0 <=? i) && (i <? n) then Some (Z.to_nat i)
  else if (- n <=? i) && (i <? 0) then Some (Z.to_nat (n + i))
  else None.

Definition py_get {A} (l : list A) (i : Z) : result A :=
  match py_index l i with
  | Some k => match l !! k with Some x => Ok x | None => Raise IndexError end
  | None => Raise IndexError
  end.

Definition py_set {A} (l : list A) (i : Z) (x : A) : result (list A) :=
  match py_index l i with
  | Some k => Ok (<[k := x]> l)
  | None => Raise IndexError
  end.

(** [l[i]] for an index known to be a natural number (a loop counter). *)
Definition get_nat {A} (l : list A) (i : nat) : result A :=
  match l !! i with Some x => Ok x | None => Raise IndexError end.

(** ** The runtime

    The parts of the Python runtime the model takes as given: the
    [shift_jisx0213] codec, IEEE single precision, and what [int()] makes
    of a text with characters outside ASCII, where Unicode decides what is
    a digit and what is white space. *)
Class Runtime := {
  (** [codecs.decode(b, "shift_jisx0213")]; [None] is a [UnicodeDecodeError] *)
  sjis_decode : bytes -> option string;
  (** [s.encode("shift_jisx0213")]; [None] is a [UnicodeEncodeError] *)
  sjis_encode : string -> option bytes;
  (** [repr(round(struct.unpack(e + "f", b)[0], 2))] for exactly four bytes *)
  float_round2 : endian -> bytes -> string;
  (** [struct.pack(e + "f", float(s))] *)
  float_pack : endian -> string -> result bytes;
  (** [repr(b)] of a [bytes] object *)
  bytes_repr : bytes -> string;
  (** [int(s)] for a [str] that holds a character outside ASCII; [None] is
      a [ValueError] *)
  int_unicode : string -> option Z
}.

(** ** Python text

    A Python [str] is modelled by its UTF-8 text as a Rocq [string]: the
    methods used by the source ([split(':')], [replace], [rstrip('\x00')],
    slicing off the last character of a hex display) only look at ASCII
    characters, which UTF-8 keeps apart from every multi-byte sequence. *)

Module Text.

Definition NUL : ascii := Ascii.zero.
Definition LF : ascii := ascii_of_nat 10.
Definition CR : ascii := ascii_of_nat 13.

(** [s.split(':')[0]]: the text before the first colon. *)
Fixpoint before_colon (s : string) : string :=
  match s with
  | EmptyString => EmptyString
  | String c r => if Ascii.eqb c ":" then EmptyString else String c (before_colon r)
  end.

(** [s.rstrip('\x00')]. *)
Fixpoint rstrip_nul (s : string) : string :=
  match s with
  | EmptyString => EmptyString
  | String c r =>
      match rstrip_nul r with
      | EmptyString => if Ascii.eqb c NUL then EmptyString else String c EmptyString
      | r' => String c r'
      end
  end.

(** [s[:-1]]. *)
Fixpoint drop_last (s : string) : string :=
  match s with
  | EmptyString => EmptyString
  | String c EmptyString => EmptyString
  | String c r => String c (drop_last r)
  end.

(** [s.startswith(p)] *)
Fixpoint starts_with (p s : string) : bool :=
  match p with
  | EmptyString => true
  | String a p' =>
      match s with
      | EmptyString => false
      | String b s' => Ascii.eqb a b && starts_with p' s'
      end
  end.

(** [s.replace(old, new)] for a non-empty [old]: occurrences are replaced
    left to right without overlap.  [skip] counts the characters of a match
    still to be passed over. *)
Fixpoint replace_go (old new : string) (skip : nat) (s : string) : string :=
  match s with
  | EmptyString => EmptyString
  | String c r =>
      match skip with
      | S k => replace_go old new k r
      | O =>
          if starts_with old s
          then new ++ replace_go old new (String.length old - 1) r
          else String c (replace_go old new O r)
      end
  end.

Definition replace (old new s : string) : string := replace_go old new O s.

(** [s.zfill(2)] for a text without sign. *)
Definition zfill2 (s : string) : string :=
  match s with
  | EmptyString => "00"
  | String c EmptyString => String "0" s
  | _ => s
  end.

(** [s.upper()] on ASCII letters. *)
Definition upper_char (c : ascii) : ascii :=
  let n := nat_of_ascii c in
  if ((97 <=? n) && (n <=? 122))%nat then ascii_of_nat (n - 32) else c.

Fixpoint upper (s : string) : string :=
  match s with
  | EmptyString => EmptyString
  | String c r => String (upper_char c) (upper r)
  end.

(** [str(n)] for an int. *)
Definition str_of_int (n : Z) : string := NilZero.string_of_int (Z.to_int n).

(** White space that [int()] strips: the ASCII white space of C. *)
Definition is_space (c : ascii) : bool :=
  let n := nat_of_ascii c in
  (((9 <=? n) && (n <=? 13)) || (n =? 32))%nat.

(** Every character is an ASCII character. *)
Fixpoint is_ascii (s : string) : bool :=
  match s with
  | EmptyString => true
  | String c r => (nat_of_ascii c <? 128)%nat && is_ascii r
  end.

Fixpoint lstrip (sp : ascii -> bool) (s : string) : string :=
  match s with
  | EmptyString => EmptyString
  | String c r => if sp c then lstrip sp r else s
  end.

Fixpoint rstrip (sp : ascii -> bool) (s : string) : string :=
  match s with
  | EmptyString => EmptyString
  | String c r =>
      match rstrip sp r with
      | EmptyString => if sp c then EmptyString else String c EmptyString
      | r' => String c r'
      end
  end.

Definition is_digit (c : ascii) : bool :=
  let n := nat_of_ascii c in ((48 <=? n) && (n <=? 57))%nat.

(** Digits with single underscores between them, as [int()] accepts; the
    result is the digits alone.  [prev] tells whether the previous character
    was a digit. *)
Fixpoint int_digits (prev : bool) (s : string) : option string :=
  match s with
  | EmptyString => if prev then Some EmptyString else None
  | String c r =>
      if is_digit c then option_map (String c) (int_digits true r)
      else if Ascii.eqb c "_" then (if prev then int_digits false r else None)
      else None
  end.

(** [int(s)] in base 10 for a text of ASCII characters, which is what
    [int()] sees of a [bytes] object.  There is no limit on the number of
    digits. *)
Definition int_of_text (s : string) : result Z :=
  let t := rstrip is_space (lstrip is_space s) in
  let '(neg, body) :=
    match t with
    | String "-" r => (true, r)
    | String "+" r => (false, r)
    | _ => (false, t)
    end in
  match int_digits false body with
  | Some ds =>
      match NilZero.uint_of_string ds with
      | Some d => Ok (if neg : bool then - Z.of_uint d else Z.of_uint d)
      | None => Raise ValueError
      end
  | None => Raise ValueError
  end.

(** [int(s)] for a [str]: a text with a character outside ASCII is first
    rewritten by the Unicode tables, which the runtime stands for. *)
Definition int_of_str {R : Runtime} (s : string) : result Z :=
  if is_ascii s then int_of_text s
  else match int_unicode s with
       | Some n => Ok n
       | None => Raise ValueError
       end.

(** The characters of a [bytes] object, byte for byte. *)
Definition string_of_bytes (b : bytes) : string :=
  string_of_list_ascii (map ascii_of_byte b).

(** [int(b)] for a [bytes] object: a byte outside ASCII is no digit. *)
Definition int_of_bytes (b : bytes) : result Z :=
  int_of_text (string_of_bytes b).

End Text.

(** ** Binary files

    A file opened in binary mode is its bytes and a cursor.  The cursor may
    stand past the end; reading there returns nothing, writing there fills
    the gap with zero bytes. *)

Module File.

Record t := mk { content : bytes; pos : Z }.

Definition open (b : bytes) : t := mk b 0.

Definition tell (f : t) : Z := pos f.

(** [f.seek(p)]: a negative target is an [OSError]. *)
Definition seek (p : Z) (f : t) : result t :=
  if p <? 0 then Raise OSError else Ok (mk (content f) p).

(** [f.read(n)]: [-1] reads to the end, a smaller count is a [ValueError],
    and fewer than [n] bytes come back near the end of the file. *)
Definition read (n : Z) (f : t) : result (bytes * t) :=
  if n <? -1 then Raise ValueError
  else
    let rest := drop (Z.to_nat (pos f)) (content f) in
    let got := if n =? -1 then rest else take (Z.to_nat n) rest in
    Ok (got, mk (content f) (pos f + Z.of_nat (length got))).

(** [f.write(b)] on a file opened with "r+b". *)
Definition write (b : bytes) (f : t) : t :=
  match b with
  | [] => f
  | _ =>
      let p := Z.to_nat (pos f) in
      let gap := replicate (p - length (content f)) x00 in
      mk (take p (content f ++ gap) ++ b ++ drop (p + length b) (content f))%list
         (pos f + Z.of_nat (length b))
  end.

End File.

(** ** Settings *)

Record mxe_settings := {
  MXE_ADDRESS_OFFSET : Z;
  MAIN_TABLE_COUNT_ADDR : Z;
  MAIN_TABLE_STARTADDR_ADDR : Z;
  TOC_ENTRY_SIZE : Z;
  TOC_ENDIANNESS : endian;
  TOC_FIELD_ID : Z;
  TOC_FIELD_TYPE : Z;
  TOC_FIELD_TYPENAME_ADDR : Z;
  TOC_FIELD_RECORD_ADDR : Z;
  RESOLVE_CLASSIC_POINTERS : bool;
  RESOLVE_XLB_POINTERS : bool;
  RESOLVE_XLB_STRINGS : bool
}.

Definition MXE_SETTINGS : mxe_settings := {|
  MXE_ADDRESS_OFFSET := 64;
  MAIN_TABLE_COUNT_ADDR := 200;
  MAIN_TABLE_STARTADDR_ADDR := 224;
  TOC_ENTRY_SIZE := 32;
  TOC_ENDIANNESS := LE;
  TOC_FIELD_ID := 0;
  TOC_FIELD_TYPE := 4;
  TOC_FIELD_TYPENAME_ADDR := 8;
  TOC_FIELD_RECORD_ADDR := 16;
  RESOLVE_CLASSIC_POINTERS := true;
  RESOLVE_XLB_POINTERS := true;
  RESOLVE_XLB_STRINGS := true
|}.

Record output_modifiers := {
  FORCE_HEX_OUTPUT : bool;
  FORCE_RAW_CLASSIC_POINTERS : bool;
  FORCE_RAW_XLB_POINTERS : bool;
  FORCE_XLB_IDS : bool
}.

Definition OUTPUT_MODIFIERS : output_modifiers := {|
  FORCE_HEX_OUTPUT := false;
  FORCE_RAW_CLASSIC_POINTERS := false;
  FORCE_RAW_XLB_POINTERS := false;
  FORCE_XLB_IDS := false
|}.

(** ** Data types *)

(** [DataTypes.get(dt)]: the byte width of a template data type. *)
Definition DataTypes (dt : string) : option Z :=
  if String.eqb dt "<i" then Some 4 else
  if String.eqb dt "<i2" then Some 2 else
  if String.eqb dt "<f" then Some 4 else
  if String.eqb dt "<h" then Some 4 else
  if String.eqb dt ">i" then Some 4 else
  if String.eqb dt ">i2" then Some 2 else
  if String.eqb dt ">f" then Some 4 else
  if String.eqb dt ">h" then Some 4 else
  if String.eqb dt "i1" then Some 1 else
  if String.eqb dt "<ip" then Some 4 else
  if String.eqb dt "<pi" then Some 4 else
  if String.eqb dt "<p" then Some 4 else
  if String.eqb dt ">ip" then Some 4 else
  if String.eqb dt ">pi" then Some 4 else
  if String.eqb dt ">p" then Some 4 else None.

(** What stands in one slot of an entry's record data: the [bytes] read from
    the file or produced by an import, the two-element list
    [[raw_addr, val]] of a resolved pointer ([val] a [str] for a classic
    pointer, [bytes] for an XLB pointer), or [None], which an import stores
    for a data type without converter. *)
Inductive field : Type :=
| FBytes (b : bytes)
| FPtrStr (raw : bytes) (val : string)
| FPtrBytes (raw : bytes) (val : bytes)
| FNone.

#[global] Instance byte_eq_dec : EqDecision byte.
Proof. intros a b. exact (Byte.byte_eq_dec a b). Defined.

#[global] Instance ascii_eq_dec' : EqDecision ascii := Ascii.ascii_dec.
#[global] Instance string_eq_dec' : EqDecision string := String.string_dec.

#[global] Instance field_eq_dec : EqDecision field.
Proof. solve_decision. Defined.

(** The values that end up in a csv row.  A float is kept as the text
    [repr] gives it. *)
Inductive pyval : Type :=
| VInt (n : Z)
| VStr (s : string)
| VFloat (repr : string)
| VBytes (b : bytes)
| VNone.

(** What [csv.writer] puts in a cell: [str(v)], and nothing for [None]. *)
Definition cell_text {R : Runtime} (v : pyval) : string :=
  match v with
  | VInt n => Text.str_of_int n
  | VStr s => s
  | VFloat r => r
  | VBytes b => bytes_repr b
  | VNone => ""
  end.

(** ** Field Codec: converters from bytes *)

Section Converters.
Context {R : Runtime}.

(** The converters are written for [bytes]; the struct functions and the
    [for byte in buf] loops refuse a list or [None] with a [TypeError]. *)
Definition as_buffer (v : field) : result bytes :=
  match v with
  | FBytes b => Ok b
  | _ => Raise TypeError
  end.

Definition bytesAsLEInt (buf : field) : result Z :=
  b <- as_buffer buf ;; unpack_from LE 4 b 0.

Definition bytesAsLEShort (buf : field) : result Z :=
  b <- as_buffer buf ;; unpack_from LE 2 b 0.

Definition bytesAsChar (buf : field) : result Z :=
  b <- as_buffer buf ;; unpack_from LE 1 b 0.

Definition bytesAsBEInt (buf : field) : result Z :=
  b <- as_buffer buf ;; unpack_from BE 4 b 0.

Definition bytesAsBEShort (buf : field) : result Z :=
  b <- as_buffer buf ;; unpack_from BE 2 b 0.

Definition bytesAsFloat (e : endian) (buf : field) : result string :=
  b <- as_buffer buf ;;
  if (length b <? 4)%nat then Raise StructError else Ok (float_round2 e (take 4 b)).

Definition bytesAsLEFloat := bytesAsFloat LE.
Definition bytesAsBEFloat := bytesAsFloat BE.

(** [hex(n)] for a byte value: "0x" and the lower-case digits without
    leading zero. *)
Definition hex_digit (n : Z) : ascii :=
  if n <? 10 then ascii_of_nat (Z.to_nat (48 + n)) else ascii_of_nat (Z.to_nat (87 + n)).

Definition hex (n : Z) : string :=
  let hi := n / 16 in
  let lo := n mod 16 in
  "0x" ++ (if hi =? 0 then "" else String (hex_digit hi) "") ++ String (hex_digit lo) "".

(** [hex(byte)[2:].zfill(2).upper()] *)
Definition hex_pair (b : byte) : string :=
  Text.upper (Text.zfill2 (String.substring 2 (String.length (hex (byte_to_Z b)) - 2)
                             (hex (byte_to_Z b)))).

(** The digits that [hex_pair] can produce. *)
Definition upper_hex (c : ascii) : bool :=
  let n := nat_of_ascii c in
  (((48 <=? n) && (n <=? 57)) || ((65 <=? n) && (n <=? 70)))%nat.

Fixpoint hex_join (bs : bytes) : string :=
  match bs with
  | [] => ""
  | b :: r => hex_pair b ++ "-" ++ hex_join r
  end.

Definition bytesAsLEHex (buf : field) : result string :=
  b <- as_buffer buf ;; Ok (Text.drop_last ("0x" ++ hex_join (rev b))).

Definition bytesAsBEHex (buf : field) : result string :=
  b <- as_buffer buf ;; Ok (Text.drop_last ("0x" ++ hex_join b)).

Definition bytesAsLEAddress := bytesAsLEInt.
Definition bytesAsBEAddress := bytesAsBEInt.

(** [buf.decode(enc).rstrip('\x00')]; a list or [None] has no [decode]. *)
Definition bytesAsString (buf : field) : result string :=
  match buf with
  | FBytes b =>
      match sjis_decode b with
      | Some s => Ok (Text.rstrip_nul s)
      | None => Raise UnicodeError
      end
  | _ => Raise AttributeError
  end.

(** ** Field Codec: converters to bytes *)

Definition leIntAsBytes (obj : string) : result bytes :=
  n <- Text.int_of_str obj ;; pack LE 4 n.

Definition leShortAsBytes (obj : string) : result bytes :=
  n <- Text.int_of_str obj ;; pack LE 2 n.

Definition charAsBytes (obj : string) : result bytes :=
  n <- Text.int_of_str obj ;; pack LE 1 n.

Definition beIntAsBytes (obj : string) : result bytes :=
  n <- Text.int_of_str obj ;; pack BE 4 n.

Definition beShortAsBytes (obj : string) : result bytes :=
  n <- Text.int_of_str obj ;; pack BE 2 n.

Definition leFloatAsBytes (obj : string) : result bytes := float_pack LE obj.
Definition beFloatAsBytes (obj : string) : result bytes := float_pack BE obj.

(** One hexadecimal digit, either case. *)
Definition unhex_digit (c : ascii) : option Z :=
  let n := Z.of_nat (nat_of_ascii c) in
  if (48 <=? n) && (n <=? 57) then Some (n - 48)
  else if (65 <=? n) && (n <=? 70) then Some (n - 55)
  else if (97 <=? n) && (n <=? 102) then Some (n - 87)
  else None.

(** [codecs.decode(s, "hex")] *)
Fixpoint unhexlify (s : string) : result bytes :=
  match s with
  | EmptyString => Ok []
  | String c1 (String c2 r) =>
      match unhex_digit c1, unhex_digit c2 with
      | Some h, Some l => bs <- unhexlify r ;; Ok (byte_of_Z (16 * h + l) :: bs)
      | _, _ => Raise BinasciiError
      end
  | String _ EmptyString => Raise BinasciiError
  end.

Definition hexAsBytes (e : endian) (obj : string) : result bytes :=
  let b := Text.replace "0x" "" (Text.replace "-" "" obj) in
  raw <- unhexlify b ;;
  c <- unpack e 4 raw ;;
  pack e 4 c.

Definition leHexAsBytes := hexAsBytes LE.
Definition beHexAsBytes := hexAsBytes BE.

Definition leAddressAsBytes := leIntAsBytes.
Definition beAddressAsBytes := beIntAsBytes.

Definition stringAsBytes (obj : string) : result bytes :=
  match sjis_encode obj with
  | Some b => Ok b
  | None => Raise UnicodeError
  end.

(** [ConvertFunctions.get(dataType)] applied to [buf], or [None]. *)
Definition bytesToText (buf : field) (dataType : string) : result pyval :=
  if String.eqb dataType "<i" then n <- bytesAsLEInt buf ;; Ok (VInt n) else
  if String.eqb dataType "<i2" then n <- bytesAsLEShort buf ;; Ok (VInt n) else
  if String.eqb dataType "<f" then r <- bytesAsLEFloat buf ;; Ok (VFloat r) else
  if String.eqb dataType "<h" then s <- bytesAsLEHex buf ;; Ok (VStr s) else
  if String.eqb dataType ">i" then n <- bytesAsBEInt buf ;; Ok (VInt n) else
  if String.eqb dataType ">i2" then n <- bytesAsBEShort buf ;; Ok (VInt n) else
  if String.eqb dataType ">f" then r <- bytesAsBEFloat buf ;; Ok (VFloat r) else
  if String.eqb dataType ">h" then s <- bytesAsBEHex buf ;; Ok (VStr s) else
  if String.eqb dataType "i1" then n <- bytesAsChar buf ;; Ok (VInt n) else
  if String.eqb dataType "<ip" then n <- bytesAsLEAddress buf ;; Ok (VInt n) else
  if String.eqb dataType "<pi" then n <- bytesAsLEAddress buf ;; Ok (VInt n) else
  if String.eqb dataType "<p" then n <- bytesAsLEAddress buf ;; Ok (VInt n) else
  if String.eqb dataType ">ip" then n <- bytesAsBEAddress buf ;; Ok (VInt n) else
  if String.eqb dataType ">pi" then n <- bytesAsBEAddress buf ;; Ok (VInt n) else
  if String.eqb dataType ">p" then n <- bytesAsBEAddress buf ;; Ok (VInt n) else
  if String.eqb dataType "s" then s <- bytesAsString buf ;; Ok (VStr s) else
  Ok VNone.

(** [ConvertBackFunctions.get(dataType)] applied to the cell text, or
    [None]. *)
Definition objToBytes (obj : string) (dataType : string) : result field :=
  if String.eqb dataType "<i" then b <- leIntAsBytes obj ;; Ok (FBytes b) else
  if String.eqb dataType "<i2" then b <- leShortAsBytes obj ;; Ok (FBytes b) else
  if String.eqb dataType "<f" then b <- leFloatAsBytes obj ;; Ok (FBytes b) else
  if String.eqb dataType "<h" then b <- leHexAsBytes obj ;; Ok (FBytes b) else
  if String.eqb dataType ">i" then b <- beIntAsBytes obj ;; Ok (FBytes b) else
  if String.eqb dataType ">i2" then b <- beShortAsBytes obj ;; Ok (FBytes b) else
  if String.eqb dataType ">f" then b <- beFloatAsBytes obj ;; Ok (FBytes b) else
  if String.eqb dataType ">h" then b <- beHexAsBytes obj ;; Ok (FBytes b) else
  if String.eqb dataType "i1" then b <- charAsBytes obj ;; Ok (FBytes b) else
  if String.eqb dataType "<ip" then b <- leAddressAsBytes obj ;; Ok (FBytes b) else
  if String.eqb dataType "<pi" then b <- leAddressAsBytes obj ;; Ok (FBytes b) else
  if String.eqb dataType "<p" then b <- leAddressAsBytes obj ;; Ok (FBytes b) else
  if String.eqb dataType ">ip" then b <- beAddressAsBytes obj ;; Ok (FBytes b) else
  if String.eqb dataType ">pi" then b <- beAddressAsBytes obj ;; Ok (FBytes b) else
  if String.eqb dataType ">p" then b <- beAddressAsBytes obj ;; Ok (FBytes b) else
  if String.eqb dataType "s" then b <- stringAsBytes obj ;; Ok (FBytes b) else
  Ok FNone.

End Converters.


(** ** Support formats *)

(** A template row: [[NAME, [(FIELD DATA TYPE, FIELD NAME)]]] *)
Abbreviation template := (string * list (string * string))%type.

(** [followAddress]: the default of [offset] is evaluated when the function
    is defined, so it is the built-in 0x40 whatever a configuration file
    says later. *)
Definition followAddress (raw_address : Z) : Z :=
  raw_address + MXE_ADDRESS_OFFSET MXE_SETTINGS.

(** The loop of [readZeroDelBytes] over the bytes from the cursor on: at the
    end of the file [read(1)] returns [b''], which is neither [None] nor
    [b'\x00'], so the loop never leaves. *)
Fixpoint scan_zero (rest : bytes) (barr : bytes) (p : Z) : result (bytes * Z) :=
  match rest with
  | [] => Diverge
  | c :: r =>
      if decide (c = x00) then Ok (barr, p + 1)
      else scan_zero r (barr ++ [c])%list (p + 1)
  end.

Definition readZeroDelBytes (file : File.t) (startpos backseek : Z) : result (bytes * File.t) :=
  f1 <- File.seek startpos file ;;
  r <- scan_zero (drop (Z.to_nat startpos) (File.content f1)) [] startpos ;;
  let '(barr, p) := r in
  let f2 := File.mk (File.content f1) p in
  if backseek >? 0 then f3 <- File.seek backseek f2 ;; Ok (barr, f3)
  else Ok (barr, f2).

(** *** XLB *)

Record xlb_header := mkHeader {
  recordSize : Z;
  recordCount : Z;
  descrLen : Z;
  descr : string
}.

(** The second component of a record: [''] until a payload is stored. *)
Inductive payload : Type :=
| PEmpty
| PBytes (b : bytes).

Abbreviation xlb_record := (Z * payload)%type.
Abbreviation xlb_section := (xlb_header * list xlb_record)%type.
Abbreviation xlb_data := (list xlb_section).

Section Formats.
Context {R : Runtime}.

Definition readStr (file : File.t) (startpos backseek : Z) : result (string * File.t) :=
  r <- readZeroDelBytes file startpos backseek ;;
  let '(bytearr, f) := r in
  match sjis_decode bytearr with
  | Some s => Ok (s, f)
  | None => Raise UnicodeError
  end.

(** [bytesAsLEInt(f.read(4))] *)
Definition read_int (f : File.t) : result (Z * File.t) :=
  r <- File.read 4 f ;;
  let '(b, f1) := r in
  n <- bytesAsLEInt (FBytes b) ;;
  Ok (n, f1).

(** The inner loop of the header phase: one key per skeleton row. *)
Fixpoint read_skeleton (size : Z) (n : nat) (records : list xlb_record) (f : File.t)
  : result (list xlb_record * File.t) :=
  match n with
  | O => Ok (records, f)
  | S k =>
      r <- read_int f ;;
      let '(id, f1) := r in
      f2 <- File.seek (File.tell f1 + (size - 4)) f1 ;;
      read_skeleton size k (records ++ [(id, PEmpty)])%list f2
  end.

(** The outer loop of the header phase. *)
Fixpoint read_headers (n : nat) (data : xlb_data) (f : File.t) : result (xlb_data * File.t) :=
  match n with
  | O => Ok (data, f)
  | S k =>
      r1 <- read_int f ;; let '(size, f1) := r1 in
      r2 <- read_int f1 ;; let '(count, f2) := r2 in
      r3 <- read_int f2 ;; let '(dlen, f3) := r3 in
      r4 <- File.read dlen f3 ;; let '(raw, f4) := r4 in
      match sjis_decode raw with
      | None => Raise UnicodeError
      | Some d =>
          r5 <- read_skeleton size (Z.to_nat count) [] f4 ;;
          let '(records, f5) := r5 in
          read_headers k (data ++ [(mkHeader size count dlen d, records)])%list f5
      end
  end.

(** The variables of the payload loop. *)
Record cursor := mkCursor {
  currHeader : nat;
  currRec : Z;
  prev_id2 : Z
}.

(** [data[currHeader][0][1]] *)
Definition count_at (data : xlb_data) (h : nat) : result Z :=
  s <- get_nat data h ;; Ok (recordCount (fst s)).

(** [data[currHeader][1][currRec][1] = rec_bytes] *)
Definition store (data : xlb_data) (h : nat) (r : Z) (rec_bytes : bytes) : result xlb_data :=
  s <- get_nat data h ;;
  old <- py_get (snd s) r ;;
  records <- py_set (snd s) r (fst old, PBytes rec_bytes) ;;
  Ok (<[h := (fst s, records)]> data).

(** The five transitions where the source overrides the computed row. *)
Definition crutches (rec_id2 prev : Z) (r : Z) : Z :=
  let r := if (rec_id2 =? 108184) && (prev =? 108120) then 0 else r in
  let r := if (rec_id2 =? 157496) && (prev =? 157368) then 0 else r in
  let r := if (rec_id2 =? 160312) && (prev =? 160248) then 0 else r in
  let r := if (rec_id2 =? 177416) && (prev =? 175880) then 1 else r in
  let r := if (rec_id2 =? 174456) && (prev =? 172856) then 0 else r in
  r.

(** The re-check loop [while(currRec > data[currHeader][0][1])], run over the
    sections from [currHeader] on; running out of sections is the
    [IndexError] of [data[currHeader]]. *)
Fixpoint skip_short (rest : xlb_data) (h : nat) (r : Z) : result (nat * Z) :=
  match rest with
  | [] => Raise IndexError
  | s :: rest' =>
      if r >? recordCount (fst s)
      then skip_short rest' (S h) (r - (recordCount (fst s) - 1) - 3)
      else Ok (h, r)
  end.

(** Where the next payload record goes. *)
Definition next_slot (data : xlb_data) (c : cursor) (rec_id2 : Z) : result (nat * Z) :=
  let add := (rec_id2 - prev_id2 c) / 16 in
  n <- count_at data (currHeader c) ;;
  if currRec c + add <? n then Ok (currHeader c, currRec c + add)
  else
    let empty_old := n - 1 - currRec c in
    let h := S (currHeader c) in
    let r := crutches rec_id2 (prev_id2 c) (add - empty_old - 3) in
    skip_short (drop h data) h r.

(** One payload record: key, length, bytes. *)
Definition read_record (f : File.t) : result (Z * bytes * File.t) :=
  r1 <- read_int f ;; let '(rec_id2, f1) := r1 in
  r2 <- read_int f1 ;; let '(rec_size, f2) := r2 in
  r3 <- File.read rec_size f2 ;; let '(rec_bytes, f3) := r3 in
  Ok (rec_id2, rec_bytes, f3).

(** The first record, read by hand. *)
Definition place_first (data : xlb_data) (rec_id2 : Z) (rec_bytes : bytes)
  : result (xlb_data * cursor) :=
  let r := 0 + (rec_id2 - 48) / 16 in
  data' <- store data O r rec_bytes ;;
  Ok (data', mkCursor O r rec_id2).

(** The body of [while(i < recordCount)] after the record is read. *)
Definition place_next (data : xlb_data) (c : cursor) (rec_id2 : Z) (rec_bytes : bytes)
  : result (xlb_data * cursor) :=
  hr <- next_slot data c rec_id2 ;;
  let '(h, r) := hr in
  data' <- store data h r rec_bytes ;;
  Ok (data', mkCursor h r rec_id2).

Fixpoint payload_loop (n : nat) (data : xlb_data) (c : cursor) (f : File.t) : result xlb_data :=
  match n with
  | O => Ok data
  | S k =>
      rr <- read_record f ;;
      let '(rec_id2, rec_bytes, f1) := rr in
      dc <- place_next data c rec_id2 rec_bytes ;;
      let '(data', c') := dc in
      payload_loop k data' c' f1
  end.

(** The header phase of [readXLB]: the section count, then every section
    with its skeleton rows. *)
Definition read_header_phase (file : bytes) : result (xlb_data * File.t) :=
  f0 <- File.seek 4 (File.open file) ;;
  r0 <- read_int f0 ;; let '(typeCount, f1) := r0 in
  f2 <- File.seek 16 f1 ;;
  read_headers (Z.to_nat typeCount) [] f2.

(** The marker read after the header phase. *)
Definition read_marker (f : File.t) : result (string * File.t) :=
  r1 <- File.read 4 f ;; let '(raw, f4) := r1 in
  chnkhead <- bytesAsString (FBytes raw) ;;
  Ok (chnkhead, f4).

(** The payload phase: the record count, the first record, the loop. *)
Definition read_payload_phase (data : xlb_data) (f4 : File.t) : result xlb_data :=
  r2 <- read_int f4 ;; let '(count, f5) := r2 in
  rr <- read_record f5 ;;
  let '(rec_id2, rec_bytes, f6) := rr in
  dc <- place_first data rec_id2 rec_bytes ;;
  let '(data', c) := dc in
  payload_loop (Z.to_nat (count - 1)) data' c f6.

(** [readXLB], from the opened file to the returned [data]. *)
Definition readXLB (file : bytes) : result xlb_data :=
  hd <- read_header_phase file ;;
  let '(data, f3) := hd in
  m <- read_marker f3 ;;
  let '(chnkhead, f4) := m in
  if negb (String.eqb chnkhead "CHNK") then Ok data
  else read_payload_phase data f4.

(** [findByIDInXLB]: the first record with this id, over all sections. *)
Fixpoint find_in_records (records : list xlb_record) (id : Z) : option payload :=
  match records with
  | [] => None
  | (k, p) :: r => if k =? id then Some p else find_in_records r id
  end.

Fixpoint findByIDInXLB (data : xlb_data) (id : Z) : option payload :=
  match data with
  | [] => None
  | s :: r =>
      match find_in_records (snd s) id with
      | Some p => Some p
      | None => findByIDInXLB r id
      end
  end.

End Formats.

(** ** MXE functions *)

(** One row of [main_table]:
    [[toc_field_id, toc_field_type, [toc_type_string_addr, toc_type_string],
      record_address, [record data according to template]]] *)
Record toc_entry := mkEntry {
  toc_field_id : Z;
  toc_field_type : Z;
  toc_type_string_addr : Z;
  toc_type_string : string;
  record_address : Z;
  record_data : list field
}.

Abbreviation main_table := (list toc_entry).

(** [struct.unpack_from(fmt, buf, offset)] with the offset of a setting: a
    negative offset counts from the end of the buffer. *)
Definition unpack_from_at (e : endian) (w : nat) (buf : bytes) (off : Z) : result Z :=
  let off' := if off <? 0 then off + Z.of_nat (length buf) else off in
  if off' <? 0 then Raise StructError else unpack_from e w buf (Z.to_nat off').

(** [[ s for s in templates if s[0] == key ][0]] *)
Fixpoint find_template (templates : list template) (key : string) : result template :=
  match templates with
  | [] => Raise IndexError
  | s :: r => if String.eqb (fst s) key then Ok s else find_template r key
  end.

(** The key that selects an entry's template. *)
Definition template_key (entry : toc_entry) : string :=
  Text.before_colon (toc_type_string entry).

Definition is_classic (dt : string) : bool := String.eqb dt "<p" || String.eqb dt ">p".
Definition is_xlb (dt : string) : bool := String.eqb dt "<pi" || String.eqb dt ">pi".

Section Mxe.
Context {R : Runtime}.

(** Step 1 of [readMXEFile]: one pass of the loop over the TOC. *)
Definition read_toc_entry (st : mxe_settings) (f : File.t) : result (toc_entry * File.t) :=
  r <- File.read (TOC_ENTRY_SIZE st) f ;;
  let '(buf, f1) := r in
  a1 <- unpack_from_at (TOC_ENDIANNESS st) 4 buf (TOC_FIELD_TYPENAME_ADDR st) ;;
  id <- unpack_from_at (TOC_ENDIANNESS st) 4 buf (TOC_FIELD_ID st) ;;
  ty <- unpack_from_at (TOC_ENDIANNESS st) 4 buf (TOC_FIELD_TYPE st) ;;
  sr <- readStr f1 (followAddress a1) (File.tell f1) ;;
  let '(name, f2) := sr in
  addr <- unpack_from_at (TOC_ENDIANNESS st) 4 buf (TOC_FIELD_RECORD_ADDR st) ;;
  Ok (mkEntry id ty a1 name addr [], f2).

Fixpoint read_toc (st : mxe_settings) (n : nat) (table : main_table) (f : File.t)
  : result (main_table * File.t) :=
  match n with
  | O => Ok (table, f)
  | S k =>
      r <- read_toc_entry st f ;;
      let '(entry, f1) := r in
      read_toc st k (table ++ [entry])%list f1
  end.

(** Step 2, the body of [for dt,name in template[1]]: what is appended to
    [entry[4]], if anything. *)
Definition read_field (st : mxe_settings) (dt : string) (f : File.t)
  : result (option field * File.t) :=
  match DataTypes dt with
  | Some w =>
      if is_classic dt && RESOLVE_CLASSIC_POINTERS st then
        r <- File.read w f ;; let '(raw_addr, f1) := r in
        int_addr <- (if String.eqb dt "<p" then bytesAsLEInt (FBytes raw_addr)
                     else bytesAsBEInt (FBytes raw_addr)) ;;
        sr <- readStr f1 (followAddress int_addr) (File.tell f1) ;;
        let '(val, f2) := sr in
        Ok (Some (FPtrStr raw_addr val), f2)
      else if is_xlb dt && RESOLVE_XLB_POINTERS st then
        r <- File.read w f ;; let '(raw_addr, f1) := r in
        int_addr <- (if String.eqb dt "<pi" then bytesAsLEInt (FBytes raw_addr)
                     else bytesAsBEInt (FBytes raw_addr)) ;;
        sr <- readZeroDelBytes f1 (followAddress int_addr) (File.tell f1) ;;
        let '(val, f2) := sr in
        Ok (Some (FPtrBytes raw_addr val), f2)
      else
        r <- File.read w f ;; let '(b, f1) := r in
        Ok (Some (FBytes b), f1)
  | None => Ok (None, f)
  end.

Fixpoint read_fields (st : mxe_settings) (fields : list (string * string))
    (data : list field) (f : File.t) : result (list field * File.t) :=
  match fields with
  | [] => Ok (data, f)
  | (dt, _) :: rest =>
      r <- read_field st dt f ;;
      let '(v, f1) := r in
      read_fields st rest (match v with Some x => data ++ [x] | None => data end)%list f1
  end.

(** Step 2 for one entry.  The only [IndexError] inside the [try] is the
    failed template lookup, which leaves the entry as step 1 made it. *)
Definition read_entry (st : mxe_settings) (templates : list template)
    (entry : toc_entry) (f : File.t) : result (toc_entry * File.t) :=
  match find_template templates (template_key entry) with
  | Ok tmpl =>
      f1 <- File.seek (followAddress (record_address entry)) f ;;
      r <- read_fields st (snd tmpl) (record_data entry) f1 ;;
      let '(data, f2) := r in
      Ok (mkEntry (toc_field_id entry) (toc_field_type entry) (toc_type_string_addr entry)
                  (toc_type_string entry) (record_address entry) data, f2)
  | _ => Ok (entry, f)
  end.

Fixpoint read_entries (st : mxe_settings) (templates : list template)
    (todo : main_table) (f : File.t) : result main_table :=
  match todo with
  | [] => Ok []
  | entry :: rest =>
      r <- read_entry st templates entry f ;;
      let '(entry', f1) := r in
      tl <- read_entries st templates rest f1 ;;
      Ok (entry' :: tl)
  end.

(** The entry count and the TOC start as the file stores them. *)
Definition read_counts (st : mxe_settings) (file : bytes) : result (Z * Z * File.t) :=
  f0 <- File.seek (MAIN_TABLE_COUNT_ADDR st) (File.open file) ;;
  r0 <- File.read 4 f0 ;; let '(raw, f1) := r0 in
  entry_count <- unpack_from LE 4 raw 0 ;;
  f2 <- File.seek (MAIN_TABLE_STARTADDR_ADDR st) f1 ;;
  r1 <- File.read 4 f2 ;; let '(raw', f3) := r1 in
  entry_start <- unpack_from LE 4 raw' 0 ;;
  Ok (entry_count, entry_start, f3).

Definition readMXEFile (file : bytes) (templates : list template) (st : mxe_settings)
  : result main_table :=
  c <- read_counts st file ;;
  let '(entry_count, entry_start, f3) := c in
  f4 <- File.seek (followAddress entry_start) f3 ;;
  t <- read_toc st (Z.to_nat entry_count) [] f4 ;;
  let '(table, f5) := t in
  read_entries st templates table f5.

(** *** Writing

    The model leaves the optional backup copy and the debug log aside: they
    touch other files.  A write loop can be left by an exception after some
    bytes are already in the file, so the writers return the file together
    with the way they ended. *)

(** [bytearray(entry[4][i][0])]: the raw address of a pointer pair; on a
    plain [bytes] value [x[0]] is an int [n] and [bytearray(n)] is [n] zero
    bytes. *)
Definition pointer_bytes (v : field) : result bytes :=
  match v with
  | FPtrStr raw _ => Ok raw
  | FPtrBytes raw _ => Ok raw
  | FBytes [] => Raise IndexError
  | FBytes (b :: _) => Ok (replicate (Z.to_nat (byte_to_Z b)) x00)
  | FNone => Raise TypeError
  end.

(** [bytearray(entry[4][i])] *)
Definition plain_bytes (v : field) : result bytes :=
  match v with
  | FBytes b => Ok b
  | _ => Raise TypeError
  end.

(** The bytes one template field sends to [f.write]. *)
Definition field_bytes (st : mxe_settings) (dt : string) (v : field) : result bytes :=
  if is_classic dt && RESOLVE_CLASSIC_POINTERS st then pointer_bytes v
  else if is_xlb dt && RESOLVE_XLB_POINTERS st then pointer_bytes v
  else plain_bytes v.

(** The loop [for dt,name in template[1]] with its counter [i]. *)
Fixpoint write_fields (st : mxe_settings) (fields : list (string * string)) (i : nat)
    (data : list field) (f : File.t) : File.t * result unit :=
  match fields with
  | [] => (f, Ok tt)
  | (dt, _) :: rest =>
      match DataTypes dt with
      | Some _ =>
          match get_nat data i with
          | Ok v =>
              match field_bytes st dt v with
              | Ok b => write_fields st rest (S i) data (File.write b f)
              | Raise e => (f, Raise e)
              | Diverge => (f, Diverge)
              end
          | Raise e => (f, Raise e)
          | Diverge => (f, Diverge)
          end
      | None => write_fields st rest (S i) data f
      end
  end.

(** One pass of [for entry in main_table]: an [IndexError] is caught and the
    loop goes on with the next entry. *)
Definition write_entry (st : mxe_settings) (templates : list template)
    (entry : toc_entry) (f : File.t) : File.t * result unit :=
  match find_template templates (template_key entry) with
  | Ok tmpl =>
      match File.seek (followAddress (record_address entry)) f with
      | Ok f1 =>
          match write_fields st (snd tmpl) O (record_data entry) f1 with
          | (f2, Raise IndexError) => (f2, Ok tt)
          | r => r
          end
      | Raise e => (f, Raise e)
      | Diverge => (f, Diverge)
      end
  | _ => (f, Ok tt)
  end.

Fixpoint write_entries (st : mxe_settings) (templates : list template)
    (table : main_table) (f : File.t) : File.t * result unit :=
  match table with
  | [] => (f, Ok tt)
  | entry :: rest =>
      match write_entry st templates entry f with
      | (f1, Ok _) => write_entries st templates rest f1
      | r => r
      end
  end.

(** [writeMXEFile]: the bytes of the file when the function is left, and
    how it was left. *)
Definition writeMXEFile (file : bytes) (table : main_table) (templates : list template)
    (st : mxe_settings) : bytes * result unit :=
  let '(f, r) := write_entries st templates table (File.open file) in
  (File.content f, r).

End Mxe.

(** ** Tabular bridge *)

(** A csv row as the reader returns it and the writer receives it after
    [str()]: a list of cell texts. *)
Abbreviation row := (list string).

(** An element [data[k]] of a stored value: of a pointer pair the raw address
    or the resolved value, of a [bytes] object one byte as an int. *)
Inductive item : Type :=
| IBytes (b : bytes)
| IStr (s : string)
| IInt (n : Z).

Definition item_at (v : field) (k : nat) : result item :=
  match v with
  | FPtrStr raw s => match k with O => Ok (IBytes raw) | _ => Ok (IStr s) end
  | FPtrBytes raw b => match k with O => Ok (IBytes raw) | _ => Ok (IBytes b) end
  | FBytes b => x <- get_nat b k ;; Ok (IInt (byte_to_Z x))
  | FNone => Raise TypeError
  end.

(** The converters refuse a [str] or an int exactly as they refuse [None]:
    no buffer for [struct], no [decode] attribute. *)
Definition item_buffer (x : item) : field :=
  match x with
  | IBytes b => FBytes b
  | _ => FNone
  end.

Definition item_value (x : item) : pyval :=
  match x with
  | IBytes b => VBytes b
  | IStr s => VStr s
  | IInt n => VInt n
  end.

(** [except ValueError] also catches its subclasses. *)
Definition is_ValueError (e : exn) : bool :=
  match e with
  | ValueError | UnicodeError | BinasciiError => true
  | _ => false
  end.

(** The column title of a template field. *)
Definition column_title (t : string * string) : string :=
  if String.eqb (snd t) "" then fst t else fst t ++ ":" ++ snd t.

(** [{ str(entry[2][1].split(':')[0]) for entry in main_table }], listed in
    the order of first appearance; Python leaves the order of a set open. *)
Fixpoint uniq (seen : list string) (names : list string) : list string :=
  match names with
  | [] => []
  | n :: r =>
      if existsb (String.eqb n) seen then uniq seen r
      else n :: uniq (n :: seen) r
  end.

Section CsvExport.
Context {R : Runtime}.

(** [bytesToText(x, "s").replace("\n", "\\LF")] *)
Definition text_cell (v : field) : result pyval :=
  t <- bytesToText v "s" ;;
  match t with
  | VStr s => Ok (VStr (Text.replace (String Text.LF "") "\LF" s))
  | other => Ok other
  end.

(** The innermost branch of the XLB pointer rendering, [try] and [except]
    included. *)
Definition xlb_text (xlb_list : xlb_data) (d1 : item) : result pyval :=
  let nonblank := match d1 with IBytes [] => false | _ => true end in
  if nonblank then
    let attempt :=
      a <- (match d1 with
            | IBytes b => Text.int_of_bytes b
            | IStr s => Text.int_of_str s
            | IInt n => Ok n
            end) ;;
      match findByIDInXLB xlb_list a with
      | Some (PBytes res) => text_cell (FBytes res)
      | _ => Ok (VStr "")
      end in
    match attempt with
    | Raise e => if is_ValueError e then text_cell (item_buffer d1) else Raise e
    | r => r
    end
  else Ok (VStr "").

(** The cell appended for [data = entry[4][i]]. *)
Definition render_cell (st : mxe_settings) (om : output_modifiers) (xlb_list : xlb_data)
    (fields : list (string * string)) (i : nat) (data : field) : result pyval :=
  if FORCE_HEX_OUTPUT om then s <- bytesAsBEHex data ;; Ok (VStr s)
  else
    t <- get_nat fields i ;;
    let dt := fst t in
    if is_classic dt then
      if FORCE_RAW_CLASSIC_POINTERS om then bytesToText data dt
      else if negb (RESOLVE_CLASSIC_POINTERS st) then bytesToText data dt
      else d1 <- item_at data 1 ;; Ok (item_value d1)
    else if is_xlb dt then
      if FORCE_RAW_XLB_POINTERS om then
        if negb (RESOLVE_XLB_POINTERS st) then bytesToText data dt
        else d0 <- item_at data 0 ;; bytesToText (item_buffer d0) dt
      else if negb (RESOLVE_XLB_POINTERS st) then bytesToText data dt
      else if RESOLVE_XLB_STRINGS st then
        if FORCE_XLB_IDS om then bytesToText data dt
        else d1 <- item_at data 1 ;; xlb_text xlb_list d1
      else d1 <- item_at data 1 ;; text_cell (item_buffer d1)
    else bytesToText data dt.

Fixpoint render_cells (st : mxe_settings) (om : output_modifiers) (xlb_list : xlb_data)
    (fields : list (string * string)) (i : nat) (datas : list field) : result row :=
  match datas with
  | [] => Ok []
  | data :: rest =>
      v <- render_cell st om xlb_list fields i data ;;
      cells <- render_cells st om xlb_list fields (S i) rest ;;
      Ok (cell_text v :: cells)
  end.

(** The data row of one entry. *)
Definition entry_row (st : mxe_settings) (om : output_modifiers) (xlb_list : xlb_data)
    (tmpl : template) (entry : toc_entry) : result row :=
  cells <- render_cells st om xlb_list (snd tmpl) O (record_data entry) ;;
  Ok (Text.str_of_int (toc_field_id entry) :: toc_type_string entry :: cells).

Fixpoint entry_rows (st : mxe_settings) (om : output_modifiers) (xlb_list : xlb_data)
    (tmpl : template) (templ_name : string) (table : main_table) : result (list row) :=
  match table with
  | [] => Ok []
  | entry :: rest =>
      if String.eqb (template_key entry) templ_name then
        r <- entry_row st om xlb_list tmpl entry ;;
        rs <- entry_rows st om xlb_list tmpl templ_name rest ;;
        Ok (r :: rs)
      else entry_rows st om xlb_list tmpl templ_name rest
  end.

(** The rows written to [templ_name + ".csv"]. *)
Definition export_table (st : mxe_settings) (om : output_modifiers) (xlb_list : xlb_data)
    (templates : list template) (table : main_table) (templ_name : string)
  : result (list row) :=
  tmpl <- find_template templates templ_name ;;
  rs <- entry_rows st om xlb_list tmpl templ_name table ;;
  Ok (("RecordId" :: "InternalName" :: map column_title (snd tmpl)) :: rs).

Fixpoint export_tables (st : mxe_settings) (om : output_modifiers) (xlb_list : xlb_data)
    (templates : list template) (table : main_table) (names : list string)
  : result (list (string * list row)) :=
  match names with
  | [] => Ok []
  | n :: r =>
      t <- export_table st om xlb_list templates table n ;;
      ts <- export_tables st om xlb_list templates table r ;;
      Ok ((n, t) :: ts)
  end.

(** [writeMXEtoCSV]: each csv file by template name.  [xlb] is the content of
    the file at [xlb_path]; without [RESOLVE_XLB_STRINGS] the name
    [xlb_list] is never bound and never used. *)
Definition writeMXEtoCSV (table : main_table) (templates : list template) (xlb : bytes)
    (st : mxe_settings) (om : output_modifiers) : result (list (string * list row)) :=
  xlb_list <- (if RESOLVE_XLB_STRINGS st then readXLB xlb else Ok []) ;;
  export_tables st om xlb_list templates table (uniq [] (map template_key table)).

End CsvExport.

(** *** Import *)

(** Line breaks inside a cell: the writer quotes such a cell and writes it
    as it is, and a file opened with [newline=''] ends a line at "\n", at
    "\r" and at "\r\n". *)
Fixpoint line_breaks (s : string) : nat :=
  match s with
  | EmptyString => O
  | String c r =>
      if Ascii.eqb c Text.CR then
        match r with
        | String c' r' => if Ascii.eqb c' Text.LF then S (line_breaks r') else S (line_breaks r)
        | EmptyString => 1%nat
        end
      else if Ascii.eqb c Text.LF then S (line_breaks r)
      else line_breaks r
  end.

Definition row_lines (r : row) : nat := S (list_sum (map line_breaks r)).

(** What [csv.reader] yields for a file that [csv.writer] wrote from [rows]:
    every row with [reader.line_num] as it stands when the row is handed
    out.  The quoting of the csv module and the codec of the text file are
    taken to give back the cell texts that were written. *)
Fixpoint csv_reader (line : nat) (rows : list row) : list (nat * row) :=
  match rows with
  | [] => []
  | r :: rest => (line + row_lines r, r)%nat :: csv_reader (line + row_lines r) rest
  end.

(** [tuple(x.split(':',1)) if ":" in x else (x, '')] *)
Fixpoint after_colon (s : string) : string :=
  match s with
  | EmptyString => EmptyString
  | String c r => if Ascii.eqb c ":" then r else after_colon r
  end.

Definition split_column (x : string) : string * string :=
  (Text.before_colon x, after_colon x).

Definition is_pointer_type (dt : string) : bool :=
  String.eqb dt "<p" || String.eqb dt ">p" || String.eqb dt "<pi" || String.eqb dt ">pi"
  || String.eqb dt "<ip" || String.eqb dt ">ip".

(** The locals of [applyCSVtoMXE] together with the table they alias:
    [entry] is bound to the record data of one table row, which is kept here
    as the index of that row; [None] stands for the unbound name.
    [template] starts as the empty list, kept as [None]. *)
Record import_state := mkImport {
  im_table : main_table;
  im_header_row : list (string * string);
  im_template : option template;
  im_entry : option nat
}.

Definition set_record_data (entry : toc_entry) (data : list field) : toc_entry :=
  mkEntry (toc_field_id entry) (toc_field_type entry) (toc_type_string_addr entry)
          (toc_type_string entry) (record_address entry) data.

Section CsvImport.
Context {R : Runtime}.

(** The body of the [try] in the loop over the template fields, for column
    [i]: the table after it and the way it ended. *)
Definition import_cell (table : main_table) (header_row : list (string * string))
    (entry : option nat) (r : row) (i : nat) (dt : string) : main_table * result unit :=
  match get_nat header_row i with
  | Ok h =>
      if negb (String.eqb (fst h) dt) then (table, Ok tt)
      else if is_pointer_type dt then (table, Ok tt)
      else
        match get_nat r (2 + i) with
        | Ok cell =>
            match objToBytes cell dt with
            | Ok b =>
                match entry with
                | None => (table, Raise NameError)
                | Some k =>
                    match table !! k with
                    | Some e =>
                        match get_nat (record_data e) i with
                        | Ok old =>
                            if decide (old = b) then (table, Ok tt)
                            else (<[k := set_record_data e (<[i := b]> (record_data e))]> table,
                                  Ok tt)
                        | Raise x => (table, Raise x)
                        | Diverge => (table, Diverge)
                        end
                    | None => (table, Raise NameError)   (* the table keeps its length *)
                    end
                end
            | Raise x => (table, Raise x)
            | Diverge => (table, Diverge)
            end
        | Raise x => (table, Raise x)
        | Diverge => (table, Diverge)
        end
  | Raise x => (table, Raise x)
  | Diverge => (table, Diverge)
  end.

(** [for (dt, _) in template[1]] with its counter; [except IndexError]
    prints and goes on with the next column. *)
Fixpoint import_cells (table : main_table) (header_row : list (string * string))
    (entry : option nat) (r : row) (i : nat) (fields : list (string * string))
  : main_table * result unit :=
  match fields with
  | [] => (table, Ok tt)
  | (dt, _) :: rest =>
      match import_cell table header_row entry r i dt with
      | (table', Ok _) => import_cells table' header_row entry r (S i) rest
      | (table', Raise IndexError) => import_cells table' header_row entry r (S i) rest
      | other => other
      end
  end.

(** What one row does to the locals.  The boolean tells whether the
    function goes on to the next row; the header check leaves it with
    [return]. *)
Definition import_row (templates : list template) (s : import_state) (line_num : nat)
    (r : row) : import_state * result bool :=
  if (line_num =? 1)%nat then
    match get_nat r 0, get_nat r 1 with
    | Ok c0, Ok c1 =>
        if negb (String.eqb c0 "RecordId") || negb (String.eqb c1 "InternalName")
        then (s, Ok false)
        else (mkImport (im_table s) (map split_column (drop 2 r)) (im_template s) (im_entry s),
              Ok true)
    | _, _ => (s, Raise IndexError)
    end
  else
    let found :=
      if (line_num =? 2)%nat then
        c1 <- get_nat r 1 ;;
        t <- find_template templates (Text.before_colon c1) ;;
        Ok (Some t)
      else Ok (im_template s) in
    match found with
    | Ok tmpl =>
        match c0 <- get_nat r 0 ;; Text.int_of_str c0 with
        | Ok idx =>
            let entry :=
              match py_index (im_table s) idx with
              | Some k => Some k
              | None => im_entry s
              end in
            let s1 := mkImport (im_table s) (im_header_row s) tmpl entry in
            match tmpl with
            | None => (s1, Raise IndexError)
            | Some t =>
                let '(table', res) :=
                  import_cells (im_table s) (im_header_row s) entry r O (snd t) in
                (mkImport table' (im_header_row s) tmpl entry, x <- res ;; Ok true)
            end
        | Raise x => (mkImport (im_table s) (im_header_row s) tmpl (im_entry s), Raise x)
        | Diverge => (s, Diverge)
        end
    | Raise x => (s, Raise x)
    | Diverge => (s, Diverge)
    end.

Fixpoint import_rows (templates : list template) (s : import_state)
    (rows : list (nat * row)) : import_state * result unit :=
  match rows with
  | [] => (s, Ok tt)
  | (line_num, r) :: rest =>
      match import_row templates s line_num r with
      | (s', Ok true) => import_rows templates s' rest
      | (s', Ok false) => (s', Ok tt)
      | (s', Raise x) => (s', Raise x)
      | (s', Diverge) => (s', Diverge)
      end
  end.

(** [applyCSVtoMXE]: the main table as the call leaves it, whether it
    returns or raises, for the rows the csv reader yields. *)
Definition applyCSVtoMXE (table : main_table) (templates : list template)
    (rows : list (nat * row)) : main_table * result unit :=
  let '(s, res) := import_rows templates (mkImport table [] None None) rows in
  (im_table s, res).

(** [applyCSVDIRtoMXE]: one csv file after the other; an exception ends the
    whole pass. *)
Fixpoint applyCSVDIRtoMXE (table : main_table) (templates : list template)
    (files : list (list (nat * row))) : main_table * result unit :=
  match files with
  | [] => (table, Ok tt)
  | rows :: rest =>
      match applyCSVtoMXE table templates rows with
      | (table', Ok _) => applyCSVDIRtoMXE table' templates rest
      | other => other
      end
  end.

End CsvImport.

(** ** The placement rule in the words of the specification

    Section 4.3 of the specification words the section boundary as: let
    [emptyLeft = recordCount(currentSection) - 1 - currentSlot], advance one
    section, set [currentSlot = delta - emptyLeft - 3], and while
    [currentSlot] exceeds the new section's capacity repeat
    [currentSlot -= (recordCount(currentSection) - 1) - 3] and advance. *)



(** ** Placement, seen from outside the loop *)


(** What [k] passes of the re-check loop take off the row: for every
    section passed, its record count less one, and three. *)
Fixpoint passed_rows (rest : xlb_data) (k : nat) : Z :=
  match k, rest with
  | S k', s :: rest' => (recordCount (fst s) - 1) + 3 + passed_rows rest' k'
  | _, _ => 0
  end.



(** ** Vocabulary of the statements *)



(** Two table rows with the same TOC header. *)
Definition same_header (e e' : toc_entry) : Prop :=
  toc_field_id e' = toc_field_id e /\ toc_field_type e' = toc_field_type e
  /\ toc_type_string_addr e' = toc_type_string_addr e
  /\ toc_type_string e' = toc_type_string e /\ record_address e' = record_address e.

(** Every data type named by the templates has a width in [DataTypes]. *)
Definition known_types (templates : list template) : bool :=
  forallb (fun t : template =>
             forallb (fun fld : string * string =>
                        match DataTypes (fst fld) with Some _ => true | None => false end)
                     (snd t))
          templates.

(** A template field whose stored value is a [[raw_addr, val]] pair. *)
Definition resolved_pointer (st : mxe_settings) (dt : string) : bool :=
  (is_classic dt && RESOLVE_CLASSIC_POINTERS st) || (is_xlb dt && RESOLVE_XLB_POINTERS st).

Definition known_fields (fields : list (string * string)) : bool :=
  forallb (fun fld : string * string =>
             match DataTypes (fst fld) with Some _ => true | None => false end) fields.

(** The stored value has the shape its data type asks for: a pair for a
    resolved pointer, plain bytes otherwise. *)
Definition shaped (st : mxe_settings) (dt : string) (x : field) : Prop :=
  if resolved_pointer st dt
  then (exists raw val, x = FPtrStr raw val) \/ (exists raw val, x = FPtrBytes raw val)
  else exists b, x = FBytes b.

(** A record table that fits the main table: the template of its first data
    row (the row on line 2) is [t0], and every data row whose RecordId is an
    index of the main table names an entry whose own template is [t0]. *)
Definition row_fits {R : Runtime} (templates : list template) (table : main_table)
    (t0 : template) (lr : nat * row) : bool :=
  let '(line_num, r) := lr in
  (if (line_num =? 2)%nat then
     match r !! 1%nat with
     | Some c1 =>
         match find_template templates (Text.before_colon c1) with
         | Ok t => bool_decide (t = t0)
         | _ => true
         end
     | None => true
     end
   else true)
  && (if (line_num =? 1)%nat then true
      else
        match r !! 0%nat with
        | Some c0 =>
            match Text.int_of_str c0 with
            | Ok idx =>
                match py_index table idx with
                | Some k =>
                    match table !! k with
                    | Some e =>
                        match find_template templates (template_key e) with
                        | Ok t => bool_decide (t = t0)
                        | _ => false
                        end
                    | None => true
                    end
                | None => true
                end
            | _ => true
            end
        | None => true
        end).

Definition rows_fit {R : Runtime} (templates : list template) (table : main_table)
    (t0 : template)
    (rows : list (nat * row)) : bool :=
  forallb (row_fits templates table t0) rows.


(** Every character of the text satisfies [p]. *)
Fixpoint all_chars (p : ascii -> bool) (s : string) : bool :=
  match s with
  | EmptyString => true
  | String c r => p c && all_chars p r
  end.

Definition is_int_type (dt : string) : bool :=
  String.eqb dt "<i" || String.eqb dt ">i" || String.eqb dt "<i2" || String.eqb dt ">i2"
  || String.eqb dt "i1".

Section RoundTrip.
Context {R : Runtime}.

(** The stored value survives the way out through its converter and back
    through the converter of the import. *)
Definition round_trips (v : field) (dt : string) : Prop :=
  forall pv, bytesToText v dt = Ok pv -> objToBytes (cell_text pv) dt = Ok v.

(** Field [i] of entry [e], holding [v], is either of a pointer type or
    round-trips through the codec of its data type. *)
Definition stays (templates : list template) (e : toc_entry) (i : nat) (v : field) : Prop :=
  forall te dt nm,
    find_template templates (template_key e) = Ok te ->
    snd te !! i = Some (dt, nm) -> is_pointer_type dt = false -> round_trips v dt.

(** [tbl] has the rows of [tb], and every field of [tb] that stays still
    holds its value. *)
Definition keeps_fields (templates : list template) (tb tbl : main_table) : Prop :=
  length tbl = length tb
  /\ forall k e i v, tb !! k = Some e -> record_data e !! i = Some v ->
       stays templates e i v ->
       exists e', tbl !! k = Some e' /\ record_data e' !! i = Some v.

(** [r] is the data row the export writes for the entry at index [k]. *)
Definition exported_row (templates : list template) (tb : main_table) (st : mxe_settings)
    (om : output_modifiers) (xlb_list : xlb_data) (tmpl : template) (r : row) : Prop :=
  exists k e cells,
    tb !! k = Some e /\ find_template templates (template_key e) = Ok tmpl
    /\ r = Text.str_of_int (Z.of_nat k) :: toc_type_string e :: cells
    /\ render_cells st om xlb_list (snd tmpl) 0 (record_data e) = Ok cells.

End RoundTrip.

(** ** Worked examples *)

(** ** A runtime for the worked examples

    The examples below use ASCII text and no float column.  On the bytes
    0x00..0x7F other than 0x5C and 0x7E the [shift_jisx0213] codec is the
    identity; everything else, [int()] of a text outside ASCII included, is
    answered here with an error or an empty text, and no example reaches
    those answers. *)

Definition ascii_plain (b : byte) : bool :=
  let n := byte_to_Z b in (n <? 128) && negb (n =? 92) && negb (n =? 126).

Definition ascii_decode (b : bytes) : option string :=
  if forallb ascii_plain b then Some (Text.string_of_bytes b) else None.

Definition ascii_encode (s : string) : option bytes :=
  let b := map byte_of_ascii (list_ascii_of_string s) in
  if forallb ascii_plain b then Some b else None.

Definition example_runtime : Runtime := {|
  sjis_decode := ascii_decode;
  sjis_encode := ascii_encode;
  float_round2 := fun _ _ => "";
  float_pack := fun _ _ => Raise ValueError;
  bytes_repr := fun _ => "";
  int_unicode := fun _ => None
|}.

(** A four-byte little-endian field of an example file. *)
Definition le32 (n : Z) : bytes := le_bytes 4 (n mod 2 ^ 32).

Definition ascii_bytes (s : string) : bytes := map byte_of_ascii (list_ascii_of_string s).

(** An XLB file with one section of three four-byte rows and the payload
    records 48, 64 and 80. *)
Definition xlb_head : bytes :=
  (le32 0 ++ le32 1 ++ le32 0 ++ le32 0
   ++ le32 4 ++ le32 3 ++ le32 1 ++ ascii_bytes "A"
   ++ le32 48 ++ le32 64 ++ le32 80)%list.

Definition xlb_payloads : bytes :=
  (le32 3 ++ le32 48 ++ le32 1 ++ ascii_bytes "a"
   ++ le32 64 ++ le32 1 ++ ascii_bytes "b"
   ++ le32 80 ++ le32 1 ++ ascii_bytes "c")%list.

Definition xlb_good : bytes := (xlb_head ++ ascii_bytes "CHNK" ++ xlb_payloads)%list.

(** The same file with another marker. *)
Definition xlb_bad_marker : bytes := (xlb_head ++ ascii_bytes "CHNX" ++ xlb_payloads)%list.

(** Three sections of 2, 1 and 10 rows, as the header phase leaves them. *)
Definition three_sections : xlb_data :=
  [ (mkHeader 4 2 0 "", [(48, PEmpty); (64, PEmpty)]);
    (mkHeader 4 1 0 "", [(500, PEmpty)]);
    (mkHeader 4 10 0 "", map (fun k => (k, PEmpty)) [600; 616; 632; 648; 664; 680; 696; 712; 728; 744]) ].

(** One entry of the table of contents of an example file. *)
Definition toc_bytes (id ty name_addr rec_addr : Z) : bytes :=
  (le32 id ++ le32 ty ++ le32 name_addr ++ le32 0 ++ le32 rec_addr ++ replicate 12 x00)%list.

(** An MXE file in the default layout with [count] entries announced and
    three entries in its table of contents: two weapons, whose second field
    points to a text in the file, and one entry of a type without
    template. *)
Definition mxe_file (count id0 id1 : Z) : bytes :=
  (replicate 200 x00 ++ le32 count ++ replicate 20 x00 ++ le32 192 ++ replicate 28 x00
   ++ toc_bytes id0 1 288 320 ++ toc_bytes id1 1 297 330 ++ toc_bytes 2 2 301 0
   ++ ascii_bytes "Wpn:Main" ++ [x00] ++ ascii_bytes "Wpn" ++ [x00]
   ++ ascii_bytes "Unk" ++ [x00] ++ replicate 15 x00
   ++ le32 7 ++ le32 340 ++ [x2c; x01]
   ++ le32 9 ++ le32 344 ++ [x05; x00]
   ++ ascii_bytes "gun" ++ [x00] ++ ascii_bytes "axe" ++ [x00])%list.

Definition mxe_example : bytes := mxe_file 3 0 1.

Definition example_templates : list template :=
  [ ("Wpn", [("<i", "power"); ("<p", "label"); ("<i2", "ammo")]);
    ("Shield", [("<i", "armor"); ("<i", "weight")]) ].

(** The table [readMXEFile] returns for [mxe_example]. *)
Definition example_table : main_table :=
  [ mkEntry 0 1 288 "Wpn:Main" 320 [FBytes (le32 7); FPtrStr (le32 340) "gun"; FBytes [x2c; x01]];
    mkEntry 1 1 297 "Wpn" 330 [FBytes (le32 9); FPtrStr (le32 344) "axe"; FBytes [x05; x00]];
    mkEntry 2 2 301 "Unk" 0 [] ].

Definition force_hex : output_modifiers := {|
  FORCE_HEX_OUTPUT := true;
  FORCE_RAW_CLASSIC_POINTERS := false;
  FORCE_RAW_XLB_POINTERS := false;
  FORCE_XLB_IDS := false
|}.

(** A record table for the weapons whose second data row names record 9,
    which the three-entry table does not have. *)
Definition csv_out_of_range : list (nat * row) :=
  [ (1%nat, ["RecordId"; "InternalName"; "<i:power"; "<p:label"; "<i2:ammo"]);
    (2%nat, ["0"; "Wpn:Main"; "7"; "gun"; "300"]);
    (3%nat, ["9"; "Wpn"; "50"; "axe"; "60"]) ].

(** A record table written for the shields whose data row names record 0,
    which is a weapon. *)
Definition csv_wrong_type : list (nat * row) :=
  [ (1%nat, ["RecordId"; "InternalName"; "<i:armor"; "<i:weight"]);
    (2%nat, ["0"; "Shield"; "1"; "2"]) ].

(** A record table for the weapons that changes two values of record 0 and
    offers another text for its pointer column. *)
Definition csv_edit : list (nat * row) :=
  [ (1%nat, ["RecordId"; "InternalName"; "<i:power"; "<p:label"; "<i2:ammo"]);
    (2%nat, ["0"; "Wpn:Main"; "8"; "cannon"; "299"]) ].

Definition weapon_template : template :=
  ("Wpn", [("<i", "power"); ("<p", "label"); ("<i2", "ammo")]).

(** The table [readMXEFile] returns for [mxe_file 2 1 0], whose two weapons
    carry the ids 1 and 0, in this order. *)
Definition swapped_table : main_table :=
  [ mkEntry 1 1 288 "Wpn:Main" 320 [FBytes (le32 7); FPtrStr (le32 340) "gun"; FBytes [x2c; x01]];
    mkEntry 0 1 297 "Wpn" 330 [FBytes (le32 9); FPtrStr (le32 344) "axe"; FBytes [x05; x00]] ].

(** The record table the export writes for it. *)
Definition swapped_rows : list row :=
  [ ["RecordId"; "InternalName"; "<i:power"; "<p:label"; "<i2:ammo"];
    ["1"; "Wpn:Main"; "7"; "gun"; "300"];
    ["0"; "Wpn"; "9"; "axe"; "5"] ].

(** The record table the export writes for the first two entries of
    [example_table]. *)
Definition example_rows : list row :=
  [ ["RecordId"; "InternalName"; "<i:power"; "<p:label"; "<i2:ammo"];
    ["0"; "Wpn:Main"; "7"; "gun"; "300"];
    ["1"; "Wpn"; "9"; "axe"; "5"] ].


(** ** Template registry *)

(** [readTemplates], for the rows the csv reader yields: the first cell is
    the name, every other cell a field, [datatype] or [datatype:fieldname].
    A row without cells has no [row[0]]. *)
Fixpoint readTemplates (rows : list row) : result (list template) :=
  match rows with
  | [] => Ok []
  | r :: rest =>
      name <- get_nat r 0 ;;
      ts <- readTemplates rest ;;
      Ok ((name, map split_column (drop 1 r)) :: ts)
  end.

(** The text has no colon. *)
Definition colon_free (s : string) : bool :=
  all_chars (fun c => negb (Ascii.eqb c ":")) s.


Definition is_hex_type (dt : string) : bool := String.eqb dt "<h" || String.eqb dt ">h".

(** The headers and the keys of a container, without the payloads. *)
Definition skeleton (data : xlb_data) : list (xlb_header * list Z) :=
  map (fun s : xlb_section => (fst s, map fst (snd s))) data.

(** All keys of a container, section after section. *)
Definition keys (data : xlb_data) : list Z :=
  concat (map (fun s : xlb_section => map fst (snd s)) data).

(** The template fields whose data type has a width: the ones [readMXEFile]
    stores a value for. *)
Definition typed_fields (fields : list (string * string)) : list (string * string) :=
  List.filter (fun fld : string * string =>
                 match DataTypes (fst fld) with Some _ => true | None => false end) fields.

(** Same rows, same TOC headers, same number of stored values per row. *)
Definition same_shape (tb tbl : main_table) : Prop :=
  Forall2 (fun e e' : toc_entry =>
             same_header e e' /\ length (record_data e') = length (record_data e)) tb tbl.

(** The entries that go to the record table [name], in table order. *)
Definition entries_of (name : string) (table : main_table) : main_table :=
  List.filter (fun e : toc_entry => String.eqb (template_key e) name) table.

(** A data row of a record table stands for the entry [e]. *)
Definition row_of (e : toc_entry) (r : row) : Prop :=
  r !! 0%nat = Some (Text.str_of_int (toc_field_id e))
  /\ r !! 1%nat = Some (toc_type_string e)
  /\ length r = (2 + length (record_data e))%nat.

(** The first line of the record table of a template. *)
Definition header_line (tmpl : template) : row :=
  "RecordId" :: "InternalName" :: map column_title (snd tmpl).

(** ** Read, import, write *)

(** A value as [readMXEFile] stored it for a field of data type [dt]: of
    the shape of the type, and written back as at most as many bytes as
    the type is wide. *)
Definition as_read (st : mxe_settings) (dt : string) (x : field) : Prop :=
  shaped st dt x
  /\ exists c w, DataTypes dt = Some w /\ field_bytes st dt x = Ok c
                 /\ (length c <= Z.to_nat w)%nat.

(** [tbl] is what imports made of [tb]: the same rows and headers, and in
    every field either the value of [tb] or, for a field that is not of a
    pointer type, what [objToBytes] made of some cell for the data type of
    the field. *)
Definition follows {R : Runtime} (templates : list template) (tb tbl : main_table) : Prop :=
  length tbl = length tb
  /\ forall k e, tb !! k = Some e ->
       exists e', tbl !! k = Some e' /\ same_header e e'
                  /\ length (record_data e') = length (record_data e)
                  /\ forall te i dt nm x',
                       find_template templates (template_key e) = Ok te ->
                       snd te !! i = Some (dt, nm) ->
                       record_data e' !! i = Some x' ->
                       record_data e !! i = Some x'
                       \/ (is_pointer_type dt = false
                           /\ exists cell, objToBytes cell dt = Ok x').

Definition import_follows {R : Runtime} (templates : list template) (tb : main_table)
    (t0 : template) (s : import_state) : Prop :=
  follows templates tb (im_table s)
  /\ (forall t, im_template s = Some t -> t = t0)
  /\ (forall k, im_entry s = Some k ->
        exists e, tb !! k = Some e /\ find_template templates (template_key e) = Ok t0).

(** Record tables that fit the main table: in each of them the data rows
    whose RecordId is an index of the main table all name entries of the
    template of its first data row. *)
Definition tables_fit {R : Runtime} (templates : list template) (table : main_table)
    (files : list (list (nat * row))) : Prop :=
  Forall (fun rows => exists t0, rows_fit templates table t0 rows = true) files.

(** The bytes write-back sends to [f.write] for one field, and for the
    fields of a record in turn. *)
Definition chunk (st : mxe_settings) (dt : string) (x : field) : bytes :=
  match field_bytes st dt x with
  | Ok c => c
  | _ => []
  end.

Fixpoint field_chunks (st : mxe_settings) (fields : list (string * string))
    (data : list field) : list bytes :=
  match fields, data with
  | fld :: fs, x :: xs => chunk st (fst fld) x :: field_chunks st fs xs
  | _, _ => []
  end.

(** The number of bytes of a record of the template. *)
Definition record_width (fields : list (string * string)) : Z :=
  fold_right (fun (fld : string * string) acc =>
                match DataTypes (fst fld) with
                | Some w => w + acc
                | None => acc
                end) 0 fields.

(** Every record that has a template lies inside the file. *)
Definition records_inside (templates : list template) (table : main_table) (file : bytes)
  : Prop :=
  Forall (fun e : toc_entry =>
            forall t, find_template templates (template_key e) = Ok t ->
              followAddress (record_address e) + record_width (snd t)
              <= Z.of_nat (length file)) table.

(** ** The payload records of an XLB file *)


(** ** The command line script

    The statements at module level, after [parser.parse_args()].  The
    functions they call, the file system and the functions of [os.path] are
    taken as they come: [world] gives, for every argument list, the way a
    call ends, so that what is said of [main] holds whatever the files
    contain.  [main] returns the calls it made, in order, and the way the run
    ended. *)
Module Main.

Inductive run_mode := ModeR | ModeT | ModeW | ModeD.

(** The namespace [args]; an option that is not given is [None]. *)
Record args := mkArgs {
  args_mxe_path : string;
  args_mode : run_mode;
  args_template_csv_path : option string;
  args_csv_dir : option string;
  args_single_csv : option string;
  args_xlb_path : option string;
  args_quiet : bool;
  args_log : option string;
  args_config_file : option string;
  args_backup_mxe : bool
}.

(** What a call can raise: the exceptions of the model, [FileNotFoundError],
    which the script tells apart, and any other. *)
Inductive raised :=
| Exn (e : exn)
| FileNotFoundError
| OtherError.

Inductive outcome (A : Type) :=
| Returns (a : A)
| Raises (e : raised)
| Never.
Arguments Returns {A} a.
Arguments Raises {A} e.
Arguments Never {A}.

Record world := mkWorld {
  isdir : string -> bool;
  splitext : string -> string * string;
  dirname : string -> string;
  join : string -> string -> string;
  (** the [else] branch of the configuration step, as a whole *)
  load_config : string -> outcome unit;
  run_readTemplates : string -> outcome (list template);
  run_readMXEFile : string -> list template -> outcome main_table;
  run_writeMXEtoCSV : main_table -> list template -> string -> string -> outcome unit;
  (** the two imports change the table in place: the table as the call
      leaves it, and the way it ends *)
  run_applyCSVDIRtoMXE : main_table -> list template -> string -> main_table * outcome unit;
  run_applyCSVtoMXE : main_table -> list template -> string -> main_table * outcome unit;
  run_writeMXEFile :
    string -> main_table -> list template -> bool -> bool -> string -> outcome unit
}.

Inductive call :=
| CallReadTemplates (path : string)
| CallReadMXEFile (path : string) (templates : list template)
| CallWriteMXEtoCSV (table : main_table) (templates : list template) (dir xlb : string)
| CallApplyCSVDIRtoMXE (table : main_table) (templates : list template) (dir : string)
| CallApplyCSVtoMXE (table : main_table) (templates : list template) (path : string)
| CallWriteMXEFile (path : string) (table : main_table) (templates : list template)
    (backup debug : bool) (log : string).

Inductive ending :=
| Finished                 (* the last statement is done *)
| Exited                   (* [exit()] after a message *)
| Uncaught (e : raised)    (* a traceback *)
| Hangs.

(** The global names of the script.  Each starts as the empty text (lines
    16 to 26) and is assigned only in the one branch of the option handling
    shown here. *)
Record names := mkNames {
  template_path : string;
  csv_directory : string;
  csv_path : string;
  xlb_path : string;
  debug_log : string;
  debug : bool
}.

Definition bind_names (w : world) (a : args) : names :=
  {| template_path :=
       match args_template_csv_path a with
       | None => join w (dirname w (args_mxe_path a)) "VlMx_entry_templates.csv"
       | Some _ => ""
       end;
     csv_directory :=
       match args_csv_dir a with
       | None => fst (splitext w (args_mxe_path a))
       | Some _ => ""
       end;
     csv_path :=
       match args_single_csv a with
       | Some p => p
       | None => ""
       end;
     xlb_path :=
       match args_xlb_path a with
       | None => join w (dirname w (args_mxe_path a)) "text_mx.xlb"
       | Some _ => ""
       end;
     debug_log :=
       match args_log a with
       | None => join w (dirname w (args_mxe_path a)) "write_log.txt"
       | Some _ => ""
       end;
     debug := negb (args_quiet a) |}.

(** [try: f(...) except: print(...); exit()] *)
Definition guarded (tr : list call) (c : call) (r : outcome unit)
    (k : list call -> list call * ending) : list call * ending :=
  match r with
  | Returns _ => k (tr ++ [c])%list
  | Raises _ => ((tr ++ [c])%list, Exited)
  | Never => ((tr ++ [c])%list, Hangs)
  end.

(** [if args.mode=="W"] *)
Definition write_stage (w : world) (a : args) (n : names) (templates : list template)
    (table : main_table) (tr : list call) : list call * ending :=
  match args_mode a with
  | ModeW =>
      guarded tr
        (CallWriteMXEFile (args_mxe_path a) table templates (args_backup_mxe a)
           (debug n) (debug_log n))
        (run_writeMXEFile w (args_mxe_path a) table templates (args_backup_mxe a)
           (debug n) (debug_log n))
        (fun tr' => (tr', Finished))
  | _ => (tr, Finished)
  end.

(** [if(csv_path != "")], inside [if args.mode=="W" or args.mode=="T"] *)
Definition single_stage (w : world) (a : args) (n : names) (templates : list template)
    (table : main_table) (tr : list call) : list call * ending :=
  if negb (String.eqb (csv_path n) "") then
    let '(table', r) := run_applyCSVtoMXE w table templates (csv_path n) in
    guarded tr (CallApplyCSVtoMXE table templates (csv_path n)) r
      (write_stage w a n templates table')
  else write_stage w a n templates table tr.

(** [if args.mode=="W" or args.mode=="T"] *)
Definition apply_stage (w : world) (a : args) (n : names) (templates : list template)
    (table : main_table) (tr : list call) : list call * ending :=
  if negb (String.eqb (csv_directory n) "") then
    let '(table', r) := run_applyCSVDIRtoMXE w table templates (csv_directory n) in
    guarded tr (CallApplyCSVDIRtoMXE table templates (csv_directory n)) r
      (single_stage w a n templates table')
  else single_stage w a n templates table tr.

(** [if args.mode=="R"] *)
Definition export_stage (w : world) (n : names) (templates : list template)
    (table : main_table) (tr : list call) : list call * ending :=
  guarded tr (CallWriteMXEtoCSV table templates (csv_directory n) (xlb_path n))
    (run_writeMXEtoCSV w table templates (csv_directory n) (xlb_path n))
    (fun tr' => (tr', Finished)).

Definition after_read (w : world) (a : args) (n : names) (templates : list template)
    (table : main_table) (tr : list call) : list call * ending :=
  match args_mode a with
  | ModeD => (tr, Finished)
  | ModeR => export_stage w n templates table tr
  | ModeT | ModeW => apply_stage w a n templates table tr
  end.

Definition main (w : world) (a : args) : list call * ending :=
  if isdir w (args_mxe_path a)
     || negb (String.eqb (snd (splitext w (args_mxe_path a))) ".mxe")
  then ([], Exited)
  else
    match (match args_config_file a with
           | None => Returns tt
           | Some c => load_config w c
           end) with
    | Raises e => ([], Uncaught e)
    | Never => ([], Hangs)
    | Returns _ =>
        let n := bind_names w a in
        let tr1 := [CallReadTemplates (template_path n)] in
        match run_readTemplates w (template_path n) with
        | Raises FileNotFoundError => (tr1, Exited)
        | Raises e => (tr1, Uncaught e)
        | Never => (tr1, Hangs)
        | Returns templates =>
            let tr2 := (tr1 ++ [CallReadMXEFile (args_mxe_path a) templates])%list in
            match run_readMXEFile w (args_mxe_path a) templates with
            | Raises _ => (tr2, Exited)
            | Never => (tr2, Hangs)
            | Returns table => after_read w a n templates table tr2
            end
        end
    end.

(** The path a call gets for a name of the script: the one made up from
    the MXE path when the option was left out, the empty text when it was
    given. *)
Definition derived (option : option string) (path : string) : string :=
  match option with
  | None => path
  | Some _ => ""
  end.

(** What the option handling leaves to a call: of the values given on the
    command line only the MXE path and the single csv file. *)
Definition script_paths (w : world) (a : args) (c : call) : Prop :=
  let dir := dirname w (args_mxe_path a) in
  match c with
  | CallReadTemplates p =>
      p = derived (args_template_csv_path a) (join w dir "VlMx_entry_templates.csv")
  | CallReadMXEFile p _ => p = args_mxe_path a
  | CallWriteMXEtoCSV _ _ d x =>
      d = derived (args_csv_dir a) (fst (splitext w (args_mxe_path a)))
      /\ x = derived (args_xlb_path a) (join w dir "text_mx.xlb")
  | CallApplyCSVDIRtoMXE _ _ d =>
      args_csv_dir a = None /\ d = fst (splitext w (args_mxe_path a)) /\ d <> ""
  | CallApplyCSVtoMXE _ _ p => args_single_csv a = Some p /\ p <> ""
  | CallWriteMXEFile p _ _ b dbg lg =>
      p = args_mxe_path a /\ b = args_backup_mxe a /\ dbg = negb (args_quiet a)
      /\ lg = derived (args_log a) (join w dir "write_log.txt")
  end.

Definition is_write (c : call) : bool :=
  match c with CallWriteMXEFile _ _ _ _ _ _ => true | _ => false end.

Definition with_mode (m : run_mode) (a : args) : args :=
  mkArgs (args_mxe_path a) m (args_template_csv_path a) (args_csv_dir a) (args_single_csv a)
         (args_xlb_path a) (args_quiet a) (args_log a) (args_config_file a)
         (args_backup_mxe a).

End Main.

(** A record table written for the shields whose data row names record 0,
    a weapon, and puts 200 where the weapon has its pointer. *)
Definition csv_wide : list (nat * row) :=
  [ (1%nat, ["RecordId"; "InternalName"; "<i:armor"; "<i:weight"]);
    (2%nat, ["0"; "Shield"; "1"; "200"]) ].

(** A world with one MXE file, one template file, one XLB file and one
    record table, whatever the paths; the empty path names no file. *)
Definition to_outcome {A} (r : result A) : Main.outcome A :=
  match r with
  | Ok a => Main.Returns a
  | Raise e => Main.Raises (Main.Exn e)
  | Diverge => Main.Never
  end.

Definition example_world : Main.world :=
  Main.mkWorld
    (fun _ => false)
    (fun _ => ("game", ".mxe"))
    (fun _ => ".")
    (fun a b => a ++ "/" ++ b)
    (fun _ => Main.Returns tt)
    (fun p => if String.eqb p "" then Main.Raises Main.FileNotFoundError
              else Main.Returns example_templates)
    (fun _ templates => to_outcome (@readMXEFile example_runtime mxe_example templates
                                      MXE_SETTINGS))
    (fun table templates _ _ =>
       to_outcome (x <- @writeMXEtoCSV example_runtime table templates xlb_good MXE_SETTINGS
                          OUTPUT_MODIFIERS ;; Ok tt))
    (fun table _ _ => (table, Main.Returns tt))
    (fun table templates _ =>
       let '(t, r) := @applyCSVtoMXE example_runtime table templates csv_edit in
       (t, to_outcome r))
    (fun _ table templates _ _ _ =>
       to_outcome (snd (writeMXEFile mxe_example table templates MXE_SETTINGS))).

Definition example_args (m : Main.run_mode) (t s : option string) : Main.args :=
  Main.mkArgs "game.mxe" m t None s None false None None false.

(** A test run [xT] and the write run [xW] of the same command line: the
    same calls, and after a finished test run the one call of
    [writeMXEFile]. *)
Definition predicts (xT xW : list Main.call * Main.ending) : Prop :=
  (snd xT <> Main.Finished -> xW = xT)
  /\ (snd xT = Main.Finished ->
      exists c, fst xW = (fst xT ++ [c])%list /\ Main.is_write c = true).

(** * Properties *)

Lemma bind_ok_inv {A B} (m : result A) (k : A -> result B) b :
  (x <- m ;; k x) = Ok b -> exists a, m = Ok a /\ k a = Ok b.
Proof. destruct m; simpl; intros H; try discriminate; eauto. Qed.

(** Inverts every hypothesis of the shape [bind m k = Ok b]. *)
Ltac bind_inv :=
  repeat match goal with
  | H : Py.bind ?m _ = Ok _ |- _ =>
      let a := fresh "a" in
      let Ha := fresh "Ha" in
      apply bind_ok_inv in H; destruct H as (a & Ha & H)
  | H : Raise _ = Ok _ |- _ => discriminate H
  | H : Diverge = Ok _ |- _ => discriminate H
  end.

Example before_colon_ex : Text.before_colon "Weapon:Main" = "Weapon".
Proof. reflexivity. Qed.

Example replace_ex : Text.replace "0x" "" (Text.replace "-" "" "0x12-0A") = "120A".
Proof. reflexivity. Qed.

Example int_of_str_ex `{Runtime} :
  Text.int_of_str " -1_0 " = Ok (-10) /\ Text.int_of_str "1__0" = Raise ValueError
  /\ Text.int_of_str "+7" = Ok 7 /\ Text.int_of_str "" = Raise ValueError
  /\ Text.str_of_int (-120) = "-120" /\ Text.str_of_int 0 = "0".
Proof. repeat split; reflexivity. Qed.

Example file_write_inside :
  File.content (File.write [x01; x02] (File.mk [x0a; x0b; x0c; x0d] 1)) = [x0a; x01; x02; x0d].
Proof. reflexivity. Qed.

Example file_write_past_end :
  File.content (File.write [x01] (File.mk [x0a] 3)) = [x0a; x00; x00; x01].
Proof. reflexivity. Qed.

Example bytesAsBEHex_ex `{Runtime} :
  bytesAsBEHex (FBytes [x12; x0a; xff; x00]) = Ok "0x12-0A-FF-00"
  /\ bytesAsLEHex (FBytes [x12; x0a; xff; x00]) = Ok "0x00-FF-0A-12"
  /\ bytesAsBEHex (FBytes []) = Ok "0".
Proof. repeat split; reflexivity. Qed.

Example leHexAsBytes_ex `{Runtime} :
  leHexAsBytes "0x00-FF-0A-12" = Ok [x00; xff; x0a; x12]
  /\ beHexAsBytes "0x12-0A-FF-00" = Ok [x12; x0a; xff; x00].
Proof. split; vm_compute; reflexivity. Qed.

Example int_codec_ex `{Runtime} :
  bytesAsLEInt (FBytes [xfe; xff; xff; xff]) = Ok (-2)
  /\ leIntAsBytes "-2" = Ok [xfe; xff; xff; xff]
  /\ beShortAsBytes "258" = Ok [x01; x02]
  /\ charAsBytes "200" = Raise StructError.
Proof. repeat split; vm_compute; reflexivity. Qed.

(** ** Bytes and integers *)

Lemma byte_of_to_Z (b : byte) : byte_of_Z (byte_to_Z b) = b.
Proof. destruct b; reflexivity. Qed.

Lemma byte_to_Z_range (b : byte) : 0 <= byte_to_Z b < 256.
Proof.
  unfold byte_to_Z. pose proof (Byte.to_N_bounded b) as Hb.
  split; [apply N2Z.is_nonneg | lia].
Qed.

Lemma le_uint_range (bs : bytes) : 0 <= le_uint bs < 2 ^ (8 * Z.of_nat (length bs)).
Proof.
  induction bs as [|b r IH]; simpl length; simpl le_uint.
  - simpl. lia.
  - pose proof (byte_to_Z_range b) as Hb.
    replace (8 * Z.of_nat (S (length r))) with (8 + 8 * Z.of_nat (length r)) by lia.
    rewrite Z.pow_add_r by lia. change (2 ^ 8) with 256. nia.
Qed.

Lemma le_bytes_uint (bs : bytes) : le_bytes (length bs) (le_uint bs) = bs.
Proof.
  induction bs as [|b r IH]; simpl; [reflexivity|].
  pose proof (byte_to_Z_range b) as Hb.
  assert (Hm : (byte_to_Z b + 256 * le_uint r) mod 256 = byte_to_Z b).
  { rewrite (Z.mul_comm 256), Z.mod_add by lia. apply Z.mod_small. lia. }
  assert (Hd : (byte_to_Z b + 256 * le_uint r) / 256 = le_uint r).
  { rewrite (Z.mul_comm 256), Z.div_add by lia.
    rewrite (Z.div_small (byte_to_Z b)) by lia. lia. }
  rewrite Hm, Hd, IH, byte_of_to_Z. reflexivity.
Qed.

Lemma order_length e (b : bytes) : length (order e b) = length b.
Proof. destruct e; simpl; [reflexivity | apply length_rev]. Qed.

Lemma order_order e (b : bytes) : order e (order e b) = b.
Proof. destruct e; simpl; [reflexivity | apply rev_involutive]. Qed.

Lemma to_signed_range (w : nat) (u : Z) :
  (0 < w)%nat -> 0 <= u < 2 ^ (8 * Z.of_nat w) ->
  - 2 ^ (8 * Z.of_nat w - 1) <= to_signed w u < 2 ^ (8 * Z.of_nat w - 1)
  /\ to_signed w u mod 2 ^ (8 * Z.of_nat w) = u.
Proof.
  intros Hw Hu. unfold to_signed.
  assert (Hp : 2 ^ (8 * Z.of_nat w) = 2 * 2 ^ (8 * Z.of_nat w - 1)).
  { rewrite <- Z.pow_succ_r by lia. f_equal. lia. }
  destruct (Z.ltb_spec u (2 ^ (8 * Z.of_nat w - 1))).
  - split; [lia|]. apply Z.mod_small. lia.
  - split; [lia|].
    replace (u - 2 ^ (8 * Z.of_nat w)) with (u + (-1) * 2 ^ (8 * Z.of_nat w)) by lia.
    rewrite Z.mod_add by lia. apply Z.mod_small. lia.
Qed.

(** Packing what was unpacked gives the buffer back. *)
Lemma pack_to_signed e (w : nat) (b : bytes) :
  length b = w -> (0 < w)%nat ->
  pack e w (to_signed w (le_uint (order e b))) = Ok b.
Proof.
  intros Hl Hw. unfold pack.
  pose proof (le_uint_range (order e b)) as Hr. rewrite order_length, Hl in Hr.
  destruct (to_signed_range w _ Hw Hr) as [[H1 H2] H3].
  apply Z.leb_le in H1. apply Z.ltb_lt in H2. rewrite H1, H2, H3. simpl.
  rewrite <- Hl at 1. rewrite <- (order_length e b), le_bytes_uint, order_order.
  reflexivity.
Qed.

Lemma pack_unpack e (w : nat) (b : bytes) :
  length b = w -> (0 < w)%nat -> (c <- unpack e w b ;; pack e w c) = Ok b.
Proof.
  intros Hl Hw. unfold unpack. rewrite (proj2 (Nat.eqb_eq _ _) Hl). simpl.
  now apply pack_to_signed.
Qed.

Lemma pack_unpack_from e (w : nat) (b : bytes) :
  length b = w -> (0 < w)%nat -> (c <- unpack_from e w b 0 ;; pack e w c) = Ok b.
Proof.
  intros Hl Hw. unfold unpack_from.
  destruct (Nat.ltb_spec (length b) (0 + w)); [lia|]. simpl.
  rewrite drop_0, take_ge by lia. now apply pack_to_signed.
Qed.

(** ** Hex display *)

Lemma hex_pair_spec (b : byte) :
  exists c1 c2 h l,
    hex_pair b = String c1 (String c2 "")
    /\ upper_hex c1 = true /\ upper_hex c2 = true
    /\ unhex_digit c1 = Some h /\ unhex_digit c2 = Some l
    /\ byte_of_Z (16 * h + l) = b.
Proof. destruct b; do 4 eexists; repeat split; reflexivity. Qed.

Lemma upper_hex_plain (c : ascii) :
  upper_hex c = true -> Ascii.eqb "-" c = false /\ Ascii.eqb "x" c = false.
Proof.
  destruct c as [[|] [|] [|] [|] [|] [|] [|] [|]]; vm_compute; intros H;
    first [discriminate H | split; reflexivity].
Qed.

Lemma replace_dash_keep c s :
  Ascii.eqb "-" c = false ->
  Text.replace_go "-" "" 0 (String c s) = String c (Text.replace_go "-" "" 0 s).
Proof. intros H. cbn [Text.replace_go Text.starts_with]. rewrite H. reflexivity. Qed.

Lemma replace_dash_drop s :
  Text.replace_go "-" "" 0 (String "-" s) = Text.replace_go "-" "" 0 s.
Proof. reflexivity. Qed.

Lemma replace_0x_keep c c' s :
  Ascii.eqb "x" c' = false ->
  Text.replace_go "0x" "" 0 (String c (String c' s))
  = String c (Text.replace_go "0x" "" 0 (String c' s)).
Proof.
  intros H. cbn [Text.replace_go Text.starts_with]. rewrite H, andb_false_r.
  reflexivity.
Qed.

Lemma replace_0x_last c : Text.replace_go "0x" "" 0 (String c "") = String c "".
Proof. cbn [Text.replace_go Text.starts_with]. rewrite andb_false_r. reflexivity. Qed.

Lemma replace_0x_head s :
  Text.replace_go "0x" "" 0 (String "0" (String "x" s)) = Text.replace_go "0x" "" 0 s.
Proof. reflexivity. Qed.

(** The display of four bytes parses back to these bytes, in the order in
    which they are displayed. *)
Lemma unhexlify_display (b0 b1 b2 b3 : byte) :
  unhexlify (Text.replace "0x" ""
              (Text.replace "-" "" (Text.drop_last ("0x" ++ hex_join [b0; b1; b2; b3]))))
  = Ok [b0; b1; b2; b3].
Proof.
  destruct (hex_pair_spec b0) as (c1 & c2 & h0 & l0 & E0 & U1 & U2 & X1 & X2 & B0).
  destruct (hex_pair_spec b1) as (c3 & c4 & h1 & l1 & E1 & U3 & U4 & X3 & X4 & B1).
  destruct (hex_pair_spec b2) as (c5 & c6 & h2 & l2 & E2 & U5 & U6 & X5 & X6 & B2).
  destruct (hex_pair_spec b3) as (c7 & c8 & h3 & l3 & E3 & U7 & U8 & X7 & X8 & B3).
  apply upper_hex_plain in U1 as [D1 Y1], U2 as [D2 Y2], U3 as [D3 Y3], U4 as [D4 Y4].
  apply upper_hex_plain in U5 as [D5 Y5], U6 as [D6 Y6], U7 as [D7 Y7], U8 as [D8 Y8].
  cbn [hex_join]. rewrite E0, E1, E2, E3.
  cbn [String.append Text.drop_last].
  unfold Text.replace.
  rewrite (replace_dash_keep "0"), (replace_dash_keep "x") by reflexivity.
  repeat first [rewrite replace_dash_drop | rewrite replace_dash_keep by assumption].
  rewrite replace_0x_head.
  repeat first [rewrite replace_0x_last | rewrite replace_0x_keep by assumption].
  cbn [unhexlify].
  rewrite X1, X2, X3, X4, X5, X6, X7, X8. cbn [unhexlify Py.bind].
  rewrite B0, B1, B2, B3. reflexivity.
Qed.

(** C10: for every 4-byte buffer [b], the big-endian hex display encodes back
    to [b] itself, while the little-endian display encodes back to [b] with
    its byte order reversed. *)
Theorem hex_display_round_trip (b : bytes) :
  length b = 4%nat ->
  (s <- bytesAsBEHex (FBytes b) ;; beHexAsBytes s) = Ok b
  /\ (s <- bytesAsLEHex (FBytes b) ;; leHexAsBytes s) = Ok (rev b).
Proof.
  intros Hl.
  destruct b as [|b0 [|b1 [|b2 [|b3 [|? ?]]]]]; try discriminate Hl.
  split.
  - cbn [bytesAsBEHex as_buffer Py.bind]. unfold beHexAsBytes, hexAsBytes.
    rewrite unhexlify_display. cbn [Py.bind].
    apply pack_unpack; [reflexivity | lia].
  - cbn [bytesAsLEHex as_buffer Py.bind rev app]. unfold leHexAsBytes, hexAsBytes.
    change (rev [b0; b1; b2; b3]) with [b3; b2; b1; b0].
    rewrite unhexlify_display. cbn [Py.bind].
    apply pack_unpack; [reflexivity | lia].
Qed.

Lemma hex_display_round_trip_witness :
  (s <- bytesAsBEHex (FBytes [x12; x34; x56; x78]) ;; beHexAsBytes s)
    = Ok [x12; x34; x56; x78]
  /\ (s <- bytesAsLEHex (FBytes [x12; x34; x56; x78]) ;; leHexAsBytes s)
    = Ok (rev [x12; x34; x56; x78]).
Proof. apply (hex_display_round_trip [x12; x34; x56; x78]). reflexivity. Defined.

Example le_hex_is_not_identity :
  (s <- bytesAsLEHex (FBytes [x12; x34; x56; x78]) ;; leHexAsBytes s)
    = Ok [x78; x56; x34; x12].
Proof. vm_compute. reflexivity. Qed.

(** ** XLB placement *)

Lemma py_index_nat {A} (l : list A) (k : nat) :
  (k < length l)%nat -> py_index l (Z.of_nat k) = Some k.
Proof.
  intros H. unfold py_index.
  destruct (Z.leb_spec 0 (Z.of_nat k)); [|lia].
  destruct (Z.ltb_spec (Z.of_nat k) (Z.of_nat (length l))); [|lia].
  simpl. f_equal. lia.
Qed.





Example readXLB_places_48_64_80 :
  @readXLB example_runtime xlb_good
  = Ok [(mkHeader 4 3 1 "A", [(48, PBytes [x61]); (64, PBytes [x62]); (80, PBytes [x63])])].
Proof. vm_compute. reflexivity. Qed.

(** ** XLB section boundaries *)



Lemma skip_short_spec (rest : xlb_data) (h : nat) (r : Z) (h' : nat) (r' : Z) :
  skip_short rest h r = Ok (h', r') ->
  exists k : nat,
    h' = (h + k)%nat /\ r' = r - passed_rows rest k
    /\ (exists s, rest !! k = Some s /\ r' <= recordCount (fst s))
    /\ (forall j, (j < k)%nat ->
          exists s, rest !! j = Some s /\ r - passed_rows rest j > recordCount (fst s)).
Proof.
  revert h r. induction rest as [|s rest IH]; intros h r H; simpl in H; [discriminate|].
  destruct (Z.gtb_spec r (recordCount s.1)) as [Hgt|Hle].
  - apply IH in H as (k & -> & -> & (s' & Hs' & Hfit) & Hpast).
    exists (S k). split; [lia|]. split; [simpl; lia|]. split.
    + exists s'. split; [exact Hs'|]. simpl. lia.
    + intros [|j] Hj.
      * exists s. split; [reflexivity|]. simpl. lia.
      * destruct (Hpast j) as (sj & Hsj & Hj'); [lia|].
        exists sj. split; [exact Hsj|]. simpl. lia.
  - injection H as <- <-. exists O. split; [lia|]. split; [simpl; destruct rest; lia|].
    split; [exists s; split; [reflexivity | simpl; destruct rest; lia] | intros j Hj; lia].
Qed.




(** ** The XLB marker *)

Lemma read_skeleton_empty `{Runtime} size n (acc records : list xlb_record) f f' :
  read_skeleton size n acc f = Ok (records, f') ->
  Forall (fun r => snd r = PEmpty) acc ->
  Forall (fun r => snd r = PEmpty) records.
Proof.
  revert acc f. induction n as [|n IH]; intros acc f Hr Hacc; simpl in Hr.
  - injection Hr as <- <-. exact Hacc.
  - bind_inv. destruct a as [id f1]. bind_inv.
    eapply IH; [eassumption|].
    apply Forall_app. split; [exact Hacc | repeat constructor].
Qed.

Lemma read_headers_empty `{Runtime} n (acc data : xlb_data) f f' :
  read_headers n acc f = Ok (data, f') ->
  Forall (fun s => Forall (fun r => snd r = PEmpty) (snd s)) acc ->
  Forall (fun s => Forall (fun r => snd r = PEmpty) (snd s)) data.
Proof.
  revert acc f. induction n as [|n IH]; intros acc f Hr Hacc; simpl in Hr.
  - injection Hr as <- <-. exact Hacc.
  - bind_inv. destruct a as [size f1]. bind_inv. destruct a as [count f2]. bind_inv.
    destruct a as [dlen f3]. bind_inv. destruct a as [raw f4].
    destruct (sjis_decode raw) as [d|]; [|discriminate].
    bind_inv. destruct a as [records f5].
    eapply IH; [eassumption|].
    apply Forall_app. split; [exact Hacc|]. constructor; [|constructor].
    simpl. eapply read_skeleton_empty; [eassumption | constructor].
Qed.

(** C3, as the code has it: when the four bytes after the header phase
    decode to a text other than "CHNK", [readXLB] reports it and returns the
    container of the header phase, every payload slot of which is still
    empty; no exception is raised. *)
Theorem wrong_marker_returns_skeleton `{Runtime} (file : bytes) (data : xlb_data)
    (f3 f4 : File.t) (chnkhead : string) :
  read_header_phase file = Ok (data, f3) ->
  read_marker f3 = Ok (chnkhead, f4) ->
  chnkhead <> "CHNK" ->
  readXLB file = Ok data
  /\ Forall (fun s => Forall (fun r => snd r = PEmpty) (snd s)) data.
Proof.
  intros Hh Hm Hne. split.
  - unfold readXLB. rewrite Hh. cbn [Py.bind]. rewrite Hm. cbn [Py.bind].
    destruct (String.eqb_spec chnkhead "CHNK"); [contradiction | reflexivity].
  - unfold read_header_phase in Hh. bind_inv. destruct a0 as [typeCount f1]. bind_inv.
    eapply read_headers_empty; [eassumption | constructor].
Qed.

Lemma wrong_marker_returns_skeleton_witness :
  @readXLB example_runtime xlb_bad_marker
  = Ok [(mkHeader 4 3 1 "A", [(48, PEmpty); (64, PEmpty); (80, PEmpty)])]
  /\ Forall (fun s : xlb_section => Forall (fun r : xlb_record => snd r = PEmpty) (snd s))
            [(mkHeader 4 3 1 "A", [(48, PEmpty); (64, PEmpty); (80, PEmpty)])].
Proof.
  apply (@wrong_marker_returns_skeleton example_runtime xlb_bad_marker _
           (File.mk xlb_bad_marker 41) (File.mk xlb_bad_marker 45) "CHNX").
  - vm_compute. reflexivity.
  - vm_compute. reflexivity.
  - discriminate.
Defined.

(** A file whose marker is not "CHNK" is parsed without failure into a
    container whose payload slots are all unfilled. *)
Lemma wrong_marker_counterexample :
  @readXLB example_runtime xlb_bad_marker
  = Ok [(mkHeader 4 3 1 "A", [(48, PEmpty); (64, PEmpty); (80, PEmpty)])].
Proof. vm_compute. reflexivity. Qed.

(** ** Forced hex output *)

Lemma render_cell_force_hex_bytes `{Runtime} st om xlb_list fields i (b : bytes) :
  FORCE_HEX_OUTPUT om = true ->
  render_cell st om xlb_list fields i (FBytes b)
  = Ok (VStr (Text.drop_last ("0x" ++ hex_join b))).
Proof. intros E. unfold render_cell. rewrite E. reflexivity. Qed.

Lemma render_cell_force_hex_pair `{Runtime} st om xlb_list fields i (v : field) :
  FORCE_HEX_OUTPUT om = true ->
  (forall b, v <> FBytes b) ->
  render_cell st om xlb_list fields i v = Raise TypeError.
Proof.
  intros E Hv. unfold render_cell. rewrite E.
  destruct v; try reflexivity. now destruct (Hv b).
Qed.

(** C5 at the failing input: with the force-hex switch on, the export of a
    table whose first entry holds a resolved classic pointer does not render
    that field as hex; [bytesAsBEHex] is handed the pair and the export ends
    with a [TypeError]. *)
Theorem force_hex_raises_on_resolved_pointer :
  @readMXEFile example_runtime (mxe_file 2 0 1) example_templates MXE_SETTINGS
    = Ok (take 2 example_table)
  /\ @writeMXEtoCSV example_runtime (take 2 example_table) example_templates xlb_good
       MXE_SETTINGS force_hex = Raise TypeError.
Proof. split; vm_compute; reflexivity. Qed.

(** ** Import rows out of range *)

(** C2 at the failing input: the second data row names record 9 of a table
    with three entries; the import prints that the row will be skipped and
    then applies its cells to the entry of the row before, record 0. *)
Theorem out_of_range_row_rewrites_previous_entry :
  @applyCSVtoMXE example_runtime example_table example_templates (take 2 csv_out_of_range)
    = (example_table, Ok tt)
  /\ @applyCSVtoMXE example_runtime example_table example_templates csv_out_of_range
    = (mkEntry 0 1 288 "Wpn:Main" 320
         [FBytes (le32 50); FPtrStr (le32 340) "gun"; FBytes [x3c; x00]]
       :: drop 1 example_table, Ok tt).
Proof. split; vm_compute; reflexivity. Qed.

(** ** Files: what reading leaves alone *)

Lemma seek_ok p f f' :
  File.seek p f = Ok f' -> f' = File.mk (File.content f) p /\ 0 <= p.
Proof.
  unfold File.seek. destruct (Z.ltb_spec p 0); [discriminate|].
  intros [= <-]. auto.
Qed.

Lemma read_ok n f b f' :
  File.read n f = Ok (b, f') ->
  File.content f' = File.content f
  /\ File.pos f' = File.pos f + Z.of_nat (length b)
  /\ b = (if n =? -1 then drop (Z.to_nat (File.pos f)) (File.content f)
          else take (Z.to_nat n) (drop (Z.to_nat (File.pos f)) (File.content f))).
Proof.
  unfold File.read. destruct (n <? -1); [discriminate|].
  intros [= <- <-]. auto.
Qed.

Lemma readZeroDelBytes_ok f startpos backseek barr f' :
  readZeroDelBytes f startpos backseek = Ok (barr, f') ->
  File.content f' = File.content f /\ (0 < backseek -> File.pos f' = backseek).
Proof.
  unfold readZeroDelBytes. intros H. bind_inv.
  apply seek_ok in Ha as [-> _]. destruct a0 as [barr' p]. simpl in H.
  destruct (Z.gtb_spec backseek 0).
  - bind_inv. apply seek_ok in Ha as [-> _]. injection H as <- <-. auto.
  - injection H as <- <-. split; [reflexivity | lia].
Qed.

Lemma readStr_ok `{Runtime} f startpos backseek s f' :
  readStr f startpos backseek = Ok (s, f') ->
  File.content f' = File.content f /\ (0 < backseek -> File.pos f' = backseek).
Proof.
  unfold readStr. intros Hr. bind_inv. destruct a as [bytearr f1].
  destruct (sjis_decode bytearr); [|discriminate]. injection Hr as <- <-.
  eapply readZeroDelBytes_ok; eassumption.
Qed.


Lemma find_template_cases (templates : list template) key :
  find_template templates key = Raise IndexError
  \/ exists t, find_template templates key = Ok t /\ In t templates /\ fst t = key.
Proof.
  induction templates as [|s r IH]; simpl; [now left|].
  destruct (String.eqb_spec (fst s) key) as [E|E].
  - right. exists s. auto.
  - destruct IH as [IH|(t & Ht & Hin & Hk)]; [now left|]. right. exists t. auto.
Qed.

(** ** The table that [readMXEFile] returns *)




Lemma read_entry_header `{Runtime} st templates e f e' f' :
  read_entry st templates e f = Ok (e', f') ->
  same_header e e'
  /\ (find_template templates (template_key e) = Raise IndexError -> e' = e /\ f' = f).
Proof.
  unfold read_entry, same_header. intros Hr.
  destruct (find_template_cases templates (template_key e)) as [E|(t & E & _)];
    rewrite E in Hr.
  - injection Hr as <- <-. repeat split; reflexivity.
  - bind_inv. destruct a0 as [data f2]. injection Hr as <- <-. simpl.
    split; [repeat split; reflexivity|]. intros E'. congruence.
Qed.

Lemma read_entries_spec `{Runtime} st templates (todo table : main_table) f :
  read_entries st templates todo f = Ok table ->
  Forall2 (fun e e' =>
             same_header e e'
             /\ (find_template templates (template_key e) = Raise IndexError -> e' = e))
          todo table.
Proof.
  revert table f. induction todo as [|e rest IH]; intros table f Hr; simpl in Hr.
  - injection Hr as <-. constructor.
  - bind_inv. destruct a as [e' f1]. bind_inv. injection Hr as <-.
    constructor; [|eapply IH; eassumption].
    apply read_entry_header in Ha as [Hh Hn]. split; [exact Hh|].
    intros E. now destruct (Hn E).
Qed.

Lemma template_key_same_header e e' : same_header e e' -> template_key e' = template_key e.
Proof. unfold same_header, template_key. intros (_ & _ & _ & -> & _). reflexivity. Qed.

Lemma read_counts_content st file entry_count entry_start f :
  read_counts st file = Ok (entry_count, entry_start, f) -> File.content f = file.
Proof.
  unfold read_counts. intros Hr.
  destruct (File.seek _ _) as [f0| |] eqn:E0; try discriminate Hr. cbn [Py.bind] in Hr.
  destruct (File.read 4 f0) as [[raw f1]| |] eqn:E1; try discriminate Hr. cbn [Py.bind] in Hr.
  destruct (unpack_from LE 4 raw 0); try discriminate Hr. cbn [Py.bind] in Hr.
  destruct (File.seek _ f1) as [f2| |] eqn:E2; try discriminate Hr. cbn [Py.bind] in Hr.
  destruct (File.read 4 f2) as [[raw' f3]| |] eqn:E3; try discriminate Hr. cbn [Py.bind] in Hr.
  destruct (unpack_from LE 4 raw' 0); try discriminate Hr. cbn [Py.bind] in Hr.
  injection Hr as _ _ <-.
  apply seek_ok in E0 as [-> _]. apply read_ok in E1 as (E1 & _).
  apply seek_ok in E2 as [-> _]. apply read_ok in E3 as (E3 & _).
  rewrite E3. simpl. rewrite E1. reflexivity.
Qed.



Example readMXEFile_example :
  @readMXEFile example_runtime mxe_example example_templates MXE_SETTINGS = Ok example_table.
Proof. vm_compute. reflexivity. Qed.

(** ** Writing back what was read *)

Lemma DataTypes_width dt w : DataTypes dt = Some w -> w = 1 \/ w = 2 \/ w = 4.
Proof.
  unfold DataTypes.
  repeat match goal with |- context [String.eqb dt ?s] => destruct (String.eqb dt s) end;
    intros [= <-]; auto.
Qed.

Lemma pointer_width dt w :
  DataTypes dt = Some w -> is_classic dt || is_xlb dt = true -> w = 4.
Proof.
  unfold is_classic, is_xlb. intros Hw Hp.
  repeat (apply orb_true_iff in Hp; destruct Hp as [Hp|Hp]);
    apply String.eqb_eq in Hp; subst dt; injection Hw as <-; reflexivity.
Qed.

(** Writing the bytes that stand at the cursor changes nothing but the
    cursor. *)
Lemma take_drop_length {A} (n : nat) (x : list A) :
  (take n x ++ drop (length (take n x)) x)%list = x.
Proof.
  destruct (Nat.le_gt_cases n (length x)).
  - rewrite length_take, Nat.min_l by lia. apply take_drop.
  - rewrite take_ge by lia. rewrite drop_all, app_nil_r. reflexivity.
Qed.

Lemma write_back_same (c : bytes) (p : Z) (n : nat) :
  0 <= p ->
  File.write (take n (drop (Z.to_nat p) c)) (File.mk c p)
  = File.mk c (p + Z.of_nat (length (take n (drop (Z.to_nat p) c)))).
Proof.
  intros Hp. unfold File.write.
  destruct (take n (drop (Z.to_nat p) c)) as [|b0 b] eqn:E.
  - simpl. f_equal. lia.
  - cbn [File.content File.pos]. f_equal.
    assert (Hlt : (Z.to_nat p < length c)%nat).
    { destruct (Nat.lt_ge_cases (Z.to_nat p) (length c)) as [?|Hge]; [assumption|].
      rewrite drop_ge in E by lia. rewrite take_nil in E. discriminate. }
    replace (Z.to_nat p - length c)%nat with O by lia. simpl replicate. rewrite app_nil_r.
    assert (Hx : ((b0 :: b) ++ drop (Z.to_nat p + length (b0 :: b)) c)%list
                 = drop (Z.to_nat p) c).
    { rewrite <- E. rewrite <- drop_drop. apply take_drop_length. }
    rewrite Hx. apply take_drop.
Qed.

Lemma read_take n f b f' :
  File.read n f = Ok (b, f') -> 0 <= n ->
  b = take (Z.to_nat n) (drop (Z.to_nat (File.pos f)) (File.content f))
  /\ f' = File.mk (File.content f) (File.pos f + Z.of_nat (length b)).
Proof.
  unfold File.read. intros Hr Hn.
  destruct (Z.ltb_spec n (-1)); [lia|]. destruct (Z.eqb_spec n (-1)); [lia|].
  injection Hr as <- <-. auto.
Qed.

Lemma bytesAsInt_length e (b : bytes) v :
  (b0 <- as_buffer (FBytes b) ;; unpack_from e 4 b0 0) = Ok v -> (4 <= length b)%nat.
Proof.
  cbn [as_buffer Py.bind]. unfold unpack_from.
  destruct (Nat.ltb_spec (length b) (0 + 4)); [discriminate | lia].
Qed.

(** What [read_field] stores for a known data type, and where it leaves the
    cursor. *)
Lemma read_field_known `{Runtime} st dt w f v f' :
  DataTypes dt = Some w -> read_field st dt f = Ok (v, f') -> 0 <= File.pos f ->
  exists x b,
    v = Some x
    /\ b = take (Z.to_nat w) (drop (Z.to_nat (File.pos f)) (File.content f))
    /\ f' = File.mk (File.content f) (File.pos f + Z.of_nat (length b))
    /\ field_bytes st dt x = Ok b
    /\ (if resolved_pointer st dt
        then (exists val, x = FPtrStr b val) \/ (exists val, x = FPtrBytes b val)
        else x = FBytes b).
Proof.
  intros Hw Hr Hp. unfold read_field in Hr. rewrite Hw in Hr.
  assert (Hw0 : 0 <= w) by (destruct (DataTypes_width _ _ Hw) as [->|[->| ->]]; lia).
  unfold field_bytes, resolved_pointer.
  destruct (is_classic dt && RESOLVE_CLASSIC_POINTERS st) eqn:Ec.
  - bind_inv. destruct a as [raw f1]. bind_inv. destruct a0 as [val f2].
    injection Hr as <- <-.
    apply read_take in Ha as [Hb ->]; [|assumption].
    assert (Hlen : (4 <= length raw)%nat).
    { destruct (String.eqb dt "<p"); eapply bytesAsInt_length; exact Ha0. }
    apply readStr_ok in Ha1 as [Hc2 Hp2]. unfold File.tell in Hp2. simpl in Hc2, Hp2.
    exists (FPtrStr raw val), raw. split; [reflexivity|]. split; [exact Hb|].
    split; [destruct f2; simpl in *; f_equal; [assumption | apply Hp2; lia]|].
    split; [reflexivity|]. simpl. eauto.
  - destruct (is_xlb dt && RESOLVE_XLB_POINTERS st) eqn:Ex.
    + bind_inv. destruct a as [raw f1]. bind_inv. destruct a0 as [val f2].
      injection Hr as <- <-.
      apply read_take in Ha as [Hb ->]; [|assumption].
      assert (Hlen : (4 <= length raw)%nat).
      { destruct (String.eqb dt "<pi"); eapply bytesAsInt_length; exact Ha0. }
      apply readZeroDelBytes_ok in Ha1 as [Hc2 Hp2]. unfold File.tell in Hp2.
      simpl in Hc2, Hp2.
      exists (FPtrBytes raw val), raw. split; [reflexivity|]. split; [exact Hb|].
      split; [destruct f2; simpl in *; f_equal; [assumption | apply Hp2; lia]|].
      split; [reflexivity|]. simpl. eauto.
    + bind_inv. destruct a as [b f1]. injection Hr as <- <-.
      apply read_take in Ha as [Hb ->]; [|assumption].
      exists (FBytes b), b. simpl. auto.
Qed.

Lemma read_write_fields `{Runtime} st fields (acc data : list field) f f' :
  read_fields st fields acc f = Ok (data, f') ->
  known_fields fields = true -> 0 <= File.pos f ->
  File.content f' = File.content f
  /\ (exists new, data = (acc ++ new)%list
        /\ Forall2 (fun fld x => shaped st (fst fld) x) fields new)
  /\ write_fields st fields (length acc) data f = (f', Ok tt).
Proof.
  revert acc f. induction fields as [|[dt nm] rest IH]; intros acc f Hr Hk Hp;
    simpl in Hr.
  - injection Hr as <- <-. split; [reflexivity|]. split; [|reflexivity].
    exists []. rewrite app_nil_r. split; [reflexivity | constructor].
  - simpl in Hk. apply andb_true_iff in Hk as [Hk1 Hk2].
    destruct (DataTypes dt) as [w|] eqn:Hw; [|discriminate].
    destruct (read_field st dt f) as [[v f1]| |] eqn:Ef; try discriminate Hr.
    cbn [Py.bind] in Hr.
    destruct (read_field_known _ _ _ _ _ _ Hw Ef Hp) as (x & b & -> & Hb & -> & Hfb & Hsh).
    apply IH in Hr as (Hc & (new & -> & Hnew) & Hwr); [|assumption|simpl; lia].
    simpl in Hc. split; [exact Hc|]. split.
    + exists (x :: new). split; [now rewrite <- app_assoc|].
      constructor; [|exact Hnew]. unfold shaped. simpl.
      destruct (resolved_pointer st dt).
      * destruct Hsh as [[val ->]|[val ->]]; [left | right]; eauto.
      * eauto.
    + cbn [write_fields]. rewrite Hw.
      assert (Hg : get_nat ((acc ++ [x]) ++ new)%list (length acc) = Ok x).
      { unfold get_nat. rewrite <- app_assoc. rewrite lookup_app_r by lia.
        replace (length acc - length acc)%nat with O by lia. reflexivity. }
      rewrite Hg, Hfb.
      assert (Hwb : File.write b f
                    = File.mk (File.content f) (File.pos f + Z.of_nat (length b))).
      { destruct f as [c p]. simpl in *. rewrite Hb. now apply write_back_same. }
      rewrite Hwb. rewrite length_app in Hwr. simpl in Hwr.
      replace (S (length acc)) with (length acc + 1)%nat by lia. exact Hwr.
Qed.

Lemma known_types_find (templates : list template) key t :
  known_types templates = true -> find_template templates key = Ok t ->
  known_fields (snd t) = true.
Proof.
  intros Hk Hf. destruct (find_template_cases templates key) as [E|(t' & E & Hin & _)];
    [congruence|].
  assert (t' = t) by congruence. subst t'.
  unfold known_types in Hk. rewrite forallb_forall in Hk. exact (Hk t Hin).
Qed.

Lemma read_toc_entry_empty `{Runtime} st f e f' :
  read_toc_entry st f = Ok (e, f') -> record_data e = [].
Proof.
  unfold read_toc_entry. intros Hr. bind_inv. destruct a as [buf f1]. bind_inv.
  destruct a2 as [name f2]. bind_inv. injection Hr as <- <-. reflexivity.
Qed.

Lemma read_toc_empty `{Runtime} st n (acc table : main_table) f f' :
  read_toc st n acc f = Ok (table, f') ->
  Forall (fun e => record_data e = []) acc ->
  Forall (fun e => record_data e = []) table.
Proof.
  revert acc f. induction n as [|n IH]; intros acc f Hr Hacc; simpl in Hr.
  - injection Hr as <- <-. exact Hacc.
  - bind_inv. destruct a as [entry f1]. eapply IH; [eassumption|].
    apply Forall_app. split; [exact Hacc|]. constructor; [|constructor].
    eapply read_toc_entry_empty; eassumption.
Qed.

(** An entry that was just read is written back without a change to the
    file, and its record data has the shape of its template. *)
Lemma read_write_entry `{Runtime} st templates e f e' f' :
  read_entry st templates e f = Ok (e', f') ->
  record_data e = [] -> known_types templates = true ->
  File.content f' = File.content f
  /\ (forall t, find_template templates (template_key e') = Ok t ->
        Forall2 (fun fld x => shaped st (fst fld) x) (snd t) (record_data e'))
  /\ (forall g, File.content g = File.content f ->
        exists g', write_entry st templates e' g = (g', Ok tt)
                   /\ File.content g' = File.content g).
Proof.
  intros Hr He Hk.
  pose proof (read_entry_header _ _ _ _ _ _ Hr) as [Hh Hn].
  pose proof (template_key_same_header _ _ Hh) as Hkey.
  unfold read_entry in Hr. unfold write_entry. rewrite Hkey.
  destruct (find_template_cases templates (template_key e)) as [E|(t & E & _)].
  - destruct (Hn E) as [-> ->]. rewrite E.
    split; [reflexivity|]. split; [intros t [=]|]. intros g Hg. eauto.
  - rewrite E in Hr |- *.
    destruct (File.seek _ f) as [f1| |] eqn:Es; try discriminate Hr. cbn [Py.bind] in Hr.
    destruct (read_fields st t.2 (record_data e) f1) as [[data f2]| |] eqn:Ef;
      try discriminate Hr.
    cbn [Py.bind] in Hr. injection Hr as <- <-.
    apply seek_ok in Es as [-> Hp]. rewrite He in Ef.
    apply read_write_fields in Ef as (Hc & (new & -> & Hsh) & Hw);
      [|eapply known_types_find; eassumption|exact Hp].
    simpl in Hc, Hw |- *. split; [exact Hc|]. split.
    + intros t' [= <-]. exact Hsh.
    + intros g Hg. unfold File.seek. destruct (Z.ltb_spec (followAddress (record_address e)) 0);
        [lia|].
      rewrite Hg, Hw. exists f2. split; [reflexivity | congruence].
Qed.

Lemma read_write_entries `{Runtime} st templates (todo table : main_table) f :
  read_entries st templates todo f = Ok table ->
  Forall (fun e => record_data e = []) todo -> known_types templates = true ->
  Forall (fun e' => forall t, find_template templates (template_key e') = Ok t ->
             Forall2 (fun fld x => shaped st (fst fld) x) (snd t) (record_data e')) table
  /\ (forall g, File.content g = File.content f ->
        exists g', write_entries st templates table g = (g', Ok tt)
                   /\ File.content g' = File.content g).
Proof.
  revert table f. induction todo as [|e rest IH]; intros table f Hr He Hk; simpl in Hr.
  - injection Hr as <-. split; [constructor|]. intros g Hg. exists g. auto.
  - destruct (read_entry st templates e f) as [[e' f1]| |] eqn:E1; try discriminate Hr.
    cbn [Py.bind] in Hr.
    destruct (read_entries st templates rest f1) as [tl| |] eqn:E2; try discriminate Hr.
    cbn [Py.bind] in Hr. injection Hr as <-.
    apply Forall_cons in He as [He1 He2].
    apply read_write_entry in E1 as (Hc1 & Hsh1 & Hw1); [|assumption..].
    apply IH in E2 as (Hsh2 & Hw2); [|assumption..].
    split; [constructor; assumption|].
    intros g Hg. destruct (Hw1 g Hg) as (g1 & Hg1 & Hcg1).
    destruct (Hw2 g1) as (g2 & Hg2 & Hcg2); [congruence|].
    cbn [write_entries]. rewrite Hg1. exists g2. split; [exact Hg2 | congruence].
Qed.

Lemma read_toc_content `{Runtime} st n (acc table : main_table) f f' :
  read_toc st n acc f = Ok (table, f') -> File.content f' = File.content f.
Proof.
  revert acc f. induction n as [|n IH]; intros acc f Hr; simpl in Hr.
  - injection Hr as _ <-. reflexivity.
  - destruct (read_toc_entry st f) as [[entry f1]| |] eqn:Ee; try discriminate Hr.
    cbn [Py.bind] in Hr. apply IH in Hr. rewrite Hr.
    unfold read_toc_entry in Ee. bind_inv. destruct a as [buf h1]. bind_inv.
    destruct a2 as [name h2]. bind_inv. injection Ee as _ <-.
    apply read_ok in Ha as (Hc1 & _). apply readStr_ok in Ha3 as (Hc2 & _). congruence.
Qed.

(** What [readMXEFile] returns, in the terms the later statements use. *)
Lemma readMXEFile_loaded `{Runtime} file templates st (table : main_table) :
  readMXEFile file templates st = Ok table -> known_types templates = true ->
  Forall (fun e' => forall t, find_template templates (template_key e') = Ok t ->
             Forall2 (fun fld x => shaped st (fst fld) x) (snd t) (record_data e')) table
  /\ writeMXEFile file table templates st = (file, Ok tt).
Proof.
  unfold readMXEFile. intros Hr Hk.
  destruct (read_counts st file) as [[[entry_count entry_start] f3]| |] eqn:Ec;
    try discriminate Hr.
  cbn [Py.bind] in Hr.
  destruct (File.seek _ f3) as [f4| |] eqn:Es; try discriminate Hr. cbn [Py.bind] in Hr.
  destruct (read_toc st _ [] f4) as [[toc f5]| |] eqn:Et; try discriminate Hr.
  cbn [Py.bind] in Hr.
  apply read_counts_content in Ec. apply seek_ok in Es as [-> _].
  assert (Hempty : Forall (fun e => record_data e = []) toc)
    by (eapply read_toc_empty; [exact Et | constructor]).
  apply read_toc_content in Et. simpl in Et.
  apply read_write_entries in Hr as (Hsh & Hw); [|assumption..].
  split; [exact Hsh|].
  destruct (Hw (File.open file)) as (g' & Hg' & Hc'); [simpl; congruence|].
  unfold writeMXEFile. rewrite Hg'. simpl in Hc'. rewrite Hc'. reflexivity.
Qed.

(** ** Fitting rows and pointer fields *)

Lemma same_header_refl e : same_header e e.
Proof. repeat split. Qed.

Lemma py_index_lt {A} (l : list A) i k : py_index l i = Some k -> (k < length l)%nat.
Proof.
  unfold py_index.
  destruct (Z.leb_spec 0 i), (Z.ltb_spec i (Z.of_nat (length l))); simpl;
    try (intros [= <-]; lia);
    destruct (Z.leb_spec (- Z.of_nat (length l)) i), (Z.ltb_spec i 0); simpl;
    try discriminate; intros [= <-]; lia.
Qed.

Lemma py_index_same_length {A B} (l : list A) (l' : list B) i :
  length l = length l' -> py_index l i = py_index l' i.
Proof. unfold py_index. intros ->. reflexivity. Qed.

Lemma row_fits_spec `{Runtime} templates (tb : main_table) t0 line_num (r : row) :
  row_fits templates tb t0 (line_num, r) = true ->
  (line_num = 2%nat -> forall c1 t,
      r !! 1%nat = Some c1 -> find_template templates (Text.before_colon c1) = Ok t -> t = t0)
  /\ (line_num <> 1%nat -> forall c0 idx k,
        r !! 0%nat = Some c0 -> Text.int_of_str c0 = Ok idx -> py_index tb idx = Some k ->
        exists e, tb !! k = Some e /\ find_template templates (template_key e) = Ok t0).
Proof.
  unfold row_fits. intros Hf. apply andb_true_iff in Hf as [H1 H2]. split.
  - intros -> c1 t Hc1 Ht. simpl in H1. rewrite Hc1, Ht in H1.
    now apply bool_decide_eq_true in H1.
  - intros Hne c0 idx k Hc0 Hidx Hk.
    destruct (Nat.eqb_spec line_num 1); [contradiction|].
    rewrite Hc0, Hidx, Hk in H2.
    destruct (lookup_lt_is_Some_2 tb k (py_index_lt _ _ _ Hk)) as [e He].
    rewrite He in H2. exists e. split; [exact He|].
    destruct (find_template templates (template_key e)) as [t| |]; try discriminate H2.
    apply bool_decide_eq_true in H2. now subst.
Qed.

Lemma resolved_is_pointer st dt : resolved_pointer st dt = true -> is_pointer_type dt = true.
Proof.
  unfold resolved_pointer, is_pointer_type, is_classic, is_xlb. intros Hr.
  repeat match goal with |- context [String.eqb dt ?s] => destruct (String.eqb dt s) end;
    try reflexivity; discriminate Hr.
Qed.

Lemma shaped_pointer_bytes st dt x :
  resolved_pointer st dt = true -> shaped st dt x ->
  exists raw, ((exists val, x = FPtrStr raw val) \/ (exists val, x = FPtrBytes raw val))
              /\ field_bytes st dt x = Ok raw.
Proof.
  unfold shaped, field_bytes. intros Hr Hs. rewrite Hr in Hs.
  assert (Hp : pointer_bytes x = Ok (match x with
                                     | FPtrStr raw _ | FPtrBytes raw _ => raw
                                     | _ => [] end)
               /\ ((exists val, x = FPtrStr (match x with
                                     | FPtrStr raw _ | FPtrBytes raw _ => raw
                                     | _ => [] end) val)
                   \/ (exists val, x = FPtrBytes (match x with
                                     | FPtrStr raw _ | FPtrBytes raw _ => raw
                                     | _ => [] end) val))).
  { destruct Hs as [(raw & val & ->)|(raw & val & ->)]; simpl; eauto. }
  destruct Hp as [Hp Hx]. eexists. split; [exact Hx|].
  unfold resolved_pointer in Hr.
  destruct (is_classic dt && RESOLVE_CLASSIC_POINTERS st); [exact Hp|].
  destruct (is_xlb dt && RESOLVE_XLB_POINTERS st); [exact Hp | discriminate Hr].
Qed.

(** A record table written for another template, whose data row names a
    weapon by its index, replaces the weapon's pointer pair by four plain
    bytes; write-back then hands two zero bytes to [f.write] where the raw
    address stood. *)
Lemma import_keeps_raw_pointers_counterexample :
  @readMXEFile example_runtime mxe_example example_templates MXE_SETTINGS = Ok example_table
  /\ (exists e, example_table !! 0%nat = Some e
                /\ record_data e !! 1%nat = Some (FPtrStr (le32 340) "gun"))
  /\ (exists e', fst (@applyCSVtoMXE example_runtime example_table example_templates
                        csv_wrong_type) !! 0%nat = Some e'
                 /\ record_data e' !! 1%nat = Some (FBytes (le32 2)))
  /\ field_bytes MXE_SETTINGS "<p" (FBytes (le32 2)) = Ok [x00; x00]
  /\ take 10 (drop 384 mxe_example) = (le32 7 ++ le32 340 ++ [x2c; x01])%list
  /\ take 10 (drop 384
        (fst (writeMXEFile mxe_example
                (fst (@applyCSVtoMXE example_runtime example_table example_templates
                        csv_wrong_type))
                example_templates MXE_SETTINGS)))
     = (le32 1 ++ [x00; x00] ++ [x2c; x01] ++ [x2c; x01])%list.
Proof.
  split; [vm_compute; reflexivity|].
  split; [eexists; split; reflexivity|].
  split; [eexists; split; vm_compute; reflexivity|].
  repeat split; vm_compute; reflexivity.
Qed.

(** ** Decimal text of an int *)

Lemma lstrip_plain sp c s : sp c = false -> Text.lstrip sp (String c s) = String c s.
Proof. intros E. simpl. now rewrite E. Qed.

Lemma rstrip_plain sp s :
  all_chars (fun c => negb (sp c)) s = true -> Text.rstrip sp s = s.
Proof.
  induction s as [|c r IH]; simpl; [reflexivity|].
  intros Hc. apply andb_true_iff in Hc as [Hc Hr]. rewrite (IH Hr).
  apply negb_true_iff in Hc. destruct r; [now rewrite Hc | reflexivity].
Qed.

Lemma digits_of_uint d : all_chars Text.is_digit (NilEmpty.string_of_uint d) = true.
Proof. induction d; simpl; try reflexivity; exact IHd. Qed.

Lemma digit_not_space c :
  Text.is_digit c = true ->
  Text.is_space c = false /\ Ascii.eqb c "_" = false /\ (nat_of_ascii c <? 128)%nat = true.
Proof.
  destruct c as [[|] [|] [|] [|] [|] [|] [|] [|]]; intros Hd;
    try discriminate Hd; repeat split; reflexivity.
Qed.

Lemma digits_plain s :
  all_chars Text.is_digit s = true ->
  all_chars (fun c => negb (Text.is_space c)) s = true.
Proof.
  induction s as [|c r IH]; simpl; [reflexivity|]. intros H.
  apply andb_true_iff in H as [Hc Hr]. rewrite (IH Hr), andb_true_r.
  destruct (digit_not_space c Hc) as [-> _].
  reflexivity.
Qed.

Lemma digits_ascii s : all_chars Text.is_digit s = true -> Text.is_ascii s = true.
Proof.
  induction s as [|c r IH]; simpl; [reflexivity|]. intros H.
  apply andb_true_iff in H as [Hc Hr]. rewrite (IH Hr), andb_true_r.
  now destruct (digit_not_space c Hc) as (_ & _ & ->).
Qed.

Lemma str_of_int_ascii (n : Z) : Text.is_ascii (Text.str_of_int n) = true.
Proof.
  unfold Text.str_of_int.
  assert (Hu : forall d, Text.is_ascii (NilZero.string_of_uint d) = true).
  { intros d. unfold NilZero.string_of_uint.
    destruct d; try reflexivity; apply digits_ascii; apply (digits_of_uint (_ d)). }
  destruct n as [|p|p]; [reflexivity | apply Hu | simpl; apply Hu].
Qed.

Lemma int_digits_digits s :
  all_chars Text.is_digit s = true -> s <> "" ->
  forall prev, Text.int_digits prev s = Some s.
Proof.
  induction s as [|c r IH]; [congruence|]. intros Hd _ prev. simpl in Hd |- *.
  apply andb_true_iff in Hd as [Hc Hr]. rewrite Hc.
  destruct r as [|c' r'].
  - reflexivity.
  - rewrite (IH Hr) by discriminate. reflexivity.
Qed.

Lemma uint_text_nonempty d : d <> Decimal.Nil -> NilEmpty.string_of_uint d <> "".
Proof. destruct d; simpl; congruence. Qed.

Lemma uint_text_first d c r :
  NilEmpty.string_of_uint d = String c r -> Text.is_digit c = true.
Proof.
  intros E. pose proof (digits_of_uint d) as H. rewrite E in H. simpl in H.
  now apply andb_true_iff in H as [H _].
Qed.

Lemma int_of_pos_text (p : positive) :
  Text.int_digits false (NilEmpty.string_of_uint (Pos.to_uint p))
    = Some (NilEmpty.string_of_uint (Pos.to_uint p))
  /\ NilZero.uint_of_string (NilEmpty.string_of_uint (Pos.to_uint p))
     = Some (Pos.to_uint p)
  /\ Z.of_uint (Pos.to_uint p) = Z.pos p.
Proof.
  pose proof (DecimalPos.Unsigned.to_uint_nonnil p) as Hn.
  split; [|split].
  - apply int_digits_digits; [apply digits_of_uint | now apply uint_text_nonempty].
  - pose proof (NilZero.usu _ Hn) as Hu. unfold NilZero.string_of_uint in Hu.
    destruct (Pos.to_uint p); [congruence | exact Hu..].
  - unfold Z.of_uint. rewrite DecimalPos.Unsigned.of_to. reflexivity.
Qed.

(** [int(str(n)) == n] *)
Lemma int_of_text_of_int (n : Z) : Text.int_of_text (Text.str_of_int n) = Ok n.
Proof.
  unfold Text.int_of_text, Text.str_of_int.
  destruct n as [|p|p]; [reflexivity| |].
  - cbn [Z.to_int NilZero.string_of_int].
    destruct (int_of_pos_text p) as (Hd & Hu & Hz).
    pose proof (DecimalPos.Unsigned.to_uint_nonnil p) as Hn.
    assert (Es : NilZero.string_of_uint (Pos.to_uint p)
                 = NilEmpty.string_of_uint (Pos.to_uint p))
      by (unfold NilZero.string_of_uint; destruct (Pos.to_uint p); congruence).
    rewrite Es.
    destruct (NilEmpty.string_of_uint (Pos.to_uint p)) as [|c r] eqn:E;
      [now apply uint_text_nonempty in Hn|].
    pose proof (uint_text_first _ _ _ E) as Hc.
    destruct (digit_not_space c Hc) as [Hsp _].
    rewrite lstrip_plain by exact Hsp.
    rewrite rstrip_plain
      by (apply digits_plain; rewrite <- E; apply digits_of_uint).
    assert (Hsign : (let '(neg, body) :=
                       match String c r with
                       | String "-" r0 => (true, r0)
                       | String "+" r0 => (false, r0)
                       | _ => (false, String c r)
                       end in (neg, body)) = (false, String c r)).
    { destruct c as [[|] [|] [|] [|] [|] [|] [|] [|]]; try discriminate Hc; reflexivity. }
    destruct (match String c r with
              | String "-" r0 => (true, r0)
              | String "+" r0 => (false, r0)
              | _ => (false, String c r)
              end) as [neg body].
    injection Hsign as -> ->. rewrite Hd, Hu, Hz. reflexivity.
  - cbn [Z.to_int NilZero.string_of_int].
    destruct (int_of_pos_text p) as (Hd & Hu & Hz).
    pose proof (DecimalPos.Unsigned.to_uint_nonnil p) as Hn.
    assert (Es : NilZero.string_of_uint (Pos.to_uint p)
                 = NilEmpty.string_of_uint (Pos.to_uint p))
      by (unfold NilZero.string_of_uint; destruct (Pos.to_uint p); congruence).
    rewrite Es.
    rewrite lstrip_plain by reflexivity.
    rewrite rstrip_plain.
    + rewrite Hd, Hu, Hz. reflexivity.
    + simpl. apply digits_plain, digits_of_uint.
Qed.

Lemma int_of_str_of_int `{Runtime} (n : Z) : Text.int_of_str (Text.str_of_int n) = Ok n.
Proof.
  unfold Text.int_of_str. rewrite str_of_int_ascii. apply int_of_text_of_int.
Qed.

(** ** Export, then import *)

(** The fixed-width integer types round-trip. *)
Lemma int_types_round_trip `{Runtime} dt w (b : bytes) :
  is_int_type dt = true -> DataTypes dt = Some w -> length b = Z.to_nat w ->
  round_trips (FBytes b) dt.
Proof.
  unfold is_int_type. intros Hi Hw Hl pv Hpv.
  repeat (apply orb_true_iff in Hi; destruct Hi as [Hi|Hi]);
    apply String.eqb_eq in Hi; subst dt; injection Hw as <-;
    vm_compute in Hl;
    unfold bytesToText, objToBytes in *; simpl String.eqb in *; cbv iota in *;
    unfold bytesAsLEInt, bytesAsBEInt, bytesAsLEShort, bytesAsBEShort, bytesAsChar,
      leIntAsBytes, beIntAsBytes, leShortAsBytes, beShortAsBytes, charAsBytes in *;
    cbn [as_buffer Py.bind] in Hpv;
    match type of Hpv with
    | (n <- unpack_from ?e ?w b 0 ;; _) = _ =>
        pose proof (pack_unpack_from e w b Hl ltac:(lia)) as Hp;
        destruct (unpack_from e w b 0) as [n| |]; try discriminate Hpv;
        cbn [Py.bind] in Hpv, Hp; injection Hpv as <-;
        cbn [cell_text]; rewrite int_of_str_of_int; cbn [Py.bind]; rewrite Hp; reflexivity
    end.
Qed.

Lemma import_cell_round `{Runtime} templates (tb tbl tbl' : main_table) hdr k e tmpl
    (r : row) i dt nm res :
  keeps_fields templates tb tbl ->
  tb !! k = Some e -> find_template templates (template_key e) = Ok tmpl ->
  snd tmpl !! i = Some (dt, nm) ->
  (forall v, record_data e !! i = Some v -> is_pointer_type dt = false ->
     exists pv, bytesToText v dt = Ok pv /\ r !! (2 + i)%nat = Some (cell_text pv)) ->
  import_cell tbl hdr (Some k) r i dt = (tbl', res) ->
  keeps_fields templates tb tbl'.
Proof.
  intros Hinv He Ht Hdt Hcell Hc. unfold import_cell in Hc.
  destruct (get_nat hdr i) as [h| |]; try (injection Hc as <- _; exact Hinv).
  destruct (negb (String.eqb h.1 dt)); [injection Hc as <- _; exact Hinv|].
  destruct (is_pointer_type dt) eqn:Hp; [injection Hc as <- _; exact Hinv|].
  unfold get_nat in Hc at 1.
  destruct (r !! (2 + i)%nat) as [cell|] eqn:Er; [|injection Hc as <- _; exact Hinv].
  destruct (objToBytes cell dt) as [b| |] eqn:Eb; try (injection Hc as <- _; exact Hinv).
  destruct (tbl !! k) as [ek|] eqn:Ek; [|injection Hc as <- _; exact Hinv].
  unfold get_nat in Hc.
  destruct (record_data ek !! i) as [old|] eqn:Eo; [|injection Hc as <- _; exact Hinv].
  destruct (decide (old = b)) as [|Hne]; [injection Hc as <- _; exact Hinv|].
  injection Hc as <- _.
  destruct Hinv as [Hlen Hrows]. split; [now rewrite length_insert|].
  intros k' e0 i' v He0 Hv Hst. destruct (Hrows k' e0 i' v He0 Hv Hst) as (e' & He' & Hv').
  destruct (decide (k' = k)) as [->|Hk].
  - assert (e0 = e) by congruence. subst e0.
    assert (e' = ek) by congruence. subst e'.
    exists (set_record_data ek (<[i := b]> (record_data ek))).
    split; [apply list_lookup_insert_eq; eapply lookup_lt_Some; eassumption|].
    cbn [set_record_data record_data].
    destruct (decide (i' = i)) as [->|Hi].
    + exfalso. apply Hne.
      assert (old = v) by congruence. subst old.
      destruct (Hcell v Hv eq_refl) as (pv & Hpv & Hr').
      assert (cell = cell_text pv) by congruence. subst cell.
      pose proof (Hst tmpl dt nm Ht Hdt Hp pv Hpv) as Hrt. congruence.
    + rewrite list_lookup_insert_ne by congruence. exact Hv'.
  - exists e'. split; [rewrite list_lookup_insert_ne by congruence; exact He' | exact Hv'].
Qed.

Lemma render_cells_lookup `{Runtime} st om xlb_list fields i0 (datas : list field)
    (cells : row) :
  render_cells st om xlb_list fields i0 datas = Ok cells ->
  forall j v, datas !! j = Some v ->
    exists pv, render_cell st om xlb_list fields (i0 + j) v = Ok pv
               /\ cells !! j = Some (cell_text pv).
Proof.
  revert i0 cells. induction datas as [|d rest IH]; intros i0 cells Hr j v Hj;
    [discriminate|].
  simpl in Hr.
  destruct (render_cell st om xlb_list fields i0 d) as [pv| |] eqn:E1; try discriminate Hr.
  cbn [Py.bind] in Hr.
  destruct (render_cells st om xlb_list fields (S i0) rest) as [cs| |] eqn:E2;
    try discriminate Hr.
  cbn [Py.bind] in Hr. injection Hr as <-.
  destruct j as [|j]; simpl in Hj.
  - injection Hj as <-. exists pv. rewrite Nat.add_0_r. auto.
  - destruct (IH _ _ E2 j v Hj) as (pv' & Hpv' & Hc).
    exists pv'. replace (i0 + S j)%nat with (S i0 + j)%nat by lia. auto.
Qed.

Lemma render_cell_plain `{Runtime} st om xlb_list (fields : list (string * string)) i dt nm v :
  FORCE_HEX_OUTPUT om = false -> fields !! i = Some (dt, nm) ->
  is_pointer_type dt = false ->
  render_cell st om xlb_list fields i v = bytesToText v dt.
Proof.
  intros Hh Hf Hp. unfold render_cell, get_nat. rewrite Hh, Hf. cbn [Py.bind fst].
  unfold is_pointer_type in Hp. unfold is_classic, is_xlb.
  repeat (apply orb_false_elim in Hp; destruct Hp as [Hp ?]).
  repeat match goal with E : String.eqb dt _ = false |- _ => rewrite E; clear E end.
  reflexivity.
Qed.

Lemma import_cells_round `{Runtime} templates (tb : main_table) hdr k e tmpl (r : row) fields :
  tb !! k = Some e -> find_template templates (template_key e) = Ok tmpl ->
  (forall i dt nm v, snd tmpl !! i = Some (dt, nm) -> record_data e !! i = Some v ->
     is_pointer_type dt = false ->
     exists pv, bytesToText v dt = Ok pv /\ r !! (2 + i)%nat = Some (cell_text pv)) ->
  forall (pre : list (string * string)) (tbl tbl' : main_table) res,
  snd tmpl = (pre ++ fields)%list ->
  keeps_fields templates tb tbl ->
  import_cells tbl hdr (Some k) r (length pre) fields = (tbl', res) ->
  keeps_fields templates tb tbl'.
Proof.
  intros He Ht Hcells. induction fields as [|[dt nm] rest IH];
    intros pre tbl tbl' res Hsplit Hinv Hc; simpl in Hc.
  - injection Hc as <- _. exact Hinv.
  - destruct (import_cell tbl hdr (Some k) r (length pre) dt) as [tbl1 res1] eqn:E1.
    assert (Hdt : snd tmpl !! length pre = Some (dt, nm)).
    { rewrite Hsplit. rewrite lookup_app_r by lia.
      replace (length pre - length pre)%nat with O by lia. reflexivity. }
    assert (Hinv1 : keeps_fields templates tb tbl1).
    { eapply import_cell_round; [exact Hinv | exact He | exact Ht | exact Hdt | | exact E1].
      intros v Hv Hp. eapply Hcells; eassumption. }
    assert (Hnext : forall res', import_cells tbl1 hdr (Some k) r (S (length pre)) rest
                                 = (tbl', res') -> keeps_fields templates tb tbl').
    { intros res' Hc'. apply (IH (pre ++ [(dt, nm)])%list tbl1 tbl' res').
      - rewrite <- app_assoc. exact Hsplit.
      - exact Hinv1.
      - rewrite length_app. simpl. replace (length pre + 1)%nat with (S (length pre)) by lia.
        exact Hc'. }
    destruct res1 as [u|x|].
    + eapply Hnext; eassumption.
    + destruct x; try (injection Hc as <- _; exact Hinv1). eapply Hnext; eassumption.
    + injection Hc as <- _. exact Hinv1.
Qed.

Lemma before_colon_key e : Text.before_colon (toc_type_string e) = template_key e.
Proof. reflexivity. Qed.

(** One exported data row, taken in by the import. *)
Lemma import_row_exported `{Runtime} templates (tb : main_table) st om xlb_list tmpl s
    line_num (r : row) s' res :
  FORCE_HEX_OUTPUT om = false ->
  exported_row templates tb st om xlb_list tmpl r ->
  line_num <> 1%nat -> (line_num = 2%nat \/ im_template s = Some tmpl) ->
  keeps_fields templates tb (im_table s) ->
  import_row templates s line_num r = (s', res) ->
  keeps_fields templates tb (im_table s') /\ (res = Ok true -> im_template s' = Some tmpl).
Proof.
  intros Hh (k & e & cells & He & Ht & -> & Hcells) Hl1 Hl2 Hinv Hr.
  unfold import_row in Hr.
  destruct (Nat.eqb_spec line_num 1) as [|_]; [contradiction|].
  assert (Hfound : (if (line_num =? 2)%nat
                    then c1 <- get_nat (Text.str_of_int (Z.of_nat k) :: toc_type_string e :: cells) 1;;
                         t <- find_template templates (Text.before_colon c1);; Ok (Some t)
                    else Ok (im_template s)) = Ok (Some tmpl)).
  { destruct (Nat.eqb_spec line_num 2) as [E2|E2].
    - cbn [get_nat lookup list_lookup Py.bind]. rewrite before_colon_key, Ht. reflexivity.
    - destruct Hl2 as [?| ->]; [contradiction | reflexivity]. }
  rewrite Hfound in Hr.
  cbn [get_nat lookup list_lookup Py.bind] in Hr. rewrite int_of_str_of_int in Hr.
  assert (Hk : py_index (im_table s) (Z.of_nat k) = Some k).
  { apply py_index_nat. rewrite (proj1 Hinv). eapply lookup_lt_Some; eassumption. }
  rewrite Hk in Hr.
  destruct (import_cells (im_table s) (im_header_row s) (Some k)
              (Text.str_of_int (Z.of_nat k) :: toc_type_string e :: cells) 0 (snd tmpl))
    as [table' res'] eqn:Ec.
  injection Hr as <- <-. cbn [im_table im_template]. split; [|reflexivity].
  refine (import_cells_round templates tb _ k e tmpl _ (snd tmpl) He Ht _
            [] _ _ _ eq_refl Hinv Ec).
  intros i dt nm v Hi Hv Hp.
  destruct (render_cells_lookup _ _ _ _ _ _ _ Hcells i v Hv) as (pv & Hpv & Hc).
  rewrite Nat.add_0_l in Hpv.
  rewrite (render_cell_plain _ _ _ _ _ _ _ _ Hh Hi Hp) in Hpv.
  exists pv. split; [exact Hpv | exact Hc].
Qed.

Lemma import_rows_exported `{Runtime} templates (tb : main_table) st om xlb_list tmpl
    (rows : list (nat * row)) :
  FORCE_HEX_OUTPUT om = false ->
  Forall (fun lr => (1 < fst lr)%nat /\ exported_row templates tb st om xlb_list tmpl (snd lr))
         rows ->
  forall s s' res,
  match rows with
  | [] => True
  | lr :: _ => fst lr = 2%nat \/ im_template s = Some tmpl
  end ->
  keeps_fields templates tb (im_table s) ->
  import_rows templates s rows = (s', res) ->
  keeps_fields templates tb (im_table s').
Proof.
  intros Hh Hrows. induction Hrows as [|[line_num r] rest [Hl Hx] Hrest IH];
    intros s s' res Hfirst Hinv Hr; simpl in Hr.
  - injection Hr as <- _. exact Hinv.
  - simpl in Hl, Hx, Hfirst.
    destruct (import_row templates s line_num r) as [s1 res1] eqn:E1.
    assert (Hl1 : line_num <> 1%nat) by lia.
    destruct (import_row_exported _ _ _ _ _ _ _ _ _ _ _ Hh Hx Hl1 Hfirst Hinv E1)
      as [Hinv1 Ht1].
    destruct res1 as [[|]|x|]; try (injection Hr as <- _; exact Hinv1).
    eapply IH; [|exact Hinv1|exact Hr].
    destruct rest; [exact I | right; now apply Ht1].
Qed.

Lemma entry_rows_spec `{Runtime} templates (tb : main_table) st om xlb_list tmpl name :
  (forall k e, tb !! k = Some e -> toc_field_id e = Z.of_nat k) ->
  find_template templates name = Ok tmpl ->
  forall (todo pre : main_table) (rs : list row),
  tb = (pre ++ todo)%list ->
  entry_rows st om xlb_list tmpl name todo = Ok rs ->
  Forall (exported_row templates tb st om xlb_list tmpl) rs.
Proof.
  intros Hid Ht todo. induction todo as [|e rest IH]; intros pre rs Hsplit Hr; simpl in Hr.
  - injection Hr as <-. constructor.
  - assert (He : tb !! length pre = Some e).
    { rewrite Hsplit, lookup_app_r by lia.
      replace (length pre - length pre)%nat with O by lia. reflexivity. }
    assert (Hrest : forall rs', entry_rows st om xlb_list tmpl name rest = Ok rs' ->
                                Forall (exported_row templates tb st om xlb_list tmpl) rs').
    { intros rs'. apply (IH (pre ++ [e])%list). now rewrite <- app_assoc. }
    destruct (String.eqb_spec (template_key e) name) as [Ek|Ek]; [|now apply Hrest].
    unfold entry_row in Hr.
    destruct (render_cells st om xlb_list tmpl.2 0 (record_data e)) as [cells| |] eqn:Ec;
      try discriminate Hr.
    cbn [Py.bind] in Hr.
    destruct (entry_rows st om xlb_list tmpl name rest) as [rs'| |] eqn:Er;
      try discriminate Hr.
    cbn [Py.bind] in Hr. injection Hr as <-.
    constructor; [|now apply Hrest].
    exists (length pre), e, cells. rewrite Ek, (Hid _ _ He). auto.
Qed.

Lemma export_tables_elem `{Runtime} st om xlb_list templates (table : main_table) names
    csvs name (rows : list row) :
  export_tables st om xlb_list templates table names = Ok csvs ->
  In (name, rows) csvs ->
  export_table st om xlb_list templates table name = Ok rows.
Proof.
  revert csvs. induction names as [|n r IH]; intros csvs He Hin; simpl in He.
  - injection He as <-. destruct Hin.
  - destruct (export_table st om xlb_list templates table n) as [t| |] eqn:E1;
      try discriminate He.
    cbn [Py.bind] in He.
    destruct (export_tables st om xlb_list templates table r) as [ts| |] eqn:E2;
      try discriminate He.
    cbn [Py.bind] in He. injection He as <-.
    destruct Hin as [[= <- <-]|Hin]; [exact E1 | eapply IH; [reflexivity | exact Hin]].
Qed.

Lemma csv_reader_Forall (P : row -> Prop) n (rows : list row) :
  Forall P rows ->
  Forall (fun lr => (n < fst lr)%nat /\ P (snd lr)) (csv_reader n rows).
Proof.
  intros HP. revert n. induction HP as [|r rest Hr Hrest IH]; intros n; simpl;
    constructor.
  - simpl. unfold row_lines. split; [lia | exact Hr].
  - eapply Forall_impl; [apply IH|]. simpl. unfold row_lines. intros lr [? ?].
    split; [lia | assumption].
Qed.

Lemma keeps_fields_refl `{Runtime} templates (tb : main_table) : keeps_fields templates tb tb.
Proof. split; [reflexivity|]. intros k e i v He Hv _. eauto. Qed.

(** C4, for a table whose record ids are its indices: with the force-hex
    switch off, take one of the record tables the export writes and import
    it again, its header and its first data row each on one line of the
    file.  However the import ends, the table keeps its rows, and every field
    keeps its value that is of a pointer type or whose value round-trips
    through the codec of its data type.  The fixed-width integer types
    round-trip for every full-width value. *)
Theorem export_import_keeps_fields `{Runtime} (templates : list template) (xlb : bytes)
    (st : mxe_settings) (om : output_modifiers) (table : main_table)
    (csvs : list (string * list row)) (name : string) (rows : list row) :
  (forall k e, table !! k = Some e -> toc_field_id e = Z.of_nat k) ->
  FORCE_HEX_OUTPUT om = false ->
  writeMXEtoCSV table templates xlb st om = Ok csvs ->
  In (name, rows) csvs ->
  Forall (fun r => row_lines r = 1%nat) (take 2 rows) ->
  keeps_fields templates table (fst (applyCSVtoMXE table templates (csv_reader 0 rows)))
  /\ (forall dt w (b : bytes),
        is_int_type dt = true -> DataTypes dt = Some w -> length b = Z.to_nat w ->
        round_trips (FBytes b) dt).
Proof.
  intros Hid Hh Hw Hin Hlines. split; [|intros dt w b; apply int_types_round_trip].
  unfold writeMXEtoCSV in Hw.
  destruct (if RESOLVE_XLB_STRINGS st then readXLB xlb else Ok []) as [xlb_list| |];
    try discriminate Hw.
  cbn [Py.bind] in Hw.
  pose proof (export_tables_elem _ _ _ _ _ _ _ _ _ Hw Hin) as He.
  unfold export_table in He.
  destruct (find_template templates name) as [tmpl| |] eqn:Et; try discriminate He.
  cbn [Py.bind] in He.
  destruct (entry_rows st om xlb_list tmpl name table) as [rs| |] eqn:Er; try discriminate He.
  cbn [Py.bind] in He. injection He as <-.
  pose proof (entry_rows_spec templates table st om xlb_list tmpl name Hid Et table [] rs
                eq_refl Er) as Hrs.
  cbn [take] in Hlines. apply Forall_cons in Hlines as [Hl0 Hl1].
  unfold applyCSVtoMXE. cbn [csv_reader]. rewrite Hl0. cbn [Nat.add].
  cbn [import_rows].
  match goal with
  | |- context [import_row templates ?s 1 ?r] =>
      assert (Eh : import_row templates s 1 r
                   = (mkImport table (map split_column (drop 2 r)) None None, Ok true))
        by reflexivity
  end.
  rewrite Eh.
  match goal with
  | |- context [import_rows templates ?s ?l] =>
      destruct (import_rows templates s l) as [s' res] eqn:Ei
  end.
  cbn [fst].
  eapply (import_rows_exported templates table st om xlb_list tmpl (csv_reader 1 rs) Hh);
    [ | | | exact Ei].
  - apply csv_reader_Forall. exact Hrs.
  - destruct rs as [|first rest]; [exact I|]. cbn [csv_reader fst]. left.
    cbn [take] in Hl1. apply Forall_cons in Hl1 as [Hl1 _]. rewrite Hl1. reflexivity.
  - apply keeps_fields_refl.
Qed.

Lemma export_import_keeps_fields_witness :
  @keeps_fields example_runtime example_templates (take 2 example_table)
    (fst (@applyCSVtoMXE example_runtime (take 2 example_table) example_templates
            (csv_reader 0 example_rows)))
  /\ (forall dt w (b : bytes),
        is_int_type dt = true -> DataTypes dt = Some w -> length b = Z.to_nat w ->
        @round_trips example_runtime (FBytes b) dt).
Proof.
  apply (@export_import_keeps_fields example_runtime example_templates xlb_good MXE_SETTINGS
           OUTPUT_MODIFIERS (take 2 example_table) [("Wpn", example_rows)] "Wpn" example_rows).
  - intros [|[|k]] e; simpl; intros E; [injection E as <-; reflexivity..|discriminate E].
  - reflexivity.
  - vm_compute. reflexivity.
  - left. reflexivity.
  - repeat constructor.
Defined.

(** A loaded table whose entries carry the ids 1 and 0: the export writes
    the ids as RecordId, the import reads RecordId as an index, and the
    round-tripping value 7 of the first weapon is replaced by the 9 of the
    second. *)
Lemma export_import_counterexample :
  @readMXEFile example_runtime (mxe_file 2 1 0) example_templates MXE_SETTINGS
    = Ok swapped_table
  /\ @writeMXEtoCSV example_runtime swapped_table example_templates xlb_good MXE_SETTINGS
       OUTPUT_MODIFIERS = Ok [("Wpn", swapped_rows)]
  /\ csv_reader 0 swapped_rows
     = [(1%nat, ["RecordId"; "InternalName"; "<i:power"; "<p:label"; "<i2:ammo"]);
        (2%nat, ["1"; "Wpn:Main"; "7"; "gun"; "300"]);
        (3%nat, ["0"; "Wpn"; "9"; "axe"; "5"])]
  /\ (exists e, swapped_table !! 0%nat = Some e
                /\ record_data e !! 0%nat = Some (FBytes (le32 7)))
  /\ @round_trips example_runtime (FBytes (le32 7)) "<i"
  /\ (exists e', fst (@applyCSVtoMXE example_runtime swapped_table example_templates
                        (csv_reader 0 swapped_rows)) !! 0%nat = Some e'
                 /\ record_data e' !! 0%nat = Some (FBytes (le32 9))).
Proof.
  split; [vm_compute; reflexivity|].
  split; [vm_compute; reflexivity|].
  split; [vm_compute; reflexivity|].
  split; [eexists; split; reflexivity|].
  split; [apply (int_types_round_trip "<i" 4); reflexivity|].
  eexists. split; vm_compute; reflexivity.
Qed.

(** * Further properties of the code *)

(** ** Field codec *)


Lemma le_bytes_length w n : length (le_bytes w n) = w.
Proof. revert n. induction w as [|w IH]; intros n; simpl; [reflexivity | now rewrite IH]. Qed.







Lemma unpack_from_enough e (k : nat) (b : bytes) :
  (k <= length b)%nat -> exists n, unpack_from e k b 0 = Ok n.
Proof.
  intros Hl. unfold unpack_from. destruct (Nat.ltb_spec (length b) (0 + k)); [lia|]. eauto.
Qed.

Lemma unpack_from_short e (k : nat) (b : bytes) :
  (length b < k)%nat -> unpack_from e k b 0 = Raise StructError.
Proof.
  intros Hl. unfold unpack_from. destruct (Nat.ltb_spec (length b) (0 + k)); [reflexivity|lia].
Qed.

Lemma DataTypes_names dt w :
  DataTypes dt = Some w ->
  In dt ["<i"; "<i2"; "<f"; "<h"; ">i"; ">i2"; ">f"; ">h"; "i1";
         "<ip"; "<pi"; "<p"; ">ip"; ">pi"; ">p"].
Proof.
  unfold DataTypes. intros Hw.
  repeat match type of Hw with
  | (if String.eqb dt ?s then _ else _) = _ =>
      destruct (String.eqb_spec dt s) as [->|?]; [simpl; tauto|]
  end.
  discriminate Hw.
Qed.

(** X2: decoding is total on the data types that have a width: a buffer of at
    least that width decodes to a value, never to [None]; a shorter buffer
    is a [struct.error], except for the hex display, which takes any
    length.  A data type without width other than "s" has no converter in
    either direction. *)
Theorem known_types_decode `{Runtime} (dt : string) (b : bytes) :
  (forall w, DataTypes dt = Some w ->
     (w <= Z.of_nat (length b) ->
        exists v, bytesToText (FBytes b) dt = Ok v /\ v <> VNone)
     /\ (Z.of_nat (length b) < w ->
           if is_hex_type dt then exists s, bytesToText (FBytes b) dt = Ok (VStr s)
           else bytesToText (FBytes b) dt = Raise StructError))
  /\ (DataTypes dt = None -> dt <> "s" ->
        forall v obj, bytesToText v dt = Ok VNone /\ objToBytes obj dt = Ok FNone).
Proof.
  split.
  - intros w Hw. pose proof (DataTypes_names dt w Hw) as Hin. simpl in Hin.
    repeat (destruct Hin as [<-|Hin]); try contradiction;
      injection Hw as <-;
      unfold bytesToText, is_hex_type; simpl String.eqb; cbv iota;
      unfold bytesAsLEInt, bytesAsBEInt, bytesAsLEShort, bytesAsBEShort, bytesAsChar,
        bytesAsLEAddress, bytesAsBEAddress, bytesAsLEInt, bytesAsBEInt,
        bytesAsLEFloat, bytesAsBEFloat, bytesAsFloat, bytesAsLEHex, bytesAsBEHex;
      cbn [as_buffer Py.bind orb];
      (split; intros Hl;
       [ first
           [ match goal with
             | |- context [unpack_from ?e ?k b 0] =>
                 destruct (unpack_from_enough e k b ltac:(lia)) as [n ->];
                 cbn [Py.bind]; eexists; split; [reflexivity | discriminate]
             end
           | destruct (Nat.ltb_spec (length b) 4); [lia|];
             eexists; split; [reflexivity | discriminate]
           | eexists; split; [reflexivity | discriminate] ]
       | first
           [ match goal with
             | |- context [unpack_from ?e ?k b 0] =>
                 rewrite (unpack_from_short e k b) by lia; reflexivity
             end
           | destruct (Nat.ltb_spec (length b) 4); [reflexivity | lia]
           | eexists; reflexivity ] ]).
  - intros Hn Hs v obj. unfold DataTypes in Hn. unfold bytesToText, objToBytes.
    repeat match type of Hn with
    | (if String.eqb dt ?s then _ else _) = _ =>
        destruct (String.eqb dt s); [discriminate Hn|]
    end.
    destruct (String.eqb_spec dt "s"); [contradiction|]. auto.
Qed.

Lemma known_types_decode_witness :
  (exists v, @bytesToText example_runtime (FBytes [x01; x02; x03; x04; x05]) ">i" = Ok v
             /\ v <> VNone)
  /\ @bytesToText example_runtime (FBytes [x01; x02]) ">i" = Raise StructError
  /\ (forall v obj, @bytesToText example_runtime v "u8" = Ok VNone
                    /\ @objToBytes example_runtime obj "u8" = Ok FNone).
Proof.
  destruct (@known_types_decode example_runtime ">i" [x01; x02; x03; x04; x05]) as [Hk _].
  destruct (@known_types_decode example_runtime ">i" [x01; x02]) as [Hs _].
  destruct (@known_types_decode example_runtime "u8" []) as [_ Hu].
  split; [apply (Hk 4 eq_refl); simpl; lia|].
  split; [apply (Hs 4 eq_refl); simpl; lia|].
  apply Hu; [reflexivity | discriminate].
Defined.

(** ** Zero-delimited bytes *)

Lemma scan_zero_found (barr tail acc : bytes) (p : Z) :
  ~ In x00 barr ->
  scan_zero (barr ++ x00 :: tail) acc p
  = Ok ((acc ++ barr)%list, p + Z.of_nat (length barr) + 1).
Proof.
  revert acc p. induction barr as [|c r IH]; intros acc p Hn; simpl.
  - rewrite app_nil_r. f_equal. f_equal. lia.
  - destruct (decide (c = x00)) as [->|Hc]; [exfalso; apply Hn; now left|].
    rewrite IH by (intros Hin; apply Hn; now right).
    rewrite <- app_assoc. simpl. f_equal. f_equal. lia.
Qed.

Lemma scan_zero_none (rest acc : bytes) (p : Z) :
  ~ In x00 rest -> scan_zero rest acc p = Diverge.
Proof.
  revert acc p. induction rest as [|c r IH]; intros acc p Hn; simpl; [reflexivity|].
  destruct (decide (c = x00)) as [->|Hc]; [exfalso; apply Hn; now left|].
  apply IH. intros Hin. apply Hn. now right.
Qed.

(** X3: [readZeroDelBytes] returns the bytes from [startpos] up to the first
    zero byte and leaves the cursor at [backseek], or behind the zero byte
    when [backseek] is not positive.  When no zero byte follows [startpos]
    the loop never ends, and a negative [startpos] is refused by [seek]. *)
Theorem readZeroDelBytes_spec (f : File.t) (startpos backseek : Z) :
  (0 <= startpos ->
     (forall barr tail,
        drop (Z.to_nat startpos) (File.content f) = (barr ++ x00 :: tail)%list ->
        ~ In x00 barr ->
        readZeroDelBytes f startpos backseek
        = Ok (barr, File.mk (File.content f)
                      (if backseek >? 0 then backseek
                       else startpos + Z.of_nat (length barr) + 1)))
     /\ (~ In x00 (drop (Z.to_nat startpos) (File.content f)) ->
         readZeroDelBytes f startpos backseek = Diverge))
  /\ (startpos < 0 -> readZeroDelBytes f startpos backseek = Raise OSError).
Proof.
  unfold readZeroDelBytes, File.seek. split.
  - intros Hp. destruct (Z.ltb_spec startpos 0); [lia|]. cbn [Py.bind File.content].
    split.
    + intros barr tail Hd Hn. rewrite Hd, scan_zero_found by exact Hn.
      cbn [Py.bind app]. destruct (Z.gtb_spec backseek 0).
      * destruct (Z.ltb_spec backseek 0); [lia|]. reflexivity.
      * reflexivity.
    + intros Hn. rewrite scan_zero_none by exact Hn. reflexivity.
  - intros Hp. destruct (Z.ltb_spec startpos 0); [reflexivity | lia].
Qed.

Lemma readZeroDelBytes_spec_witness :
  readZeroDelBytes (File.mk [x41; x42; x00; x43] 3) 0 3
    = Ok ([x41; x42], File.mk [x41; x42; x00; x43] 3)
  /\ readZeroDelBytes (File.mk [x41; x42; x00; x43] 0) 3 1 = Diverge
  /\ readZeroDelBytes (File.mk [x41; x42; x00; x43] 0) (-1) 1 = Raise OSError.
Proof.
  destruct (readZeroDelBytes_spec (File.mk [x41; x42; x00; x43] 3) 0 3) as [H0 _].
  destruct (readZeroDelBytes_spec (File.mk [x41; x42; x00; x43] 0) 3 1) as [H3 _].
  destruct (readZeroDelBytes_spec (File.mk [x41; x42; x00; x43] 0) (-1) 1) as [_ Hn].
  split; [|split].
  - apply (proj1 (H0 ltac:(lia)) [x41; x42] [x43]); [reflexivity|].
    simpl. intros [E|[E|[]]]; discriminate E.
  - apply (proj2 (H3 ltac:(lia))). simpl. intros [E|[]]. discriminate E.
  - apply Hn. lia.
Defined.

(** ** XLB lookup *)

Lemma find_in_records_none (records : list xlb_record) (id : Z) :
  find_in_records records id = None <-> ~ In id (map fst records).
Proof.
  induction records as [|[k p] r IH]; simpl; [tauto|].
  destruct (Z.eqb_spec k id) as [->|Hne].
  - split; [discriminate | intros H; exfalso; apply H; now left].
  - rewrite IH. split; [intros H [E|Hin]; [contradiction | now apply H] | tauto].
Qed.

Lemma find_in_records_some (records : list xlb_record) (id : Z) p :
  find_in_records records id = Some p -> In (id, p) records.
Proof.
  induction records as [|[k q] r IH]; simpl; [discriminate|].
  destruct (Z.eqb_spec k id) as [->|Hne]; [intros [= ->]; now left | intros H; right; auto].
Qed.

(** X4: [findByIDInXLB] answers [None] exactly for an id that is the key of no
    record, and otherwise the payload of a record with this key. *)
Theorem findByIDInXLB_spec (data : xlb_data) (id : Z) :
  (findByIDInXLB data id = None <-> ~ In id (keys data))
  /\ (forall p, findByIDInXLB data id = Some p ->
        exists s, In s data /\ In (id, p) (snd s)).
Proof.
  induction data as [|s r [IHn IHs]]; simpl.
  - split; [tauto | discriminate].
  - unfold keys in *. simpl. split.
    + rewrite in_app_iff.
      destruct (find_in_records (snd s) id) as [p|] eqn:E.
      * split; [discriminate|]. intros H. exfalso. apply H. left.
        apply find_in_records_some in E. apply (in_map fst _ _ E).
      * apply find_in_records_none in E. rewrite IHn. tauto.
    + intros p. destruct (find_in_records (snd s) id) as [q|] eqn:E.
      * intros [= ->]. exists s. split; [now left | now apply find_in_records_some].
      * intros H. destruct (IHs p H) as (s' & Hin & Hp). exists s'. split; [now right | exact Hp].
Qed.

Lemma findByIDInXLB_spec_witness :
  findByIDInXLB three_sections 7 = None
  /\ exists s, In s three_sections /\ In (500, PEmpty) (snd s).
Proof.
  destruct (findByIDInXLB_spec three_sections 7) as [[_ Hn] _].
  destruct (findByIDInXLB_spec three_sections 500) as [_ Hs].
  split.
  - apply Hn. vm_compute. intuition discriminate.
  - apply Hs. reflexivity.
Defined.

Lemma store_inv (data data' : xlb_data) (h : nat) (r : Z) (rec_bytes : bytes) :
  store data h r rec_bytes = Ok data' ->
  exists hdr (recs : list xlb_record) j id old,
    data !! h = Some (hdr, recs) /\ py_index recs r = Some j
    /\ recs !! j = Some (id, old)
    /\ data' = <[h := (hdr, <[j := (id, PBytes rec_bytes)]> recs)]> data.
Proof.
  unfold store, get_nat, py_get, py_set. intros Hs.
  destruct (data !! h) as [[hdr recs]|] eqn:Ed; [|discriminate]. cbn [Py.bind fst snd] in Hs.
  destruct (py_index recs r) as [j|] eqn:Ep; [|discriminate].
  destruct (recs !! j) as [[id old]|] eqn:Er; [|discriminate]. cbn [Py.bind fst] in Hs.
  injection Hs as <-. exists hdr, recs, j, id, old. auto.
Qed.

Lemma find_in_records_insert (l : list xlb_record) (j : nat) (id : Z) old new (id' : Z) :
  l !! j = Some (id, old) -> NoDup (map fst l) ->
  find_in_records (<[j := (id, new)]> l) id'
  = if id' =? id then Some new else find_in_records l id'.
Proof.
  revert j. induction l as [|[k p] l IH]; intros j Hj Hnd; [discriminate|].
  simpl in Hnd. apply NoDup_cons in Hnd as [Hk Hnd].
  destruct j as [|j]; simpl in Hj |- *.
  - injection Hj as -> ->. rewrite (Z.eqb_sym id id'). destruct (id' =? id); reflexivity.
  - rewrite (IH j Hj Hnd).
    assert (Hne : k <> id).
    { intros ->. apply Hk. apply list_elem_of_fmap. exists (id, old).
      split; [reflexivity|]. eapply list_elem_of_lookup_2; eassumption. }
    destruct (Z.eqb_spec k id') as [->|Hk']; [|reflexivity].
    destruct (Z.eqb_spec id' id); [contradiction | reflexivity].
Qed.

Lemma skeleton_insert (data : xlb_data) h hdr (recs : list xlb_record) j id old new :
  data !! h = Some (hdr, recs) -> recs !! j = Some (id, old) ->
  skeleton (<[h := (hdr, <[j := (id, new)]> recs)]> data) = skeleton data
  /\ keys (<[h := (hdr, <[j := (id, new)]> recs)]> data) = keys data.
Proof.
  intros Hd Hr.
  assert (Hm : map fst (<[j := (id, new)]> recs) = map fst recs).
  { change (map fst (<[j := (id, new)]> recs)) with (fst <$> <[j := (id, new)]> recs).
    rewrite list_fmap_insert. apply list_insert_id.
    rewrite list_lookup_fmap, Hr. reflexivity. }
  unfold skeleton, keys. split.
  - change (map ?f (<[h := ?x]> data)) with (f <$> <[h := x]> data).
    rewrite list_fmap_insert. cbn [fst snd]. rewrite Hm. apply list_insert_id.
    rewrite list_lookup_fmap, Hd. reflexivity.
  - f_equal. change (map ?f (<[h := ?x]> data)) with (f <$> <[h := x]> data).
    rewrite list_fmap_insert. cbn [snd]. rewrite Hm. apply list_insert_id.
    rewrite list_lookup_fmap, Hd. reflexivity.
Qed.

Lemma findByIDInXLB_insert (data : xlb_data) h hdr (recs : list xlb_record) j id old new id' :
  data !! h = Some (hdr, recs) -> recs !! j = Some (id, old) -> NoDup (keys data) ->
  findByIDInXLB (<[h := (hdr, <[j := (id, new)]> recs)]> data) id'
  = if id' =? id then Some new else findByIDInXLB data id'.
Proof.
  revert h. induction data as [|s rest IH]; intros h Hd Hr Hnd; [discriminate|].
  unfold keys in Hnd. simpl in Hnd. apply NoDup_app in Hnd as (Hnd1 & Hdisj & Hnd2).
  destruct h as [|h]; simpl in Hd |- *.
  - injection Hd as ->. cbn [snd].
    rewrite (find_in_records_insert _ _ _ _ _ _ Hr Hnd1).
    destruct (id' =? id); reflexivity.
  - rewrite (IH h Hd Hr Hnd2).
    assert (Hin : id ∈ keys rest).
    { unfold keys. apply list_elem_of_In, in_concat. exists (map fst recs). split.
      - apply in_map_iff. exists (hdr, recs). split; [reflexivity|].
        apply list_elem_of_In. eapply list_elem_of_lookup_2; eassumption.
      - apply in_map_iff. exists (id, old). split; [reflexivity|].
        apply list_elem_of_In. eapply list_elem_of_lookup_2; eassumption. }
    destruct (Z.eqb_spec id' id) as [Eid|Hne]; [|reflexivity].
    rewrite Eid.
    destruct (find_in_records (snd s) id) as [p|] eqn:E; [|reflexivity].
    exfalso. apply find_in_records_some in E.
    apply (Hdisj id); [|exact Hin].
    apply list_elem_of_In. apply (in_map fst _ _ E).
Qed.

(** X5: with pairwise distinct keys, a payload stored in row [r] of section
    [h] is what [findByIDInXLB] then returns for the key that stands in that
    row, every other key is answered as before, and headers and keys stay
    as they are. *)
Theorem store_then_find (data data' : xlb_data) (h : nat) (r : Z) (rec_bytes : bytes) :
  store data h r rec_bytes = Ok data' -> NoDup (keys data) ->
  skeleton data' = skeleton data
  /\ exists (s : xlb_section) (j : nat) (id : Z) (old : payload),
       data !! h = Some s /\ py_index (snd s) r = Some j /\ snd s !! j = Some (id, old)
       /\ findByIDInXLB data' id = Some (PBytes rec_bytes)
       /\ forall id', id' <> id -> findByIDInXLB data' id' = findByIDInXLB data id'.
Proof.
  intros Hs Hnd.
  destruct (store_inv _ _ _ _ _ Hs) as (hdr & recs & j & id & old & Hd & Hj & Hr & ->).
  split; [apply (skeleton_insert _ _ _ _ _ _ old _ Hd Hr)|].
  exists (hdr, recs), j, id, old. split; [exact Hd|]. split; [exact Hj|].
  split; [exact Hr|]. split.
  - rewrite (findByIDInXLB_insert _ _ _ _ _ _ _ _ id Hd Hr Hnd). now rewrite Z.eqb_refl.
  - intros id' Hne. rewrite (findByIDInXLB_insert _ _ _ _ _ _ _ _ id' Hd Hr Hnd).
    destruct (Z.eqb_spec id' id); [contradiction | reflexivity].
Qed.

Lemma store_then_find_witness :
  skeleton (<[2%nat := (mkHeader 4 10 0 "",
                        <[4%nat := (664, PBytes [x62])]>
                          (map (fun k => (k, PEmpty))
                               [600; 616; 632; 648; 664; 680; 696; 712; 728; 744]))]>
              three_sections) = skeleton three_sections
  /\ exists (s : xlb_section) (j : nat) (id : Z) (old : payload),
       three_sections !! 2%nat = Some s /\ py_index (snd s) 4 = Some j
       /\ snd s !! j = Some (id, old)
       /\ findByIDInXLB (<[2%nat := (mkHeader 4 10 0 "",
                        <[4%nat := (664, PBytes [x62])]>
                          (map (fun k => (k, PEmpty))
                               [600; 616; 632; 648; 664; 680; 696; 712; 728; 744]))]>
              three_sections) id = Some (PBytes [x62])
       /\ forall id', id' <> id ->
            findByIDInXLB (<[2%nat := (mkHeader 4 10 0 "",
                        <[4%nat := (664, PBytes [x62])]>
                          (map (fun k => (k, PEmpty))
                               [600; 616; 632; 648; 664; 680; 696; 712; 728; 744]))]>
              three_sections) id' = findByIDInXLB three_sections id'.
Proof.
  apply (store_then_find three_sections _ 2 4 [x62]).
  - reflexivity.
  - vm_compute. repeat (apply NoDup_cons_2; [rewrite list_elem_of_In; simpl; intuition discriminate|]).
    apply NoDup_nil_2.
Defined.

(** ** What the payload phase leaves alone *)

Lemma store_skeleton (data data' : xlb_data) h r rec_bytes :
  store data h r rec_bytes = Ok data' -> skeleton data' = skeleton data.
Proof.
  intros Hs. destruct (store_inv _ _ _ _ _ Hs) as (hdr & recs & j & id & old & Hd & _ & Hr & ->).
  apply (skeleton_insert _ _ _ _ _ _ old _ Hd Hr).
Qed.

Lemma place_next_skeleton (data data' : xlb_data) c c' rec_id2 rec_bytes :
  place_next data c rec_id2 rec_bytes = Ok (data', c') -> skeleton data' = skeleton data.
Proof.
  unfold place_next. intros Hp.
  destruct (next_slot data c rec_id2) as [[h r]| |]; try discriminate Hp. cbn [Py.bind] in Hp.
  destruct (store data h r rec_bytes) as [d| |] eqn:Es; try discriminate Hp.
  cbn [Py.bind] in Hp. injection Hp as <- _. eapply store_skeleton; eassumption.
Qed.

Lemma payload_loop_skeleton `{Runtime} n (data data' : xlb_data) c f :
  payload_loop n data c f = Ok data' -> skeleton data' = skeleton data.
Proof.
  revert data c f. induction n as [|n IH]; intros data c f Hp; simpl in Hp.
  - now injection Hp as <-.
  - destruct (read_record f) as [[[rec_id2 rec_bytes] f1]| |]; try discriminate Hp.
    cbn [Py.bind] in Hp.
    destruct (place_next data c rec_id2 rec_bytes) as [[d c']| |] eqn:En; try discriminate Hp.
    cbn [Py.bind] in Hp. apply IH in Hp. rewrite Hp.
    eapply place_next_skeleton; eassumption.
Qed.

Lemma read_skeleton_length `{Runtime} size n (acc records : list xlb_record) f f' :
  read_skeleton size n acc f = Ok (records, f') -> length records = (length acc + n)%nat.
Proof.
  revert acc f. induction n as [|n IH]; intros acc f Hr; simpl in Hr.
  - injection Hr as <- _. lia.
  - destruct (read_int f) as [[id f1]| |]; try discriminate Hr. cbn [Py.bind] in Hr.
    destruct (File.seek _ f1) as [f2| |]; try discriminate Hr. cbn [Py.bind] in Hr.
    apply IH in Hr. rewrite Hr, length_app. simpl. lia.
Qed.

Lemma read_headers_counts `{Runtime} n (acc data : xlb_data) f f' :
  read_headers n acc f = Ok (data, f') ->
  Forall (fun s => length (snd s) = Z.to_nat (recordCount (fst s))) acc ->
  length data = (length acc + n)%nat
  /\ Forall (fun s => length (snd s) = Z.to_nat (recordCount (fst s))) data.
Proof.
  revert acc f. induction n as [|n IH]; intros acc f Hr Hacc; simpl in Hr.
  - injection Hr as <- _. split; [lia | exact Hacc].
  - destruct (read_int f) as [[size f1]| |]; try discriminate Hr. cbn [Py.bind] in Hr.
    destruct (read_int f1) as [[count f2]| |]; try discriminate Hr. cbn [Py.bind] in Hr.
    destruct (read_int f2) as [[dlen f3]| |]; try discriminate Hr. cbn [Py.bind] in Hr.
    destruct (File.read dlen f3) as [[raw f4]| |]; try discriminate Hr. cbn [Py.bind] in Hr.
    destruct (sjis_decode raw) as [d|]; [|discriminate].
    destruct (read_skeleton size (Z.to_nat count) [] f4) as [[records f5]| |] eqn:Es;
      try discriminate Hr.
    cbn [Py.bind] in Hr. apply read_skeleton_length in Es. simpl in Es.
    apply IH in Hr as [Hl HF].
    + split; [|exact HF]. rewrite Hl, length_app. simpl. lia.
    + apply Forall_app. split; [exact Hacc|]. constructor; [exact Es | constructor].
Qed.

Lemma skeleton_counts (d d0 : xlb_data) :
  skeleton d = skeleton d0 ->
  Forall (fun s => length (snd s) = Z.to_nat (recordCount (fst s))) d0 ->
  length d = length d0
  /\ Forall (fun s => length (snd s) = Z.to_nat (recordCount (fst s))) d.
Proof.
  revert d0. induction d as [|s d IH]; intros [|s0 d0] He HF; try discriminate He.
  - split; [reflexivity | constructor].
  - unfold skeleton in He. simpl in He. injection He as Eh Ek Et.
    apply Forall_cons in HF as [H0 HF]. destruct (IH d0 Et HF) as [Hl HF'].
    split; [simpl; congruence|]. constructor; [|exact HF'].
    rewrite Eh. rewrite <- H0. rewrite <- (length_map fst (snd s)), Ek. apply length_map.
Qed.

(** X6: [readXLB] returns as many sections as the file announces at offset 4,
    each with as many slots as its header counts; the payload phase fills
    payloads only: headers, keys and the number of slots are those of the
    header phase. *)
Theorem readXLB_keeps_skeleton `{Runtime} (file : bytes) (data : xlb_data) :
  readXLB file = Ok data ->
  exists data0 f3 typeCount,
    read_header_phase file = Ok (data0, f3)
    /\ skeleton data = skeleton data0
    /\ Forall (fun s => length (snd s) = Z.to_nat (recordCount (fst s))) data
    /\ unpack_from LE 4 (take 4 (drop 4 file)) 0 = Ok typeCount
    /\ length data = Z.to_nat typeCount.
Proof.
  unfold readXLB. intros Hr.
  destruct (read_header_phase file) as [[data0 f3]| |] eqn:Eh; try discriminate Hr.
  cbn [Py.bind] in Hr.
  assert (Hh : exists typeCount,
             unpack_from LE 4 (take 4 (drop 4 file)) 0 = Ok typeCount
             /\ length data0 = Z.to_nat typeCount
             /\ Forall (fun s => length (snd s) = Z.to_nat (recordCount (fst s))) data0).
  { unfold read_header_phase, read_int, File.seek, File.read in Eh.
    cbn [Z.ltb Z.compare Py.bind File.content File.pos File.open Z.eqb] in Eh.
    change (Z.to_nat 4) with 4%nat in Eh. unfold bytesAsLEInt in Eh.
    cbn [as_buffer Py.bind] in Eh.
    destruct (unpack_from LE 4 (take 4 (drop 4 file)) 0) as [typeCount| |];
      try discriminate Eh.
    cbn [Py.bind] in Eh. apply read_headers_counts in Eh as [Hl HF]; [|constructor].
    exists typeCount. simpl in Hl. auto. }
  destruct Hh as (typeCount & Hu & Hl & HF).
  assert (Hsk : skeleton data = skeleton data0).
  { destruct (read_marker f3) as [[chnkhead f4]| |]; try discriminate Hr.
    cbn [Py.bind] in Hr.
    destruct (negb (String.eqb chnkhead "CHNK")); [now injection Hr as <-|].
    unfold read_payload_phase in Hr.
    destruct (read_int f4) as [[count f5]| |]; try discriminate Hr. cbn [Py.bind] in Hr.
    destruct (read_record f5) as [[[rec_id2 rec_bytes] f6]| |]; try discriminate Hr.
    cbn [Py.bind] in Hr. unfold place_first in Hr.
    destruct (store data0 0 _ rec_bytes) as [d1| |] eqn:Es; try discriminate Hr.
    cbn [Py.bind] in Hr. apply payload_loop_skeleton in Hr. rewrite Hr.
    eapply store_skeleton; eassumption. }
  destruct (skeleton_counts _ _ Hsk HF) as [Hl' HF'].
  exists data0, f3, typeCount. repeat split; try assumption. congruence.
Qed.

Lemma readXLB_keeps_skeleton_witness :
  exists data0 f3 typeCount,
    @read_header_phase example_runtime xlb_good = Ok (data0, f3)
    /\ skeleton [(mkHeader 4 3 1 "A",
                  [(48, PBytes [x61]); (64, PBytes [x62]); (80, PBytes [x63])])]
       = skeleton data0
    /\ Forall (fun s : xlb_section => length (snd s) = Z.to_nat (recordCount (fst s)))
         [(mkHeader 4 3 1 "A", [(48, PBytes [x61]); (64, PBytes [x62]); (80, PBytes [x63])])]
    /\ unpack_from LE 4 (take 4 (drop 4 xlb_good)) 0 = Ok typeCount
    /\ length [(mkHeader 4 3 1 "A",
                [(48, PBytes [x61]); (64, PBytes [x62]); (80, PBytes [x63])])]
       = Z.to_nat typeCount.
Proof.
  apply (@readXLB_keeps_skeleton example_runtime xlb_good). vm_compute. reflexivity.
Defined.

(** X7: the parser never goes back to an earlier section: [next_slot] answers
    with an existing section at or after the current one, and it stays in
    the current one only with the row moved by the key distance. *)
Theorem next_slot_moves_forward (data : xlb_data) (c : cursor) (key : Z) (h' : nat) (r' : Z) :
  next_slot data c key = Ok (h', r') ->
  (currHeader c <= h')%nat /\ (h' < length data)%nat
  /\ (h' = currHeader c -> r' = currRec c + (key - prev_id2 c) / 16).
Proof.
  unfold next_slot, count_at, get_nat. intros Hn.
  destruct (data !! currHeader c) as [s|] eqn:Ed; [|discriminate]. cbn [Py.bind] in Hn.
  destruct (_ <? _).
  - injection Hn as <- <-. split; [lia|]. split; [eapply lookup_lt_Some; eassumption | auto].
  - apply skip_short_spec in Hn as (k & -> & _ & (s' & Hs' & _) & _).
    rewrite lookup_drop in Hs'. apply lookup_lt_Some in Hs'.
    split; [lia|]. split; [lia|]. intros E. lia.
Qed.

Lemma next_slot_moves_forward_witness :
  (0 <= 2)%nat /\ (2 < length three_sections)%nat /\ (2%nat = 0%nat -> 4 = 1 + (224 - 64) / 16).
Proof.
  apply (next_slot_moves_forward three_sections (mkCursor 0 1 64) 224 2 4). reflexivity.
Defined.

(** ** Writing back *)

Lemma write_frame (b : bytes) (f : File.t) :
  0 <= File.pos f ->
  File.pos f <= File.pos (File.write b f)
  /\ (length (File.content f) <= length (File.content (File.write b f)))%nat
  /\ forall (i : nat) x, Z.of_nat i < File.pos f -> File.content f !! i = Some x ->
       File.content (File.write b f) !! i = Some x.
Proof.
  intros Hp. destruct b as [|c b]; [simpl; split; [lia | split; [lia | auto]]|].
  unfold File.write. cbn [File.pos File.content].
  split; [lia|]. split.
  - rewrite !length_app, length_take, length_app, length_replicate, length_drop. simpl. lia.
  - intros i x Hi Hx. apply lookup_lt_Some in Hx as Hlt.
    rewrite lookup_app_l.
    + rewrite lookup_take_lt by lia. rewrite lookup_app_l by lia. exact Hx.
    + rewrite length_take, length_app, length_replicate. lia.
Qed.

Lemma write_fields_frame st fields (data : list field) lo :
  forall i f f' res,
    write_fields st fields i data f = (f', res) -> lo <= File.pos f -> 0 <= lo ->
    (length (File.content f) <= length (File.content f'))%nat
    /\ forall (k : nat) x, Z.of_nat k < lo -> File.content f !! k = Some x ->
         File.content f' !! k = Some x.
Proof.
  induction fields as [|[dt nm] rest IH]; intros i f f' res Hw Hlo H0; simpl in Hw.
  - injection Hw as <- _. auto.
  - destruct (DataTypes dt); [|eapply IH; eassumption].
    destruct (get_nat data i) as [v| |]; try (injection Hw as <- _; auto; fail).
    destruct (field_bytes st dt v) as [b| |]; try (injection Hw as <- _; auto; fail).
    destruct (write_frame b f) as (Hp & Hl & Hk); [lia|].
    apply IH in Hw as [Hl' Hk']; [|lia..].
    split; [lia|]. intros k x Hlt Hx. apply Hk'; [exact Hlt|]. apply Hk; [lia | exact Hx].
Qed.

Lemma write_entry_frame st templates (entry : toc_entry) lo f f' res :
  write_entry st templates entry f = (f', res) ->
  lo <= followAddress (record_address entry) -> 0 <= lo ->
  (length (File.content f) <= length (File.content f'))%nat
  /\ forall (k : nat) x, Z.of_nat k < lo -> File.content f !! k = Some x ->
       File.content f' !! k = Some x.
Proof.
  unfold write_entry. intros Hw Hlo H0.
  destruct (find_template templates (template_key entry)) as [tmpl| |];
    try (injection Hw as <- _; auto; fail).
  destruct (File.seek _ f) as [f1| |] eqn:Es; try (injection Hw as <- _; auto; fail).
  apply seek_ok in Es as [-> Hp].
  destruct (write_fields st (snd tmpl) 0 (record_data entry) _) as [f2 r] eqn:Ew.
  apply (write_fields_frame _ _ _ lo) in Ew; [|simpl; lia..]. simpl in Ew.
  assert (f' = f2) as ->; [|exact Ew].
  destruct r as [[]|e|]; [| destruct e |]; congruence.
Qed.

Lemma write_entries_frame st templates lo (table : main_table) :
  Forall (fun e => lo <= followAddress (record_address e)) table -> 0 <= lo ->
  forall f f' res,
    write_entries st templates table f = (f', res) ->
    (length (File.content f) <= length (File.content f'))%nat
    /\ forall (k : nat) x, Z.of_nat k < lo -> File.content f !! k = Some x ->
         File.content f' !! k = Some x.
Proof.
  intros HF H0. induction HF as [|e table He HF IH]; intros f f' res Hw; simpl in Hw.
  - injection Hw as <- _. auto.
  - destruct (write_entry st templates e f) as [f1 r] eqn:Ee.
    apply (write_entry_frame _ _ _ lo) in Ee as [Hl Hk]; [|assumption..].
    destruct r as [[]|x|]; try (injection Hw as <- _; auto; fail).
    apply IH in Hw as [Hl' Hk']. split; [lia|]. intros k x Hlt Hx. auto.
Qed.

(** X8: however [writeMXEFile] is left, by return or by exception, the file is
    not shorter than before, and every byte in front of the lowest record
    position (record address plus 0x40) of the table is as it was. *)
Theorem writeMXEFile_frame (file : bytes) (table : main_table) (templates : list template)
    (st : mxe_settings) (lo : Z) :
  0 <= lo ->
  Forall (fun e => lo <= followAddress (record_address e)) table ->
  (length file <= length (fst (writeMXEFile file table templates st)))%nat
  /\ forall (k : nat) x, Z.of_nat k < lo -> file !! k = Some x ->
       fst (writeMXEFile file table templates st) !! k = Some x.
Proof.
  intros H0 HF. unfold writeMXEFile.
  destruct (write_entries st templates table (File.open file)) as [f r] eqn:Ew.
  apply (write_entries_frame _ _ lo _ HF H0) in Ew. exact Ew.
Qed.

Lemma writeMXEFile_frame_witness :
  (length mxe_example
   <= length (fst (writeMXEFile mxe_example swapped_table example_templates MXE_SETTINGS)))%nat
  /\ forall (k : nat) x, Z.of_nat k < 64 -> mxe_example !! k = Some x ->
       fst (writeMXEFile mxe_example swapped_table example_templates MXE_SETTINGS) !! k
       = Some x.
Proof.
  apply (writeMXEFile_frame mxe_example swapped_table example_templates MXE_SETTINGS 64).
  - lia.
  - unfold followAddress. vm_compute. repeat constructor; discriminate.
Defined.

(** ** Reading *)

(** X9: a file that ends before the entry count or before the TOC start address
    cannot be loaded: [readMXEFile] raises [struct.error]. *)
Theorem readMXEFile_truncated `{Runtime} (file : bytes) (templates : list template)
    (st : mxe_settings) :
  0 <= MAIN_TABLE_COUNT_ADDR st -> 0 <= MAIN_TABLE_STARTADDR_ADDR st ->
  (length file < Z.to_nat (MAIN_TABLE_COUNT_ADDR st) + 4
   \/ length file < Z.to_nat (MAIN_TABLE_STARTADDR_ADDR st) + 4)%nat ->
  readMXEFile file templates st = Raise StructError.
Proof.
  intros Hc Hs Hshort. unfold readMXEFile, read_counts, File.seek, File.read, File.open.
  destruct (Z.ltb_spec (MAIN_TABLE_COUNT_ADDR st) 0) as [?|_]; [lia|].
  cbn [Py.bind File.content File.pos Z.ltb Z.eqb Z.compare].
  change (Z.to_nat 4) with 4%nat.
  set (raw := take 4 (drop (Z.to_nat (MAIN_TABLE_COUNT_ADDR st)) file)).
  destruct (le_lt_dec 4 (length raw)) as [Hraw|Hraw].
  - destruct (unpack_from_enough LE 4 raw Hraw) as [n ->]. cbn [Py.bind].
    destruct (Z.ltb_spec (MAIN_TABLE_STARTADDR_ADDR st) 0) as [?|_]; [lia|].
    cbn [Py.bind File.content File.pos].
    rewrite unpack_from_short; [reflexivity|].
    rewrite length_take, length_drop. subst raw.
    rewrite length_take, length_drop in Hraw. lia.
  - rewrite unpack_from_short by exact Hraw. reflexivity.
Qed.

Lemma readMXEFile_truncated_witness :
  @readMXEFile example_runtime (take 226 mxe_example) example_templates MXE_SETTINGS
  = Raise StructError.
Proof.
  apply (@readMXEFile_truncated example_runtime (take 226 mxe_example) example_templates
           MXE_SETTINGS).
  - simpl. lia.
  - simpl. lia.
  - right. vm_compute. lia.
Defined.

Lemma read_fields_length `{Runtime} st fields :
  forall (data data' : list field) f f',
    read_fields st fields data f = Ok (data', f') ->
    length data' = (length data + length (typed_fields fields))%nat.
Proof.
  induction fields as [|[dt nm] rest IH]; intros data data' f f' Hr; simpl in Hr.
  - injection Hr as <- _. simpl. lia.
  - destruct (read_field st dt f) as [[v f1]| |] eqn:Ef; try discriminate Hr.
    cbn [Py.bind] in Hr. apply IH in Hr. rewrite Hr.
    unfold typed_fields. simpl. unfold read_field in Ef.
    destruct (DataTypes dt) as [w|].
    + assert (exists x, v = Some x) as [x ->].
      { destruct (is_classic dt && RESOLVE_CLASSIC_POINTERS st);
          [|destruct (is_xlb dt && RESOLVE_XLB_POINTERS st)];
          (destruct (File.read w f) as [[raw f2]| |]; try discriminate Ef;
           cbn [Py.bind] in Ef).
        - destruct (if String.eqb dt "<p" then _ else _) as [a| |]; try discriminate Ef.
          cbn [Py.bind] in Ef. destruct (readStr _ _ _) as [[val f3]| |]; try discriminate Ef.
          cbn [Py.bind] in Ef. injection Ef as <- _. eauto.
        - destruct (if String.eqb dt "<pi" then _ else _) as [a| |]; try discriminate Ef.
          cbn [Py.bind] in Ef.
          destruct (readZeroDelBytes _ _ _) as [[val f3]| |]; try discriminate Ef.
          cbn [Py.bind] in Ef. injection Ef as <- _. eauto.
        - injection Ef as <- _. eauto. }
      rewrite length_app. simpl. lia.
    + injection Ef as <- _. lia.
Qed.

Lemma read_entries_counts `{Runtime} st templates (todo : main_table) :
  forall (table : main_table) f,
    read_entries st templates todo f = Ok table ->
    Forall2 (fun e e' =>
               forall t, find_template templates (template_key e) = Ok t ->
                 length (record_data e')
                 = (length (record_data e) + length (typed_fields (snd t)))%nat)
            todo table.
Proof.
  induction todo as [|e rest IH]; intros table f Hr; simpl in Hr.
  - injection Hr as <-. constructor.
  - destruct (read_entry st templates e f) as [[e' f1]| |] eqn:Ee; try discriminate Hr.
    cbn [Py.bind] in Hr.
    destruct (read_entries st templates rest f1) as [tl| |] eqn:Et; try discriminate Hr.
    cbn [Py.bind] in Hr. injection Hr as <-. constructor; [|eapply IH; eassumption].
    intros t Ht. unfold read_entry in Ee. rewrite Ht in Ee.
    destruct (File.seek _ f) as [f2| |]; try discriminate Ee. cbn [Py.bind] in Ee.
    destruct (read_fields st (snd t) (record_data e) f2) as [[data f3]| |] eqn:Ef;
      try discriminate Ee.
    cbn [Py.bind] in Ee. injection Ee as <- _. simpl.
    eapply read_fields_length; eassumption.
Qed.

(** X10: a loaded entry that has a template carries one stored value for each
    template field whose data type has a width, and none for the other
    fields: the values of an entry are numbered by the typed fields only. *)
Theorem readMXEFile_field_counts `{Runtime} (file : bytes) (templates : list template)
    (st : mxe_settings) (table : main_table) (e : toc_entry) (t : template) :
  readMXEFile file templates st = Ok table ->
  In e table ->
  find_template templates (template_key e) = Ok t ->
  length (record_data e) = length (typed_fields (snd t)).
Proof.
  unfold readMXEFile. intros Hr Hin Ht.
  destruct (read_counts st file) as [[[entry_count entry_start] f3]| |]; try discriminate Hr.
  cbn [Py.bind] in Hr.
  destruct (File.seek _ f3) as [f4| |]; try discriminate Hr. cbn [Py.bind] in Hr.
  destruct (read_toc st _ [] f4) as [[toc f5]| |] eqn:Etoc; try discriminate Hr.
  cbn [Py.bind] in Hr.
  apply read_toc_empty in Etoc; [|constructor].
  pose proof (read_entries_spec _ _ _ _ _ Hr) as Hh.
  apply read_entries_counts in Hr.
  apply list_elem_of_In, list_elem_of_lookup in Hin as [i Hi].
  destruct (Forall2_lookup_r _ _ _ _ _ Hr Hi) as (e0 & He0 & Hlen).
  destruct (Forall2_lookup_r _ _ _ _ _ Hh Hi) as (e0' & He0' & Hsame & _).
  assert (e0' = e0) as -> by congruence.
  rewrite Forall_forall in Etoc.
  rewrite (Hlen t).
  - rewrite (Etoc e0); [reflexivity|]. eapply list_elem_of_lookup_2; eassumption.
  - rewrite <- Ht. f_equal. symmetry. apply template_key_same_header. exact Hsame.
Qed.

Lemma readMXEFile_field_counts_witness :
  length (record_data
            (mkEntry 0 1 288 "Wpn:Main" 320
               [FBytes [x07; x00; x00; x00]; FPtrStr [x54; x01; x00; x00] "gun";
                FBytes [x2c; x01]]))
  = length (typed_fields (snd weapon_template)).
Proof.
  apply (@readMXEFile_field_counts example_runtime mxe_example example_templates MXE_SETTINGS
           example_table).
  - vm_compute. reflexivity.
  - left. reflexivity.
  - reflexivity.
Defined.

(** ** Import: what no record table can change *)

Lemma same_header_trans (a b c : toc_entry) :
  same_header a b -> same_header b c -> same_header a c.
Proof. unfold same_header. intros (?&?&?&?&?) (?&?&?&?&?). repeat split; congruence. Qed.

Lemma same_shape_refl (tb : main_table) : same_shape tb tb.
Proof.
  unfold same_shape. induction tb; constructor; auto. split; [apply same_header_refl | reflexivity].
Qed.

Lemma same_shape_trans (a b c : main_table) :
  same_shape a b -> same_shape b c -> same_shape a c.
Proof.
  unfold same_shape. apply Forall2_trans.
  intros x y z [H1 L1] [H2 L2]. split; [eapply same_header_trans; eassumption | congruence].
Qed.

Lemma import_cell_shape `{Runtime} (tbl tbl' : main_table) hdr entry r i dt res :
  import_cell tbl hdr entry r i dt = (tbl', res) -> same_shape tbl tbl'.
Proof.
  unfold import_cell. intros Hc.
  repeat match type of Hc with
  | (match ?x with _ => _ end) = _ => destruct x eqn:?
  | (if ?x then _ else _) = _ => destruct x eqn:?
  end; injection Hc as <- _; try apply same_shape_refl.
  match goal with
  | Hl : tbl !! ?k = Some ?e |- same_shape _ (<[?k := ?e']> _) =>
      rewrite <- (list_insert_id tbl k e Hl) at 1;
      apply Forall2_insert; [apply same_shape_refl|]
  end.
  split; [unfold same_header; simpl; auto | simpl; apply length_insert].
Qed.

Lemma import_cells_shape `{Runtime} hdr entry r fields :
  forall i (tbl tbl' : main_table) res,
    import_cells tbl hdr entry r i fields = (tbl', res) -> same_shape tbl tbl'.
Proof.
  induction fields as [|[dt nm] rest IH]; intros i tbl tbl' res Hc; simpl in Hc.
  - injection Hc as <- _. apply same_shape_refl.
  - destruct (import_cell tbl hdr entry r i dt) as [t1 r1] eqn:E1.
    apply import_cell_shape in E1.
    destruct r1 as [[]|x|].
    + eapply same_shape_trans; [exact E1 | eapply IH; eassumption].
    + destruct x; try (injection Hc as <- _; exact E1).
      eapply same_shape_trans; [exact E1 | eapply IH; eassumption].
    + injection Hc as <- _. exact E1.
Qed.

Lemma import_row_shape `{Runtime} templates s line_num r s' res :
  import_row templates s line_num r = (s', res) -> same_shape (im_table s) (im_table s').
Proof.
  unfold import_row. intros Hr.
  destruct (line_num =? 1)%nat.
  - destruct (get_nat r 0); [destruct (get_nat r 1)|..];
      try (injection Hr as <- _; apply same_shape_refl).
    destruct (_ || _); injection Hr as <- _; apply same_shape_refl.
  - destruct (if (line_num =? 2)%nat then _ else _) as [tmpl| |];
      try (injection Hr as <- _; apply same_shape_refl).
    destruct (Py.bind (get_nat r 0) _) as [idx| |];
      try (injection Hr as <- _; apply same_shape_refl).
    destruct tmpl as [t|]; [|injection Hr as <- _; apply same_shape_refl].
    destruct (import_cells _ _ _ _ _ _) as [table' res'] eqn:Ec.
    injection Hr as <- _. simpl. eapply import_cells_shape; eassumption.
Qed.

Lemma import_rows_shape `{Runtime} templates rows :
  forall s s' res,
    import_rows templates s rows = (s', res) -> same_shape (im_table s) (im_table s').
Proof.
  induction rows as [|[line_num r] rest IH]; intros s s' res Hr; simpl in Hr.
  - injection Hr as <- _. apply same_shape_refl.
  - destruct (import_row templates s line_num r) as [s1 r1] eqn:E1.
    apply import_row_shape in E1.
    destruct r1 as [[]|x|]; try (injection Hr as <- _; exact E1).
    eapply same_shape_trans; [exact E1 | eapply IH; eassumption].
Qed.

Lemma applyCSVtoMXE_shape `{Runtime} (table : main_table) templates rows :
  same_shape table (fst (applyCSVtoMXE table templates rows)).
Proof.
  unfold applyCSVtoMXE.
  destruct (import_rows templates _ rows) as [s res] eqn:Er.
  apply import_rows_shape in Er. exact Er.
Qed.

(** X11: no directory of record tables, well formed or not, adds or removes an
    entry or a stored value, or touches a TOC header: after
    [applyCSVDIRtoMXE], however it ends, the table has the same rows with the
    same headers and the same number of values in each. *)
Theorem applyCSVDIRtoMXE_keeps_shape `{Runtime} (table : main_table)
    (templates : list template) (files : list (list (nat * row))) :
  same_shape table (fst (applyCSVDIRtoMXE table templates files)).
Proof.
  revert table. induction files as [|rows rest IH]; intros table; simpl.
  - apply same_shape_refl.
  - pose proof (applyCSVtoMXE_shape table templates rows) as H1.
    destruct (applyCSVtoMXE table templates rows) as [t1 r1]. simpl in H1.
    destruct r1 as [[]|x|]; try exact H1.
    eapply same_shape_trans; [exact H1 | apply IH].
Qed.

(** ** Import: which rows a record table can change *)

Lemma import_cell_other `{Runtime} (tbl tbl' : main_table) hdr entry r i dt res (k : nat) :
  entry <> Some k ->
  import_cell tbl hdr entry r i dt = (tbl', res) ->
  length tbl' = length tbl /\ tbl' !! k = tbl !! k.
Proof.
  unfold import_cell. intros Hk Hc.
  repeat match type of Hc with
  | (match ?x with _ => _ end) = _ => destruct x eqn:?
  | (if ?x then _ else _) = _ => destruct x eqn:?
  end; injection Hc as <- _; try (split; reflexivity).
  split; [apply length_insert|]. apply list_lookup_insert_ne. congruence.
Qed.

Lemma import_cells_other `{Runtime} hdr entry r (k : nat) fields :
  entry <> Some k ->
  forall i (tbl tbl' : main_table) res,
    import_cells tbl hdr entry r i fields = (tbl', res) ->
    length tbl' = length tbl /\ tbl' !! k = tbl !! k.
Proof.
  intros Hk. induction fields as [|[dt nm] rest IH]; intros i tbl tbl' res Hc; simpl in Hc.
  - injection Hc as <- _. auto.
  - destruct (import_cell tbl hdr entry r i dt) as [t1 r1] eqn:E1.
    apply (import_cell_other _ _ _ _ _ _ _ _ k Hk) in E1 as [L1 K1].
    destruct r1 as [[]|x|].
    + apply IH in Hc as [L2 K2]. split; congruence.
    + destruct x; try (injection Hc as <- _; auto; fail).
      apply IH in Hc as [L2 K2]. split; congruence.
    + injection Hc as <- _. auto.
Qed.

Lemma import_row_other `{Runtime} templates (table : main_table) s line_num r s' res
    (k : nat) :
  (forall c0 idx, r !! 0%nat = Some c0 -> Text.int_of_str c0 = Ok idx ->
     py_index table idx <> Some k) ->
  length (im_table s) = length table -> im_entry s <> Some k ->
  import_row templates s line_num r = (s', res) ->
  length (im_table s') = length table /\ im_entry s' <> Some k
  /\ im_table s' !! k = im_table s !! k.
Proof.
  unfold import_row. intros Hrow Hl Hk Hr.
  destruct (line_num =? 1)%nat.
  - destruct (get_nat r 0); [destruct (get_nat r 1)|..]; try (injection Hr as <- _; auto; fail).
    destruct (_ || _); injection Hr as <- _; auto.
  - destruct (if (line_num =? 2)%nat then _ else _) as [tmpl| |];
      try (injection Hr as <- _; auto; fail).
    unfold get_nat in Hr.
    destruct (r !! 0%nat) as [c0|] eqn:E0; cbn [Py.bind] in Hr;
      [|injection Hr as <- _; auto].
    destruct (Text.int_of_str c0) as [idx| |] eqn:Ei; try (injection Hr as <- _; auto; fail).
    specialize (Hrow c0 idx eq_refl Ei).
    rewrite (py_index_same_length (im_table s) table idx Hl) in Hr.
    assert (He : match py_index table idx with Some k' => Some k' | None => im_entry s end
                 <> Some k).
    { destruct (py_index table idx); [exact Hrow | exact Hk]. }
    destruct tmpl as [t|]; [|injection Hr as <- _; auto].
    destruct (import_cells _ _ _ _ _ _) as [table' res'] eqn:Ec.
    apply (import_cells_other _ _ _ k _ He) in Ec as [L K].
    injection Hr as <- _. simpl. repeat split; [congruence | exact He | exact K].
Qed.

Lemma import_rows_other `{Runtime} templates (table : main_table) (k : nat) rows :
  (forall line r c0 idx, In (line, r) rows -> r !! 0%nat = Some c0 ->
     Text.int_of_str c0 = Ok idx -> py_index table idx <> Some k) ->
  forall s s' res,
    length (im_table s) = length table -> im_entry s <> Some k ->
    import_rows templates s rows = (s', res) ->
    im_table s' !! k = im_table s !! k.
Proof.
  induction rows as [|[line_num r] rest IH]; intros Hrows s s' res Hl Hk Hr; simpl in Hr.
  - now injection Hr as <- _.
  - destruct (import_row templates s line_num r) as [s1 r1] eqn:E1.
    apply (import_row_other _ table _ _ _ _ _ k) in E1 as (L1 & K1 & T1);
      [|intros c0 idx; apply (Hrows line_num r); left; reflexivity | assumption..].
    destruct r1 as [[]|x|]; try (injection Hr as <- _; exact T1).
    rewrite <- T1. apply (IH (fun line r' c0 idx Hin => Hrows line r' c0 idx (or_intror Hin))
                            s1 s' res L1 K1 Hr).
Qed.

(** X12: a record table changes only the entries its rows name: an entry whose
    index is not the (Python) index given by the RecordId of any row is
    after [applyCSVtoMXE] what it was before, whatever else the file holds
    and however the call ends. *)
Theorem applyCSVtoMXE_other_entries `{Runtime} (table : main_table)
    (templates : list template) (rows : list (nat * row)) (k : nat) :
  (forall line r c0 idx, In (line, r) rows -> r !! 0%nat = Some c0 ->
     Text.int_of_str c0 = Ok idx -> py_index table idx <> Some k) ->
  fst (applyCSVtoMXE table templates rows) !! k = table !! k.
Proof.
  intros Hrows. unfold applyCSVtoMXE.
  destruct (import_rows templates _ rows) as [s res] eqn:Er.
  apply (import_rows_other _ table k _ Hrows) in Er; [exact Er | reflexivity | discriminate].
Qed.

Lemma applyCSVtoMXE_other_entries_witness :
  fst (@applyCSVtoMXE example_runtime example_table example_templates csv_edit) !! 1%nat
  = example_table !! 1%nat.
Proof.
  apply (@applyCSVtoMXE_other_entries example_runtime example_table example_templates
           csv_edit 1).
  intros line r c0 idx [Hin|[Hin|[]]] H0 Hi; injection Hin as <- <-;
    injection H0 as <-; vm_compute in Hi; [discriminate|].
  injection Hi as <-. vm_compute. discriminate.
Defined.

(** X13: a record table whose first line does not start with the two columns
    RecordId and InternalName is left at once without an exception: nothing
    of it is applied, and the pass over the directory goes on with the next
    file. *)
Theorem bad_header_file_is_skipped `{Runtime} (table : main_table)
    (templates : list template) (r : row) (c0 c1 : string) (rest : list (nat * row))
    (files : list (list (nat * row))) :
  r !! 0%nat = Some c0 -> r !! 1%nat = Some c1 ->
  c0 <> "RecordId" \/ c1 <> "InternalName" ->
  applyCSVtoMXE table templates ((1%nat, r) :: rest) = (table, Ok tt)
  /\ applyCSVDIRtoMXE table templates (((1%nat, r) :: rest) :: files)
     = applyCSVDIRtoMXE table templates files.
Proof.
  intros H0 H1 Hbad.
  assert (E : applyCSVtoMXE table templates ((1%nat, r) :: rest) = (table, Ok tt)).
  { unfold applyCSVtoMXE. simpl. unfold import_row, get_nat. simpl. rewrite H0, H1.
    assert (negb (String.eqb c0 "RecordId") || negb (String.eqb c1 "InternalName") = true)
      as ->; [|reflexivity].
    destruct Hbad as [Hb|Hb]; apply String.eqb_neq in Hb; rewrite Hb;
      [reflexivity | apply orb_true_r]. }
  split; [exact E|]. cbn [applyCSVDIRtoMXE]. rewrite E. reflexivity.
Qed.

Lemma bad_header_file_is_skipped_witness :
  @applyCSVtoMXE example_runtime example_table example_templates
    ((1%nat, ["Id"; "InternalName"; "<i:power"]) :: [(2%nat, ["0"; "Wpn:Main"; "8"])])
  = (example_table, Ok tt)
  /\ @applyCSVDIRtoMXE example_runtime example_table example_templates
       (((1%nat, ["Id"; "InternalName"; "<i:power"]) :: [(2%nat, ["0"; "Wpn:Main"; "8"])])
        :: [csv_edit])
     = @applyCSVDIRtoMXE example_runtime example_table example_templates [csv_edit].
Proof.
  apply (@bad_header_file_is_skipped example_runtime example_table example_templates
           ["Id"; "InternalName"; "<i:power"] "Id" "InternalName").
  - reflexivity.
  - reflexivity.
  - left. discriminate.
Defined.

(** ** Export: the record tables *)

Lemma existsb_eqb_In (n : string) (seen : list string) :
  existsb (String.eqb n) seen = true <-> In n seen.
Proof.
  rewrite existsb_exists. split.
  - intros (x & Hx & He). apply String.eqb_eq in He. now subst.
  - intros Hin. exists n. split; [exact Hin | apply String.eqb_refl].
Qed.

Lemma uniq_spec (names : list string) :
  forall seen,
    (forall n, In n (uniq seen names) <-> In n names /\ ~ In n seen)
    /\ NoDup (uniq seen names).
Proof.
  induction names as [|a names IH]; intros seen; simpl.
  - split; [intros n; tauto | constructor].
  - destruct (existsb (String.eqb a) seen) eqn:Ea.
    + apply existsb_eqb_In in Ea. destruct (IH seen) as [Hin Hnd]. split; [|exact Hnd].
      intros n. rewrite Hin. split; [tauto|]. intros [[<-|Hn] Hs]; tauto.
    + assert (Hna : ~ In a seen).
      { intros Hc. apply existsb_eqb_In in Hc. congruence. }
      destruct (IH (a :: seen)) as [Hin Hnd]. split.
      * intros n. simpl. rewrite Hin. simpl.
        destruct (string_dec a n) as [<-|Hne]; [tauto|]. tauto.
      * apply NoDup_cons. split; [|exact Hnd].
        rewrite list_elem_of_In, Hin. simpl. tauto.
Qed.

Lemma export_tables_names `{Runtime} st om xlb_list templates (table : main_table) names :
  forall csvs,
    export_tables st om xlb_list templates table names = Ok csvs -> map fst csvs = names.
Proof.
  induction names as [|n names IH]; intros csvs He; simpl in He.
  - now injection He as <-.
  - destruct (export_table st om xlb_list templates table n) as [t| |]; try discriminate He.
    cbn [Py.bind] in He.
    destruct (export_tables st om xlb_list templates table names) as [ts| |];
      try discriminate He.
    cbn [Py.bind] in He. injection He as <-. simpl. f_equal. now apply IH.
Qed.

Lemma render_cells_length `{Runtime} st om xlb_list fields datas :
  forall i cells,
    render_cells st om xlb_list fields i datas = Ok cells -> length cells = length datas.
Proof.
  induction datas as [|d datas IH]; intros i cells Hr; simpl in Hr.
  - now injection Hr as <-.
  - destruct (render_cell st om xlb_list fields i d) as [v| |]; try discriminate Hr.
    cbn [Py.bind] in Hr.
    destruct (render_cells st om xlb_list fields (S i) datas) as [cs| |] eqn:Ec;
      try discriminate Hr.
    cbn [Py.bind] in Hr. injection Hr as <-. simpl. f_equal. eapply IH; eassumption.
Qed.

Lemma entry_rows_layout `{Runtime} st om xlb_list tmpl name (table : main_table) :
  forall rs,
    entry_rows st om xlb_list tmpl name table = Ok rs ->
    Forall2 row_of (entries_of name table) rs.
Proof.
  induction table as [|e table IH]; intros rs Hr; simpl in Hr.
  - injection Hr as <-. constructor.
  - unfold entries_of. simpl. destruct (String.eqb (template_key e) name).
    + destruct (entry_row st om xlb_list tmpl e) as [r| |] eqn:Ee; try discriminate Hr.
      cbn [Py.bind] in Hr.
      destruct (entry_rows st om xlb_list tmpl name table) as [rs'| |]; try discriminate Hr.
      cbn [Py.bind] in Hr. injection Hr as <-. constructor; [|now apply IH].
      unfold entry_row in Ee.
      destruct (render_cells _ _ _ _ _ _) as [cells| |] eqn:Ec; try discriminate Ee.
      cbn [Py.bind] in Ee. injection Ee as <-. apply render_cells_length in Ec.
      unfold row_of. simpl. rewrite Ec. auto.
    + now apply IH.
Qed.

(** X14: when [writeMXEtoCSV] returns, it has written one record table for each
    distinct type name of the main table and no other (every table carries
    the name of some entry); every entry has a template and a table of its
    name; and each table is the header line of
    its template followed by one row for each entry of that name, in the
    order of the main table, made of the entry's id, its full type string
    and one cell for each stored value. *)
Theorem writeMXEtoCSV_layout `{Runtime} (table : main_table) (templates : list template)
    (xlb : bytes) (st : mxe_settings) (om : output_modifiers)
    (csvs : list (string * list row)) :
  writeMXEtoCSV table templates xlb st om = Ok csvs ->
  NoDup (map fst csvs)
  /\ (forall e, In e table ->
        exists tmpl rows, find_template templates (template_key e) = Ok tmpl
                          /\ In (template_key e, rows) csvs)
  /\ (forall name rows, In (name, rows) csvs ->
        (exists e, In e table /\ template_key e = name)
        /\ exists tmpl rs, find_template templates name = Ok tmpl
                           /\ rows = header_line tmpl :: rs
                           /\ Forall2 row_of (entries_of name table) rs).
Proof.
  unfold writeMXEtoCSV. intros Hw.
  destruct (if RESOLVE_XLB_STRINGS st then readXLB xlb else Ok []) as [xlb_list| |];
    try discriminate Hw.
  cbn [Py.bind] in Hw.
  pose proof (export_tables_names _ _ _ _ _ _ _ Hw) as Hnames.
  destruct (uniq_spec (map template_key table) []) as [Hin Hnd].
  assert (Hrows : forall name rows, In (name, rows) csvs ->
            (exists e, In e table /\ template_key e = name)
            /\ exists tmpl rs, find_template templates name = Ok tmpl
                               /\ rows = header_line tmpl :: rs
                               /\ Forall2 row_of (entries_of name table) rs).
  { intros name rows Hel. split.
    { assert (Hn : In name (map fst csvs)) by (apply (in_map fst _ _ Hel)).
      rewrite Hnames in Hn. apply Hin in Hn as [Hn _].
      apply in_map_iff in Hn as (e & He & Hine). eauto. }
    pose proof (export_tables_elem _ _ _ _ _ _ _ _ _ Hw Hel) as He.
    unfold export_table in He.
    destruct (find_template templates name) as [tmpl| |]; try discriminate He.
    cbn [Py.bind] in He.
    destruct (entry_rows st om xlb_list tmpl name table) as [rs| |] eqn:Er;
      try discriminate He.
    cbn [Py.bind] in He. injection He as <-.
    exists tmpl, rs. split; [reflexivity|]. split; [reflexivity|].
    eapply entry_rows_layout; eassumption. }
  split; [rewrite Hnames; exact Hnd|]. split; [|exact Hrows].
  intros e He.
  assert (Hk : In (template_key e) (map fst csvs)).
  { rewrite Hnames. apply Hin. split; [|intros []]. apply in_map. exact He. }
  apply in_map_iff in Hk as ([name rows] & Hname & Hel). simpl in Hname. subst name.
  destruct (Hrows _ _ Hel) as (_ & tmpl & rs & Ht & _).
  exists tmpl, rows. auto.
Qed.

Lemma writeMXEtoCSV_layout_witness :
  NoDup (map fst [("Wpn", example_rows)])
  /\ (forall e, In e (take 2 example_table) ->
        exists tmpl rows, find_template example_templates (template_key e) = Ok tmpl
                          /\ In (template_key e, rows) [("Wpn", example_rows)])
  /\ (forall name rows, In (name, rows) [("Wpn", example_rows)] ->
        (exists e, In e (take 2 example_table) /\ template_key e = name)
        /\ exists tmpl rs, find_template example_templates name = Ok tmpl
                           /\ rows = header_line tmpl :: rs
                           /\ Forall2 row_of (entries_of name (take 2 example_table)) rs).
Proof.
  apply (@writeMXEtoCSV_layout example_runtime (take 2 example_table) example_templates
           xlb_good MXE_SETTINGS OUTPUT_MODIFIERS).
  vm_compute. reflexivity.
Defined.

(** ** Templates and header lines *)

Lemma before_colon_free (s : string) : colon_free s = true -> Text.before_colon s = s.
Proof.
  induction s as [|c s IH]; simpl; [reflexivity|].
  intros Hc. apply andb_true_iff in Hc as [Hc Hs].
  destruct (Ascii.eqb c ":"); [discriminate|]. now rewrite IH.
Qed.

Lemma after_colon_free (s : string) : colon_free s = true -> after_colon s = "".
Proof.
  induction s as [|c s IH]; simpl; [reflexivity|].
  intros Hc. apply andb_true_iff in Hc as [Hc Hs].
  destruct (Ascii.eqb c ":"); [discriminate|]. now apply IH.
Qed.

Lemma before_colon_app (a b : string) :
  colon_free a = true -> Text.before_colon (a ++ String ":" b) = a.
Proof.
  induction a as [|c a IH]; simpl; [reflexivity|].
  intros Hc. apply andb_true_iff in Hc as [Hc Hs].
  destruct (Ascii.eqb c ":"); [discriminate|]. now rewrite IH.
Qed.

Lemma after_colon_app (a b : string) :
  colon_free a = true -> after_colon (a ++ String ":" b) = b.
Proof.
  induction a as [|c a IH]; simpl; [reflexivity|].
  intros Hc. apply andb_true_iff in Hc as [Hc Hs].
  destruct (Ascii.eqb c ":"); [discriminate|]. now apply IH.
Qed.

Lemma split_column_title (fld : string * string) :
  colon_free (fst fld) = true -> split_column (column_title fld) = fld.
Proof.
  destruct fld as [dt nm]. simpl. intros Hc. unfold column_title, split_column. simpl.
  destruct (String.eqb_spec nm "") as [->|_].
  - now rewrite before_colon_free, after_colon_free.
  - now rewrite before_colon_app, after_colon_app.
Qed.

Lemma split_column_titles (fields : list (string * string)) :
  Forall (fun fld => colon_free (fst fld) = true) fields ->
  map split_column (map column_title fields) = fields.
Proof.
  induction 1 as [|fld fields Hf _ IH]; simpl; [reflexivity|].
  now rewrite split_column_title, IH.
Qed.

(** X15: the column titles the export writes for a template are read back as the
    template's own field list, by the import from the header line of a record
    table and by [readTemplates] from a line of the template file, as long as
    no data type name holds a colon. *)
Theorem column_titles_read_back `{Runtime} (tmpl : template) (templates : list template)
    (s : import_state) :
  Forall (fun fld => colon_free (fst fld) = true) (snd tmpl) ->
  import_row templates s 1 (header_line tmpl)
  = (mkImport (im_table s) (snd tmpl) (im_template s) (im_entry s), Ok true)
  /\ readTemplates [fst tmpl :: map column_title (snd tmpl)] = Ok [tmpl].
Proof.
  intros Hc. split.
  - unfold import_row, header_line. simpl. rewrite drop_0, split_column_titles by exact Hc.
    reflexivity.
  - simpl. rewrite drop_0, split_column_titles by exact Hc. now destruct tmpl.
Qed.

Lemma column_titles_read_back_witness :
  @import_row example_runtime example_templates (mkImport example_table [] None None) 1
    (header_line weapon_template)
  = (mkImport example_table (snd weapon_template) None None, Ok true)
  /\ readTemplates [fst weapon_template :: map column_title (snd weapon_template)]
     = Ok [weapon_template].
Proof.
  apply (@column_titles_read_back example_runtime weapon_template example_templates
           (mkImport example_table [] None None)).
  repeat constructor.
Defined.

(** X16: [readTemplates] returns exactly when the template file has no empty
    line: then there is one template for each line, in order, named by the
    first cell, with one field for each further cell; an empty line is an
    [IndexError]. *)
Theorem readTemplates_spec (rows : list row) :
  (Forall (fun r : row => r <> []) rows ->
   readTemplates rows
   = Ok (map (fun r : row => (hd "" r, map split_column (drop 1 r))) rows))
  /\ (Exists (fun r : row => r = []) rows -> readTemplates rows = Raise IndexError).
Proof.
  induction rows as [|r rows [IHok IHerr]]; split.
  - reflexivity.
  - intros He. inversion He.
  - intros HF. apply Forall_cons in HF as [Hr HF]. simpl.
    destruct r as [|name cols]; [congruence|]. unfold get_nat. simpl.
    rewrite (IHok HF). reflexivity.
  - intros He. simpl. destruct r as [|name cols]; [reflexivity|].
    unfold get_nat. simpl. apply Exists_cons in He as [Hr|He]; [discriminate|].
    rewrite (IHerr He). reflexivity.
Qed.

(** ** The command line script *)

Import Main.

Lemma guarded_calls (P : call -> Prop) tr c r k :
  Forall P tr -> P c -> (forall tr', Forall P tr' -> Forall P (fst (k tr'))) ->
  Forall P (fst (guarded tr c r k)).
Proof.
  intros Htr Hc Hk. unfold guarded.
  assert (Forall P (tr ++ [c])) by (apply Forall_app; split; [exact Htr | repeat constructor; exact Hc]).
  destruct r; simpl; auto.
Qed.

Lemma write_stage_calls w a templates table tr :
  Forall (script_paths w a) tr ->
  Forall (script_paths w a) (fst (write_stage w a (bind_names w a) templates table tr)).
Proof.
  intros Htr. unfold write_stage. destruct (args_mode a); try exact Htr.
  apply guarded_calls; [exact Htr | | auto].
  unfold bind_names; cbn [debug_log debug script_paths]. unfold derived. auto.
Qed.

Lemma single_stage_calls w a templates table tr :
  Forall (script_paths w a) tr ->
  Forall (script_paths w a) (fst (single_stage w a (bind_names w a) templates table tr)).
Proof.
  intros Htr. unfold single_stage. cbn [bind_names csv_path].
  destruct (String.eqb_spec (match args_single_csv a with Some p => p | None => "" end) "")
    as [E|E]; cbn [negb]; [now apply write_stage_calls|].
  destruct (run_applyCSVtoMXE w table templates _) as [table' r].
  apply guarded_calls; [exact Htr | | intros; now apply write_stage_calls].
  cbn [script_paths]. destruct (args_single_csv a); [auto | now elim E].
Qed.

Lemma apply_stage_calls w a templates table tr :
  Forall (script_paths w a) tr ->
  Forall (script_paths w a) (fst (apply_stage w a (bind_names w a) templates table tr)).
Proof.
  intros Htr. unfold apply_stage. cbn [bind_names csv_directory].
  destruct (String.eqb_spec
              (match args_csv_dir a with
               | None => fst (splitext w (args_mxe_path a))
               | Some _ => ""
               end) "") as [E|E]; cbn [negb]; [now apply single_stage_calls|].
  destruct (run_applyCSVDIRtoMXE w table templates _) as [table' r].
  apply guarded_calls; [exact Htr | | intros; now apply single_stage_calls].
  cbn [script_paths]. destruct (args_csv_dir a); [now elim E | auto].
Qed.

Lemma export_stage_calls w a templates table tr :
  Forall (script_paths w a) tr ->
  Forall (script_paths w a) (fst (export_stage w (bind_names w a) templates table tr)).
Proof.
  intros Htr. unfold export_stage.
  apply guarded_calls; [exact Htr | | auto].
  cbn [bind_names csv_directory xlb_path script_paths]. unfold derived. auto.
Qed.

(** X17: the values given for -t, -d, -x and -l never reach a call.  Each of
    these names starts as the empty text and is assigned only when its
    option is left out, so a call gets the path made up from the MXE path
    without the option and the empty path with it; the directory import is
    made only without -d, and of all option values only the single csv file
    of -s is handed on. *)
Theorem option_values_are_never_used (w : world) (a : args) :
  Forall (script_paths w a) (fst (main w a)).
Proof.
  unfold main.
  destruct (_ || _); [constructor|].
  destruct (match args_config_file a with None => _ | Some c => _ end); try constructor.
  set (tp := template_path (bind_names w a)).
  assert (H1 : Forall (script_paths w a) [CallReadTemplates tp]).
  { constructor; [|constructor]. subst tp. cbn [bind_names template_path script_paths].
    unfold derived. reflexivity. }
  destruct (run_readTemplates w tp) as [templates|e|]; [|destruct e; exact H1|exact H1].
  assert (H2 : Forall (script_paths w a)
                 ([CallReadTemplates tp] ++ [CallReadMXEFile (args_mxe_path a) templates])).
  { apply Forall_app. split; [exact H1 | constructor; [reflexivity | constructor]]. }
  destruct (run_readMXEFile w (args_mxe_path a) templates) as [table| |]; try exact H2.
  unfold after_read. destruct (args_mode a).
  - now apply export_stage_calls.
  - now apply apply_stage_calls.
  - now apply apply_stage_calls.
  - exact H2.
Qed.

(** X18: with -t on the command line the template file named there is
    never read: the only call the run can make is [readTemplates] with the
    empty path, and as opening the empty path raises [FileNotFoundError],
    the run ends there and never finishes; with an accepted MXE path and no
    configuration file it is exactly this call followed by [exit()]. *)
Theorem template_option_stops_the_run (w : world) (a : args) (p : string) :
  args_template_csv_path a = Some p ->
  run_readTemplates w "" = Raises FileNotFoundError ->
  snd (main w a) <> Finished
  /\ (fst (main w a) = [] \/ fst (main w a) = [CallReadTemplates ""])
  /\ (isdir w (args_mxe_path a) = false ->
      snd (splitext w (args_mxe_path a)) = ".mxe" ->
      args_config_file a = None ->
      main w a = ([CallReadTemplates ""], Exited)).
Proof.
  intros Ht Hopen. unfold main. cbn [bind_names template_path]. rewrite Ht, Hopen.
  split; [|split].
  - destruct (_ || _); [discriminate|].
    destruct (match args_config_file a with None => _ | Some c => _ end); discriminate.
  - destruct (_ || _); [now left|].
    destruct (match args_config_file a with None => _ | Some c => _ end); auto.
  - intros -> -> ->. reflexivity.
Qed.

Lemma template_option_stops_the_run_witness :
  snd (main example_world (example_args ModeR (Some "t.csv") None)) <> Finished
  /\ (fst (main example_world (example_args ModeR (Some "t.csv") None)) = []
      \/ fst (main example_world (example_args ModeR (Some "t.csv") None))
         = [CallReadTemplates ""])
  /\ (isdir example_world (args_mxe_path (example_args ModeR (Some "t.csv") None)) = false ->
      snd (splitext example_world (args_mxe_path (example_args ModeR (Some "t.csv") None)))
      = ".mxe" ->
      args_config_file (example_args ModeR (Some "t.csv") None) = None ->
      main example_world (example_args ModeR (Some "t.csv") None)
      = ([CallReadTemplates ""], Exited)).
Proof.
  apply (template_option_stops_the_run example_world
           (example_args ModeR (Some "t.csv") None) "t.csv").
  - reflexivity.
  - reflexivity.
Defined.

Lemma write_stage_predicts w a n templates table tr :
  args_mode a = ModeT ->
  predicts (write_stage w a n templates table tr)
           (write_stage w (with_mode ModeW a) n templates table tr).
Proof.
  intros Hm. unfold write_stage. rewrite Hm. cbn [with_mode args_mode].
  split; [intros Hne; now elim Hne|]. intros _. cbn [fst].
  cbn [args_mxe_path args_backup_mxe]. unfold guarded.
  eexists. split; [destruct (run_writeMXEFile _ _ _ _ _ _ _); reflexivity | reflexivity].
Qed.

Lemma guarded_predicts tr c r kT kW :
  (forall tr', predicts (kT tr') (kW tr')) ->
  predicts (guarded tr c r kT) (guarded tr c r kW).
Proof.
  intros Hk. unfold guarded. destruct r; [apply Hk | |]; (split; [reflexivity | discriminate]).
Qed.

Lemma predicts_same x : snd x <> Finished -> predicts x x.
Proof. intros Hx. split; [reflexivity | intros; contradiction]. Qed.

(** X20: a test run (mode T) tells what the write run (mode W) of the same
    command line does: if the test run does not finish, the write run makes
    the same calls and ends the same way; if it finishes, the write run makes
    the same calls and then the one call of [writeMXEFile]. *)
Theorem test_run_predicts_write_run (w : world) (a : args) :
  args_mode a = ModeT ->
  predicts (main w a) (main w (with_mode ModeW a)).
Proof.
  intros Hm. unfold main. cbn [with_mode args_mxe_path args_config_file].
  destruct (_ || _); [apply predicts_same; discriminate|].
  destruct (match args_config_file a with None => _ | Some c => _ end);
    try (apply predicts_same; discriminate).
  change (bind_names w (with_mode ModeW a)) with (bind_names w a).
  destruct (run_readTemplates w _) as [templates|e|];
    [|destruct e; apply predicts_same; discriminate|apply predicts_same; discriminate].
  destruct (run_readMXEFile w (args_mxe_path a) templates) as [table| |];
    try (apply predicts_same; discriminate).
  unfold after_read. rewrite Hm. cbn [with_mode args_mode].
  unfold apply_stage.
  assert (Hsingle : forall table' tr',
            predicts (single_stage w a (bind_names w a) templates table' tr')
                     (single_stage w (with_mode ModeW a) (bind_names w a) templates
                        table' tr')).
  { intros table' tr'. unfold single_stage.
    destruct (negb (String.eqb _ "")); [|now apply write_stage_predicts].
    destruct (run_applyCSVtoMXE w table' templates _) as [table'' r].
    apply guarded_predicts. intros tr''. now apply write_stage_predicts. }
  destruct (negb (String.eqb _ "")); [|apply Hsingle].
  destruct (run_applyCSVDIRtoMXE w table templates _) as [table' r].
  apply guarded_predicts. intros tr'. apply Hsingle.
Qed.

Lemma test_run_predicts_write_run_witness :
  predicts
    (main example_world (example_args ModeT None (Some "edit.csv")))
    (main example_world (with_mode ModeW (example_args ModeT None (Some "edit.csv")))).
Proof.
  apply (test_run_predicts_write_run example_world
           (example_args ModeT None (Some "edit.csv"))).
  reflexivity.
Defined.

(** ** Hex cells *)

(** X21: the two hex encoders are one function: both strip "0x" and "-", decode
    the digits, refuse anything but four bytes, and return those four bytes
    in the order of the text, whatever the byte order in their name. *)
Theorem hex_encoders_ignore_byte_order (obj : string) :
  leHexAsBytes obj = beHexAsBytes obj
  /\ forall b, beHexAsBytes obj = Ok b ->
       length b = 4%nat
       /\ unhexlify (Text.replace "0x" "" (Text.replace "-" "" obj)) = Ok b.
Proof.
  assert (Hboth : forall e,
            hexAsBytes e obj
            = (raw <- unhexlify (Text.replace "0x" "" (Text.replace "-" "" obj)) ;;
               if (length raw =? 4)%nat then Ok raw else Raise StructError)).
  { intros e. unfold hexAsBytes.
    destruct (unhexlify _) as [raw| |]; try reflexivity. cbn [Py.bind].
    destruct (Nat.eqb_spec (length raw) 4) as [Hl|Hl].
    - apply pack_unpack; [exact Hl | lia].
    - unfold unpack. now rewrite (proj2 (Nat.eqb_neq _ _) Hl). }
  unfold leHexAsBytes, beHexAsBytes. rewrite !Hboth. split; [reflexivity|].
  intros b Hb. destruct (unhexlify _) as [raw| |]; try discriminate Hb.
  cbn [Py.bind] in Hb.
  destruct (Nat.eqb_spec (length raw) 4) as [Hl|Hl]; [|discriminate Hb].
  injection Hb as <-. auto.
Qed.

Lemma hex_encoders_ignore_byte_order_witness :
  leHexAsBytes "0x01-02-03-04" = beHexAsBytes "0x01-02-03-04"
  /\ forall b, beHexAsBytes "0x01-02-03-04" = Ok b ->
       length b = 4%nat
       /\ unhexlify (Text.replace "0x" "" (Text.replace "-" "" "0x01-02-03-04")) = Ok b.
Proof. apply (hex_encoders_ignore_byte_order "0x01-02-03-04"). Defined.

(** ** Line numbers of the csv reader *)

Lemma int_of_str_outcome `{Runtime} (s : string) :
  (exists n, Text.int_of_str s = Ok n) \/ Text.int_of_str s = Raise ValueError.
Proof.
  unfold Text.int_of_str, Text.int_of_text.
  destruct (Text.is_ascii s); [|destruct (int_unicode s); eauto].
  destruct (match Text.rstrip _ _ with String a r => _ | _ => _ end) as [neg body].
  destruct (Text.int_digits false body); [|auto].
  destruct (NilZero.uint_of_string _); eauto.
Qed.

(** X22: a line break inside a cell of the first data row puts the csv reader
    past line 2 when that row is handed out: the template is never looked
    up, the import raises, and the table is left as it was. *)
Theorem line_break_in_first_row_stops_import `{Runtime} (table : main_table)
    (templates : list template) (header r1 : row) (rest : list row) :
  row_lines header = 1%nat ->
  header !! 0%nat = Some "RecordId" -> header !! 1%nat = Some "InternalName" ->
  (1 < row_lines r1)%nat ->
  exists e,
    applyCSVtoMXE table templates (csv_reader 0 (header :: r1 :: rest)) = (table, Raise e)
    /\ (e = IndexError \/ e = ValueError).
Proof.
  intros Hh H0 H1 Hr. unfold applyCSVtoMXE. cbn [csv_reader]. rewrite Hh.
  change (0 + 1)%nat with 1%nat. cbn [import_rows]. unfold import_row at 1.
  cbn [Nat.eqb]. unfold get_nat.
  rewrite H0, H1. cbn [String.eqb Ascii.eqb Bool.eqb negb orb andb im_table im_template im_entry].
  cbn [import_rows]. unfold import_row.
  destruct (Nat.eqb_spec (1 + row_lines r1) 1) as [?|_]; [lia|].
  destruct (Nat.eqb_spec (1 + row_lines r1) 2) as [?|_]; [lia|].
  cbn [im_template im_table im_header_row im_entry]. unfold get_nat.
  destruct (r1 !! 0%nat) as [c0|]; cbn [Py.bind]; [|eauto].
  destruct (int_of_str_outcome c0) as [[idx Ei]|Ei]; rewrite Ei; cbn [im_table]; eauto.
Qed.

Lemma line_break_in_first_row_stops_import_witness :
  exists e,
    @applyCSVtoMXE example_runtime example_table example_templates
      (csv_reader 0 (["RecordId"; "InternalName"; "<i:power"; "<p:label"; "<i2:ammo"]
                     :: ["0"; "Wpn:Main"; "8"; String "a" (String Text.LF "b"); "299"]
                     :: []))
    = (example_table, Raise e)
    /\ (e = IndexError \/ e = ValueError).
Proof.
  apply (@line_break_in_first_row_stops_import example_runtime example_table
           example_templates).
  - reflexivity.
  - reflexivity.
  - reflexivity.
  - vm_compute. lia.
Defined.

Lemma readTemplates_spec_witness :
  (Forall (fun r : row => r <> []) [["Wpn"; "<i:power"; "<p"]] ->
   readTemplates [["Wpn"; "<i:power"; "<p"]]
   = Ok (map (fun r : row => (hd "" r, map split_column (drop 1 r)))
           [["Wpn"; "<i:power"; "<p"]]))
  /\ (Exists (fun r : row => r = []) [["Wpn"; "<i:power"; "<p"]] ->
      readTemplates [["Wpn"; "<i:power"; "<p"]] = Raise IndexError).
Proof. apply (readTemplates_spec [["Wpn"; "<i:power"; "<p"]]). Defined.

(** ** Export: cells of resolved pointers *)

Lemma bytesToText_classic_pair `{Runtime} (dt : string) (v : field) :
  is_classic dt = true -> (forall b, v <> FBytes b) -> bytesToText v dt = Raise TypeError.
Proof.
  intros Hc Hv. unfold is_classic in Hc.
  assert (Hb : as_buffer v = Raise TypeError).
  { destruct v; try reflexivity. now destruct (Hv b). }
  apply orb_true_iff in Hc as [Hc|Hc]; apply String.eqb_eq in Hc; subst dt;
    unfold bytesToText; cbn [String.eqb Ascii.eqb Bool.eqb andb];
    unfold bytesAsLEAddress, bytesAsBEAddress, bytesAsLEInt, bytesAsBEInt;
    rewrite Hb; reflexivity.
Qed.

Lemma bytesToText_xlb_pair `{Runtime} (dt : string) (v : field) :
  is_xlb dt = true -> (forall b, v <> FBytes b) -> bytesToText v dt = Raise TypeError.
Proof.
  intros Hc Hv. unfold is_xlb in Hc.
  assert (Hb : as_buffer v = Raise TypeError).
  { destruct v; try reflexivity. now destruct (Hv b). }
  apply orb_true_iff in Hc as [Hc|Hc]; apply String.eqb_eq in Hc; subst dt;
    unfold bytesToText; cbn [String.eqb Ascii.eqb Bool.eqb andb];
    unfold bytesAsLEAddress, bytesAsBEAddress, bytesAsLEInt, bytesAsBEInt;
    rewrite Hb; reflexivity.
Qed.

(** X23: what the export writes for a pointer that was resolved at load
    time, with the force-hex switch off.  A classic pointer gives its
    resolved text, and an XLB pointer under FORCE_RAW_XLB_POINTERS the number
    held by its raw address; but FORCE_RAW_CLASSIC_POINTERS, and FORCE_XLB_IDS
    for an XLB pointer, hand the stored pair to the converter, which raises
    [TypeError]. *)
Theorem resolved_pointer_cells `{Runtime} (st : mxe_settings) (om : output_modifiers)
    (xlb_list : xlb_data) (fields : list (string * string)) (i : nat) (dt nm : string)
    (raw : bytes) :
  fields !! i = Some (dt, nm) -> FORCE_HEX_OUTPUT om = false ->
  (is_classic dt = true -> RESOLVE_CLASSIC_POINTERS st = true ->
   forall val,
     render_cell st om xlb_list fields i (FPtrStr raw val)
     = if FORCE_RAW_CLASSIC_POINTERS om then Raise TypeError else Ok (VStr val))
  /\ (is_xlb dt = true -> RESOLVE_XLB_POINTERS st = true ->
      forall val,
        (FORCE_RAW_XLB_POINTERS om = true ->
         render_cell st om xlb_list fields i (FPtrBytes raw val)
         = bytesToText (FBytes raw) dt)
        /\ (FORCE_RAW_XLB_POINTERS om = false -> RESOLVE_XLB_STRINGS st = true ->
            FORCE_XLB_IDS om = true ->
            render_cell st om xlb_list fields i (FPtrBytes raw val) = Raise TypeError)).
Proof.
  intros Hf Hhex. unfold render_cell, get_nat. rewrite Hhex, Hf. cbn [Py.bind fst].
  split.
  - intros Hc Hr val. rewrite Hc, Hr. cbn [negb].
    destruct (FORCE_RAW_CLASSIC_POINTERS om); [|reflexivity].
    apply bytesToText_classic_pair; [exact Hc | discriminate].
  - intros Hx Hr val.
    assert (Hc : is_classic dt = false).
    { unfold is_xlb in Hx. unfold is_classic.
      apply orb_true_iff in Hx as [Hx|Hx]; apply String.eqb_eq in Hx; subst dt; reflexivity. }
    rewrite Hc, Hx, Hr. cbn [negb]. split.
    + intros ->. reflexivity.
    + intros -> -> ->. apply bytesToText_xlb_pair; [exact Hx | discriminate].
Qed.

Lemma resolved_pointer_cells_witness :
  (is_classic "<p" = true -> RESOLVE_CLASSIC_POINTERS MXE_SETTINGS = true ->
   forall val,
     @render_cell example_runtime MXE_SETTINGS OUTPUT_MODIFIERS [] (snd weapon_template) 1
       (FPtrStr [x54; x01; x00; x00] val)
     = if FORCE_RAW_CLASSIC_POINTERS OUTPUT_MODIFIERS then Raise TypeError
       else Ok (VStr val))
  /\ (is_xlb "<p" = true -> RESOLVE_XLB_POINTERS MXE_SETTINGS = true ->
      forall val,
        (FORCE_RAW_XLB_POINTERS OUTPUT_MODIFIERS = true ->
         @render_cell example_runtime MXE_SETTINGS OUTPUT_MODIFIERS [] (snd weapon_template) 1
           (FPtrBytes [x54; x01; x00; x00] val)
         = @bytesToText example_runtime (FBytes [x54; x01; x00; x00]) "<p")
        /\ (FORCE_RAW_XLB_POINTERS OUTPUT_MODIFIERS = false ->
            RESOLVE_XLB_STRINGS MXE_SETTINGS = true ->
            FORCE_XLB_IDS OUTPUT_MODIFIERS = true ->
            @render_cell example_runtime MXE_SETTINGS OUTPUT_MODIFIERS []
              (snd weapon_template) 1 (FPtrBytes [x54; x01; x00; x00] val)
            = Raise TypeError)).
Proof.
  apply (@resolved_pointer_cells example_runtime MXE_SETTINGS OUTPUT_MODIFIERS []
           (snd weapon_template) 1 "<p" "label" [x54; x01; x00; x00]).
  - reflexivity.
  - reflexivity.
Defined.

(** * The claims that span several functions *)

(** ** XLB placement, for a whole file *)






(** ** Writing a record *)

Lemma write_pos (b : bytes) (f : File.t) :
  File.pos (File.write b f) = File.pos f + Z.of_nat (length b).
Proof. destruct b; simpl; lia. Qed.

Lemma write_app (b1 b2 : bytes) (f : File.t) :
  0 <= File.pos f -> File.write b2 (File.write b1 f) = File.write (b1 ++ b2) f.
Proof.
  intros Hp. destruct b1 as [|a1 b1]; [reflexivity|].
  destruct b2 as [|a2 b2]; [now rewrite app_nil_r|].
  destruct f as [c p]. simpl in Hp.
  set (x1 := a1 :: b1). set (x2 := a2 :: b2).
  assert (E1 : File.write x1 (File.mk c p)
               = File.mk (take (Z.to_nat p) (c ++ replicate (Z.to_nat p - length c) x00)
                          ++ x1 ++ drop (Z.to_nat p + length x1) c)
                         (p + Z.of_nat (length x1))) by reflexivity.
  rewrite E1.
  set (A := take (Z.to_nat p) (c ++ replicate (Z.to_nat p - length c) x00)).
  assert (HA : length A = Z.to_nat p).
  { subst A. rewrite length_take, length_app, length_replicate. lia. }
  assert (E2 : File.write x2 (File.mk (A ++ x1 ++ drop (Z.to_nat p + length x1) c)
                                      (p + Z.of_nat (length x1)))
               = File.mk (take (Z.to_nat (p + Z.of_nat (length x1)))
                            ((A ++ x1 ++ drop (Z.to_nat p + length x1) c)
                             ++ replicate (Z.to_nat (p + Z.of_nat (length x1))
                                           - length (A ++ x1 ++ drop (Z.to_nat p + length x1) c))
                                          x00)
                          ++ x2
                          ++ drop (Z.to_nat (p + Z.of_nat (length x1)) + length x2)
                               (A ++ x1 ++ drop (Z.to_nat p + length x1) c))
                         (p + Z.of_nat (length x1) + Z.of_nat (length x2))) by reflexivity.
  rewrite E2.
  assert (E3 : File.write (x1 ++ x2) (File.mk c p)
               = File.mk (A ++ (x1 ++ x2) ++ drop (Z.to_nat p + length (x1 ++ x2)) c)
                         (p + Z.of_nat (length (x1 ++ x2)))) by reflexivity.
  change ((a1 :: b1) ++ a2 :: b2)%list with (x1 ++ x2)%list. rewrite E3.
  replace (Z.to_nat (p + Z.of_nat (length x1))) with (length (A ++ x1)%list)
    by (rewrite length_app; lia).
  f_equal; [|rewrite length_app; lia].
  rewrite (app_assoc A x1), <- (app_assoc (A ++ x1)).
  rewrite take_app_length. rewrite drop_app_add', drop_drop by reflexivity.
  rewrite <- !app_assoc. do 3 f_equal. rewrite length_app. f_equal. lia.
Qed.

Lemma write_region (b : bytes) (f : File.t) :
  0 <= File.pos f ->
  take (length b) (drop (Z.to_nat (File.pos f)) (File.content (File.write b f))) = b.
Proof.
  intros Hp. destruct b as [|a b]; [reflexivity|].
  destruct f as [c p]. simpl in Hp. unfold File.write. cbn [File.content File.pos].
  set (A := take (Z.to_nat p) (c ++ replicate (Z.to_nat p - length c) x00)).
  assert (HA : length A = Z.to_nat p).
  { subst A. rewrite length_take, length_app, length_replicate. lia. }
  rewrite <- HA, drop_app_length. apply take_app_length.
Qed.

Lemma write_length (b : bytes) (f : File.t) :
  0 <= File.pos f ->
  File.pos f + Z.of_nat (length b) <= Z.of_nat (length (File.content f)) ->
  length (File.content (File.write b f)) = length (File.content f).
Proof.
  intros Hp Hin. destruct b as [|a b]; [reflexivity|].
  unfold File.write. cbn [File.content File.pos].
  rewrite !length_app, length_take, length_app, length_replicate, length_drop. simpl in *. lia.
Qed.

(** A field that write-back can send: its data type has a width and its
    value gives bytes. *)
Lemma write_fields_chunks st (fields : list (string * string)) (data : list field) :
  Forall2 (fun fld x => DataTypes (fst fld) <> None
                        /\ exists c, field_bytes st (fst fld) x = Ok c) fields data ->
  forall (pre : list field) f,
    0 <= File.pos f ->
    write_fields st fields (length pre) (pre ++ data) f
    = (File.write (concat (field_chunks st fields data)) f, Ok tt).
Proof.
  induction 1 as [|[dt nm] x fields data [Hw [c Hc]] _ IH]; intros pre f Hp.
  - reflexivity.
  - cbn [write_fields field_chunks concat fst]. simpl in Hw.
    destruct (DataTypes dt) as [w|]; [|congruence].
    assert (Hg : get_nat (pre ++ x :: data) (length pre) = Ok x).
    { unfold get_nat. rewrite lookup_app_r by lia.
      replace (length pre - length pre)%nat with O by lia. reflexivity. }
    rewrite Hg. simpl in Hc. rewrite Hc.
    replace (S (length pre)) with (length (pre ++ [x])) by (rewrite length_app; simpl; lia).
    replace (pre ++ x :: data)%list with ((pre ++ [x]) ++ data)%list
      by (rewrite <- app_assoc; reflexivity).
    rewrite IH by (rewrite write_pos; lia).
    rewrite write_app by exact Hp. unfold chunk. simpl. rewrite Hc. reflexivity.
Qed.

Lemma write_entry_chunks st templates (e : toc_entry) te (g : File.t) :
  find_template templates (template_key e) = Ok te ->
  0 <= followAddress (record_address e) ->
  Forall2 (fun fld x => DataTypes (fst fld) <> None
                        /\ exists c, field_bytes st (fst fld) x = Ok c)
          (snd te) (record_data e) ->
  write_entry st templates e g
  = (File.write (concat (field_chunks st (snd te) (record_data e)))
       (File.mk (File.content g) (followAddress (record_address e))), Ok tt).
Proof.
  intros Ht Hp HF. unfold write_entry, File.seek. rewrite Ht.
  destruct (Z.ltb_spec (followAddress (record_address e)) 0); [lia|].
  pose proof (write_fields_chunks st _ _ HF []
                (File.mk (File.content g) (followAddress (record_address e))) Hp) as Hw.
  cbn [length app] in Hw. cbn [Py.bind]. rewrite Hw. reflexivity.
Qed.

Lemma write_entry_no_template st templates (e : toc_entry) (g : File.t) :
  find_template templates (template_key e) = Raise IndexError ->
  write_entry st templates e g = (g, Ok tt).
Proof. intros Ht. unfold write_entry. now rewrite Ht. Qed.

Lemma write_entries_app st templates (l1 l2 : main_table) (f : File.t) :
  write_entries st templates (l1 ++ l2) f
  = match write_entries st templates l1 f with
    | (f1, Ok _) => write_entries st templates l2 f1
    | r => r
    end.
Proof.
  revert f. induction l1 as [|e l1 IH]; intros f; [reflexivity|].
  cbn [app write_entries].
  destruct (write_entry st templates e f) as [f1 [[]|x|]]; [apply IH | reflexivity..].
Qed.

(** An entry that write-back passes without an exception: it has no
    template, or its record starts inside the address space and every
    field can be sent. *)
Lemma write_entries_ok st templates (table : main_table) :
  Forall (fun e => forall te, find_template templates (template_key e) = Ok te ->
            0 <= followAddress (record_address e)
            /\ Forall2 (fun fld x => DataTypes (fst fld) <> None
                                     /\ exists c, field_bytes st (fst fld) x = Ok c)
                       (snd te) (record_data e)) table ->
  forall f, exists f', write_entries st templates table f = (f', Ok tt).
Proof.
  induction 1 as [|e table He _ IH]; intros f; [eexists; reflexivity|].
  cbn [write_entries].
  destruct (find_template_cases templates (template_key e)) as [E|(te & E & _)].
  - rewrite (write_entry_no_template _ _ _ _ E). apply IH.
  - destruct (He te E) as [Hp HF]. rewrite (write_entry_chunks _ _ _ _ _ E Hp HF). apply IH.
Qed.

(** ** What the loader leaves in the table *)

Lemma read_fields_as_read `{Runtime} st fields :
  forall (acc data : list field) f f',
    read_fields st fields acc f = Ok (data, f') ->
    known_fields fields = true -> 0 <= File.pos f ->
    exists new, data = (acc ++ new)%list
                /\ Forall2 (fun fld x => as_read st (fst fld) x) fields new.
Proof.
  induction fields as [|[dt nm] rest IH]; intros acc data f f' Hr Hk Hp; simpl in Hr.
  - injection Hr as <- _. exists []. rewrite app_nil_r. split; [reflexivity | constructor].
  - simpl in Hk. apply andb_true_iff in Hk as [Hk1 Hk2].
    destruct (DataTypes dt) as [w|] eqn:Hw; [|discriminate].
    destruct (read_field st dt f) as [[v f1]| |] eqn:Ef; try discriminate Hr.
    cbn [Py.bind] in Hr.
    destruct (read_field_known _ _ _ _ _ _ Hw Ef Hp) as (x & b & -> & Hb & -> & Hfb & Hsh).
    apply IH in Hr as (new & -> & Hnew); [|assumption|simpl; lia].
    exists (x :: new). split; [now rewrite <- app_assoc|].
    constructor; [|exact Hnew]. split.
    + unfold shaped. simpl. destruct (resolved_pointer st dt).
      * destruct Hsh as [[val ->]|[val ->]]; [left | right]; eauto.
      * eauto.
    + exists b, w. simpl. split; [exact Hw|]. split; [exact Hfb|].
      rewrite Hb, length_take. lia.
Qed.

Lemma read_entry_as_read `{Runtime} st templates e f e' f' :
  read_entry st templates e f = Ok (e', f') ->
  record_data e = [] -> known_types templates = true ->
  forall t, find_template templates (template_key e') = Ok t ->
    0 <= followAddress (record_address e')
    /\ Forall2 (fun fld x => as_read st (fst fld) x) (snd t) (record_data e').
Proof.
  intros Hr He Hk t Ht.
  pose proof (read_entry_header _ _ _ _ _ _ Hr) as [Hh Hn].
  pose proof (template_key_same_header _ _ Hh) as Hkey. rewrite Hkey in Ht.
  unfold read_entry in Hr. rewrite Ht in Hr.
  destruct (File.seek _ f) as [f1| |] eqn:Es; try discriminate Hr. cbn [Py.bind] in Hr.
  destruct (read_fields st (snd t) (record_data e) f1) as [[data f2]| |] eqn:Ef;
    try discriminate Hr.
  cbn [Py.bind] in Hr. injection Hr as <- _.
  apply seek_ok in Es as [-> Hp]. rewrite He in Ef.
  apply read_fields_as_read in Ef as (new & -> & Hnew);
    [|eapply known_types_find; eassumption|exact Hp].
  cbn [record_address record_data]. split; [exact Hp | exact Hnew].
Qed.

Lemma read_entries_as_read `{Runtime} st templates (todo : main_table) :
  forall (table : main_table) f,
    read_entries st templates todo f = Ok table ->
    Forall (fun e => record_data e = []) todo -> known_types templates = true ->
    Forall (fun e' => forall t, find_template templates (template_key e') = Ok t ->
              0 <= followAddress (record_address e')
              /\ Forall2 (fun fld x => as_read st (fst fld) x) (snd t) (record_data e'))
           table.
Proof.
  induction todo as [|e rest IH]; intros table f Hr He Hk; simpl in Hr.
  - injection Hr as <-. constructor.
  - destruct (read_entry st templates e f) as [[e' f1]| |] eqn:E1; try discriminate Hr.
    cbn [Py.bind] in Hr.
    destruct (read_entries st templates rest f1) as [tl| |] eqn:E2; try discriminate Hr.
    cbn [Py.bind] in Hr. injection Hr as <-.
    apply Forall_cons in He as [He1 He2].
    constructor; [eapply read_entry_as_read; eassumption | eapply IH; eassumption].
Qed.

Lemma readMXEFile_as_read `{Runtime} file templates st (table : main_table) :
  readMXEFile file templates st = Ok table -> known_types templates = true ->
  Forall (fun e' => forall t, find_template templates (template_key e') = Ok t ->
            0 <= followAddress (record_address e')
            /\ Forall2 (fun fld x => as_read st (fst fld) x) (snd t) (record_data e'))
         table.
Proof.
  unfold readMXEFile. intros Hr Hk.
  destruct (read_counts st file) as [[[entry_count entry_start] f3]| |]; try discriminate Hr.
  cbn [Py.bind] in Hr.
  destruct (File.seek _ f3) as [f4| |]; try discriminate Hr. cbn [Py.bind] in Hr.
  destruct (read_toc st _ [] f4) as [[toc f5]| |] eqn:Et; try discriminate Hr.
  cbn [Py.bind] in Hr.
  eapply read_entries_as_read; [exact Hr | | exact Hk].
  eapply read_toc_empty; [exact Et | constructor].
Qed.

(** ** What a fitting import leaves in the table *)

Lemma follows_refl `{Runtime} templates (tb : main_table) : follows templates tb tb.
Proof.
  split; [reflexivity|]. intros k e He. exists e. split; [exact He|].
  split; [apply same_header_refl|]. split; [reflexivity|]. auto.
Qed.

Lemma import_cell_follows `{Runtime} templates (tb tbl tbl' : main_table) hdr entry r i dt nm
    t0 res :
  follows templates tb tbl ->
  (forall k, entry = Some k ->
     exists e, tb !! k = Some e /\ find_template templates (template_key e) = Ok t0) ->
  snd t0 !! i = Some (dt, nm) ->
  import_cell tbl hdr entry r i dt = (tbl', res) ->
  follows templates tb tbl'.
Proof.
  intros Hinv Hent Hdt Hc. unfold import_cell in Hc.
  destruct (get_nat hdr i) as [h| |]; try (injection Hc as <- _; exact Hinv).
  destruct (negb (String.eqb h.1 dt)); [injection Hc as <- _; exact Hinv|].
  destruct (is_pointer_type dt) eqn:Hp; [injection Hc as <- _; exact Hinv|].
  destruct (get_nat r (2 + i)) as [cell| |]; try (injection Hc as <- _; exact Hinv).
  destruct (objToBytes cell dt) as [b| |] eqn:Hb; try (injection Hc as <- _; exact Hinv).
  destruct entry as [k|]; [|injection Hc as <- _; exact Hinv].
  destruct (tbl !! k) as [ek|] eqn:Ek; [|injection Hc as <- _; exact Hinv].
  destruct (get_nat (record_data ek) i) as [old| |]; try (injection Hc as <- _; exact Hinv).
  destruct (decide (old = b)); [injection Hc as <- _; exact Hinv|].
  injection Hc as <- _.
  destruct Hinv as [Hlen Hrows]. split; [now rewrite length_insert|].
  intros k' e He. destruct (Hrows k' e He) as (e' & He' & Hh & Hl & Hf).
  destruct (decide (k' = k)) as [->|Hne].
  - assert (e' = ek) by congruence. subst e'.
    exists (set_record_data ek (<[i := b]> (record_data ek))).
    split; [apply list_lookup_insert_eq; eapply lookup_lt_Some; eassumption|].
    split; [exact Hh|]. cbn [set_record_data record_data].
    split; [now rewrite length_insert|].
    intros te i' dt' nm' x' Hte Hi' Hx'.
    destruct (decide (i' = i)) as [->|Hi].
    + right. destruct (Hent k eq_refl) as (e0 & He0 & Ht0).
      assert (e0 = e) by congruence. subst e0.
      assert (te = t0) by congruence. subst te.
      assert (dt' = dt) by congruence. subst dt'.
      split; [exact Hp|]. exists cell.
      assert (Hlt : (i < length (record_data ek))%nat)
        by (apply lookup_lt_Some in Hx'; now rewrite length_insert in Hx').
      rewrite list_lookup_insert_eq in Hx' by exact Hlt. congruence.
    + rewrite list_lookup_insert_ne in Hx' by congruence. eapply Hf; eassumption.
  - exists e'. split; [rewrite list_lookup_insert_ne by congruence; exact He'|]. auto.
Qed.

Lemma import_cells_follows `{Runtime} templates (tb : main_table) hdr entry r t0 fields :
  (forall k, entry = Some k ->
     exists e, tb !! k = Some e /\ find_template templates (template_key e) = Ok t0) ->
  forall (pre : list (string * string)) (tbl tbl' : main_table) res,
  snd t0 = (pre ++ fields)%list ->
  follows templates tb tbl ->
  import_cells tbl hdr entry r (length pre) fields = (tbl', res) ->
  follows templates tb tbl'.
Proof.
  intros Hent. induction fields as [|[dt nm] rest IH]; intros pre tbl tbl' res Hsplit Hinv Hc;
    simpl in Hc.
  - injection Hc as <- _. exact Hinv.
  - destruct (import_cell tbl hdr entry r (length pre) dt) as [tbl1 res1] eqn:E1.
    assert (Hinv1 : follows templates tb tbl1).
    { eapply import_cell_follows; [exact Hinv | exact Hent | | exact E1].
      rewrite Hsplit. rewrite lookup_app_r by lia.
      replace (length pre - length pre)%nat with O by lia. reflexivity. }
    assert (Hnext : forall res', import_cells tbl1 hdr entry r (S (length pre)) rest
                                 = (tbl', res') -> follows templates tb tbl').
    { intros res' Hc'. apply (IH (pre ++ [(dt, nm)])%list tbl1 tbl' res').
      - rewrite <- app_assoc. exact Hsplit.
      - exact Hinv1.
      - rewrite length_app. simpl. replace (length pre + 1)%nat with (S (length pre)) by lia.
        exact Hc'. }
    destruct res1 as [u|x|].
    + eapply Hnext; eassumption.
    + destruct x; try (injection Hc as <- _; exact Hinv1). eapply Hnext; eassumption.
    + injection Hc as <- _. exact Hinv1.
Qed.

Lemma import_row_follows `{Runtime} templates (tb : main_table) t0 s line_num r s' res :
  import_follows templates tb t0 s ->
  row_fits templates tb t0 (line_num, r) = true ->
  import_row templates s line_num r = (s', res) ->
  import_follows templates tb t0 s'.
Proof.
  intros (Hk & Ht & He) Hfit Hr.
  apply row_fits_spec in Hfit as [Hfit2 Hfit1].
  unfold import_row in Hr.
  destruct (Nat.eqb_spec line_num 1) as [E1|E1].
  - destruct (get_nat r 0) as [c0| |], (get_nat r 1) as [c1| |];
      try (injection Hr as <- _; (split; [exact Hk | split; [exact Ht | exact He]])).
    destruct (negb (String.eqb c0 "RecordId") || negb (String.eqb c1 "InternalName"));
      injection Hr as <- _; (split; [exact Hk | split; [exact Ht | exact He]]).
  - set (found := if (line_num =? 2)%nat
                  then c1 <- get_nat r 1;; t <- find_template templates (Text.before_colon c1);;
                       Ok (Some t)
                  else Ok (im_template s)) in Hr.
    assert (Hfound : forall tmpl t, found = Ok tmpl -> tmpl = Some t -> t = t0).
    { unfold found. intros tmpl t Hf ->.
      destruct (Nat.eqb_spec line_num 2) as [E2|E2].
      - unfold get_nat in Hf. destruct (r !! 1%nat) as [c1|] eqn:Ec1; [|discriminate].
        cbn [Py.bind] in Hf.
        destruct (find_template templates (Text.before_colon c1)) as [t'| |] eqn:Et;
          try discriminate.
        cbn [Py.bind] in Hf. injection Hf as <-. eapply Hfit2; first [eassumption | reflexivity].
      - injection Hf as Hf. now apply Ht. }
    destruct found as [tmpl| |] eqn:Ef; try (injection Hr as <- _; (split; [exact Hk | split; [exact Ht | exact He]])).
    destruct (c0 <- get_nat r 0;; Text.int_of_str c0) as [idx| |] eqn:Ei.
    + assert (Hent : forall k,
                 match py_index (im_table s) idx with
                 | Some k => Some k
                 | None => im_entry s
                 end = Some k ->
                 exists e, tb !! k = Some e /\ find_template templates (template_key e) = Ok t0).
      { intros k Hk'. rewrite (py_index_same_length _ tb) in Hk' by apply Hk.
        destruct (py_index tb idx) as [k0|] eqn:Ep.
        - injection Hk' as <-. unfold get_nat in Ei.
          destruct (r !! 0%nat) as [c0|] eqn:Ec0; [|discriminate]. cbn [Py.bind] in Ei.
          eapply Hfit1; first [eassumption | reflexivity].
        - now apply He. }
      destruct tmpl as [t|].
      * destruct (import_cells _ _ _ _ _ _) as [table' res'] eqn:Ec.
        injection Hr as <- _. unfold import_follows; cbn [im_table im_template im_entry].
        assert (t = t0) by (eapply Hfound; reflexivity). subst t.
        split; [|split; [intros t [= <-]; reflexivity | exact Hent]].
        eapply (import_cells_follows templates tb _ _ _ t0 (snd t0) Hent []);
          [reflexivity | exact Hk | exact Ec].
      * injection Hr as <- _. unfold import_follows; cbn [im_table im_template im_entry].
        split; [exact Hk|]. split; [intros t [=] | exact Hent].
    + injection Hr as <- _. unfold import_follows; cbn [im_table im_template im_entry].
      split; [exact Hk|]. split; [|exact He]. intros t ->. eapply Hfound; reflexivity.
    + injection Hr as <- _. (split; [exact Hk | split; [exact Ht | exact He]]).
Qed.

Lemma import_rows_follows `{Runtime} templates (tb : main_table) t0 rows :
  forall s s' res,
    import_follows templates tb t0 s ->
    rows_fit templates tb t0 rows = true ->
    import_rows templates s rows = (s', res) ->
    import_follows templates tb t0 s'.
Proof.
  induction rows as [|[line_num r] rest IH]; intros s s' res Hinv Hfit Hr; simpl in Hr.
  - injection Hr as <- _. exact Hinv.
  - simpl in Hfit. apply andb_true_iff in Hfit as [Hf1 Hf2].
    destruct (import_row templates s line_num r) as [s1 res1] eqn:E1.
    pose proof (import_row_follows _ _ _ _ _ _ _ _ Hinv Hf1 E1) as Hinv1.
    destruct res1 as [[|]|x|]; try (injection Hr as <- _; exact Hinv1).
    eapply IH; eassumption.
Qed.

Lemma applyCSVtoMXE_follows `{Runtime} templates (tb tbl : main_table) t0 rows :
  follows templates tb tbl ->
  rows_fit templates tb t0 rows = true ->
  follows templates tb (fst (applyCSVtoMXE tbl templates rows)).
Proof.
  intros Hfol Hfit. unfold applyCSVtoMXE.
  destruct (import_rows templates (mkImport tbl [] None None) rows) as [s res] eqn:Ei.
  eapply (import_rows_follows templates tb t0 rows) in Ei as [Hf _]; [exact Hf | | exact Hfit].
  split; [exact Hfol|]. split; [intros t [=] | intros k [=]].
Qed.

Lemma applyCSVDIRtoMXE_follows `{Runtime} templates (tb : main_table) files :
  tables_fit templates tb files ->
  forall tbl, follows templates tb tbl ->
    follows templates tb (fst (applyCSVDIRtoMXE tbl templates files)).
Proof.
  induction 1 as [|rows files [t0 Hfit] _ IH]; intros tbl Hfol; [exact Hfol|].
  cbn [applyCSVDIRtoMXE].
  pose proof (applyCSVtoMXE_follows templates tb tbl t0 rows Hfol Hfit) as H1.
  destruct (applyCSVtoMXE tbl templates rows) as [t1 [[]|x|]]; simpl in H1;
    [apply IH; exact H1 | exact H1 | exact H1].
Qed.

(** ** The bytes of an imported value *)

Lemma pack_length e (w : nat) (n : Z) (b : bytes) : pack e w n = Ok b -> length b = w.
Proof.
  unfold pack. destruct (_ && _); [|discriminate]. intros [= <-].
  now rewrite order_length, le_bytes_length.
Qed.

Lemma hexAsBytes_length e (obj : string) (b : bytes) :
  hexAsBytes e obj = Ok b -> length b = 4%nat.
Proof.
  unfold hexAsBytes. destruct (unhexlify _) as [raw| |]; try discriminate. cbn [Py.bind].
  destruct (unpack e 4 raw) as [c| |]; try discriminate. cbn [Py.bind]. apply pack_length.
Qed.

(** For a data type that has a width [objToBytes] returns bytes, and as
    many as the type is wide when the float encoder returns four. *)
Lemma objToBytes_known `{Runtime} dt w (cell : string) (v : field) :
  DataTypes dt = Some w -> objToBytes cell dt = Ok v ->
  exists b, v = FBytes b
            /\ ((forall e s c, float_pack e s = Ok c -> length c = 4%nat) ->
                length b = Z.to_nat w).
Proof.
  intros Hw Hv. pose proof (DataTypes_names _ _ Hw) as Hin.
  assert (Hpack : forall e (k : nat) b,
             (n <- Text.int_of_str cell ;; pack e k n) = Ok b -> length b = k).
  { intros e k b Hb. destruct (Text.int_of_str cell) as [n| |]; try discriminate Hb.
    cbn [Py.bind] in Hb. eapply pack_length; exact Hb. }
  simpl in Hin.
  repeat (destruct Hin as [<-|Hin]); try contradiction;
    injection Hw as <-;
    unfold objToBytes in Hv; cbn [String.eqb Ascii.eqb Bool.eqb andb] in Hv;
    unfold leIntAsBytes, leShortAsBytes, charAsBytes, beIntAsBytes, beShortAsBytes,
      leAddressAsBytes, beAddressAsBytes, leIntAsBytes, beIntAsBytes,
      leFloatAsBytes, beFloatAsBytes, leHexAsBytes, beHexAsBytes in Hv;
    match type of Hv with
    | (b <- ?m ;; Ok (FBytes b)) = Ok v =>
        destruct m as [b0| |] eqn:Em; try discriminate Hv;
        cbn [Py.bind] in Hv; injection Hv as <-; exists b0; split; [reflexivity|];
        intros Hfloat;
        first [ apply Hpack in Em; exact Em
              | apply hexAsBytes_length in Em; exact Em
              | apply Hfloat in Em; exact Em ]
    end.
Qed.

Lemma field_bytes_plain st dt (b : bytes) :
  resolved_pointer st dt = false -> field_bytes st dt (FBytes b) = Ok b.
Proof.
  unfold resolved_pointer, field_bytes. intros Hr. apply orb_false_iff in Hr as [-> ->].
  reflexivity.
Qed.

Lemma field_chunks_length st (fields : list (string * string)) (data : list field) :
  length data = length fields -> length (field_chunks st fields data) = length fields.
Proof.
  revert data. induction fields as [|fld fs IH]; intros [|x xs] Hl; try discriminate Hl;
    simpl; [reflexivity|]. f_equal. apply IH. now injection Hl.
Qed.

Lemma field_chunks_lookup st (fields : list (string * string)) (data : list field) i fld x :
  fields !! i = Some fld -> data !! i = Some x ->
  field_chunks st fields data !! i = Some (chunk st (fst fld) x).
Proof.
  revert data i. induction fields as [|f fs IH]; intros [|y ys] [|i] Hf Hx;
    try discriminate; simpl in *.
  - now injection Hf as ->; injection Hx as ->.
  - now apply IH.
Qed.

(** An entry of the table after a fitting import, field by field. *)
Lemma after_import_entry `{Runtime} st templates (tb tbl : main_table) k e te :
  follows templates tb tbl -> tb !! k = Some e ->
  find_template templates (template_key e) = Ok te ->
  Forall2 (fun fld x => as_read st (fst fld) x) (snd te) (record_data e) ->
  exists e', tbl !! k = Some e' /\ same_header e e'
    /\ length (record_data e') = length (snd te)
    /\ forall i dt nm, snd te !! i = Some (dt, nm) ->
         exists x' c w,
           record_data e' !! i = Some x' /\ DataTypes dt = Some w
           /\ field_bytes st dt x' = Ok c
           /\ (resolved_pointer st dt = true ->
               record_data e !! i = Some x'
               /\ ((exists val, x' = FPtrStr c val) \/ (exists val, x' = FPtrBytes c val)))
           /\ ((forall en s b, float_pack en s = Ok b -> length b = 4%nat) ->
               (length c <= Z.to_nat w)%nat).
Proof.
  intros [Hlen Hrows] He Hte Hread.
  destruct (Hrows k e He) as (e' & He' & Hh & Hl & Hf).
  pose proof (Forall2_length _ _ _ Hread) as Hfl.
  exists e'. split; [exact He'|]. split; [exact Hh|]. split; [congruence|].
  intros i dt nm Hi.
  destruct (Forall2_lookup_l _ _ _ _ _ Hread Hi) as (x & Hx & Hsh & c0 & w & Hw & Hc0 & Hlc).
  simpl in Hsh, Hw, Hc0.
  assert (Hlt : (i < length (record_data e'))%nat).
  { rewrite Hl. eapply lookup_lt_Some; exact Hx. }
  destruct (lookup_lt_is_Some_2 _ _ Hlt) as [x' Hx'].
  destruct (Hf te i dt nm x' Hte Hi Hx') as [Hsame|(Hnp & cell & Hcell)].
  - assert (x' = x) by congruence. subst x'.
    exists x, c0, w. split; [exact Hx'|]. split; [exact Hw|]. split; [exact Hc0|].
    split; [|intros _; exact Hlc].
    intros Hr. split; [exact Hx|].
    destruct (shaped_pointer_bytes _ _ _ Hr Hsh) as (raw & Hpair & Hraw).
    assert (raw = c0) by congruence. subst raw. exact Hpair.
  - destruct (objToBytes_known _ _ _ _ Hw Hcell) as (b & -> & Hwidth).
    assert (Hr : resolved_pointer st dt = false).
    { destruct (resolved_pointer st dt) eqn:E; [|reflexivity].
      apply resolved_is_pointer in E. congruence. }
    exists (FBytes b), b, w. split; [exact Hx'|]. split; [exact Hw|].
    split; [now apply field_bytes_plain|]. split; [congruence|].
    intros Hfloat. rewrite (Hwidth Hfloat). lia.
Qed.

(** Every entry of the table after a fitting import can be written. *)
Lemma after_import_writable `{Runtime} st templates (tb tbl : main_table) :
  follows templates tb tbl ->
  Forall (fun e => forall t, find_template templates (template_key e) = Ok t ->
            0 <= followAddress (record_address e)
            /\ Forall2 (fun fld x => as_read st (fst fld) x) (snd t) (record_data e)) tb ->
  Forall (fun e => forall te, find_template templates (template_key e) = Ok te ->
            0 <= followAddress (record_address e)
            /\ Forall2 (fun fld x => DataTypes (fst fld) <> None
                                     /\ exists c, field_bytes st (fst fld) x = Ok c)
                       (snd te) (record_data e)) tbl.
Proof.
  intros Hfol Hread. apply Forall_lookup. intros k e' He' te Hte.
  pose proof Hfol as [Hlen Hrows].
  assert (Hlt : (k < length tb)%nat) by (rewrite <- Hlen; eapply lookup_lt_Some; exact He').
  destruct (lookup_lt_is_Some_2 _ _ Hlt) as [e He].
  destruct (Hrows k e He) as (e0 & He0 & Hh0 & _).
  assert (e0 = e') by congruence. subst e0.
  rewrite (template_key_same_header _ _ Hh0) in Hte.
  rewrite Forall_lookup in Hread. destruct (Hread k e He te Hte) as [Hp Hr].
  destruct (after_import_entry st templates tb tbl k e te Hfol He Hte Hr) as
    (e'' & He'' & Hh & Hl & Hfields).
  assert (e'' = e') by congruence. subst e''.
  split.
  - destruct Hh as (_ & _ & _ & _ & ->). exact Hp.
  - apply Forall2_same_length_lookup_2; [congruence|].
    intros i [dt nm] x' Hi Hx'.
    destruct (Hfields i dt nm Hi) as (y & c & w & Hy & Hw & Hc & _).
    assert (y = x') by congruence. subst y. simpl. split; [congruence | eauto].
Qed.

(** ** Pointer fields from the file to the file *)

(** C1, for record tables that fit the main table: take the table
    [readMXEFile] returned under templates of known data types, apply one
    after the other any record tables whose data rows all name entries of
    the template of their first data row, and write the result to any target
    file.  The write ends
    without an exception, and when the loop has passed entry [k], the target
    holds at the record address of the entry the bytes of its fields one
    after the other; for a resolved pointer field these are the raw address
    bytes of the pair stored at read time, which the import has left in
    place. *)
Theorem import_keeps_raw_pointers `{Runtime} (file : bytes) (templates : list template)
    (st : mxe_settings) (table : main_table) (files : list (list (nat * row)))
    (target : bytes) :
  readMXEFile file templates st = Ok table ->
  known_types templates = true ->
  tables_fit templates table files ->
  let table' := fst (applyCSVDIRtoMXE table templates files) in
  snd (writeMXEFile target table' templates st) = Ok tt
  /\ forall k e te,
       table !! k = Some e ->
       find_template templates (template_key e) = Ok te ->
       exists e' (chunks : list bytes),
         table' !! k = Some e' /\ record_address e' = record_address e
         /\ length chunks = length (snd te)
         /\ (forall i dt nm, snd te !! i = Some (dt, nm) ->
               exists x' c,
                 record_data e' !! i = Some x' /\ field_bytes st dt x' = Ok c
                 /\ chunks !! i = Some c
                 /\ (resolved_pointer st dt = true ->
                     record_data e !! i = Some x'
                     /\ ((exists val, x' = FPtrStr c val)
                         \/ (exists val, x' = FPtrBytes c val))))
         /\ take (length (concat chunks))
              (drop (Z.to_nat (followAddress (record_address e)))
                 (fst (writeMXEFile target (take (S k) table') templates st)))
            = concat chunks.
Proof.
  intros Hr Hk Hfit table'.
  pose proof (readMXEFile_as_read _ _ _ _ Hr Hk) as Hread.
  pose proof (applyCSVDIRtoMXE_follows templates table files Hfit table
                (follows_refl templates table)) as Hfol.
  fold table' in Hfol.
  pose proof (after_import_writable st templates table table' Hfol Hread) as Hwr.
  split.
  - unfold writeMXEFile.
    destruct (write_entries_ok st templates table' Hwr (File.open target)) as [f' ->].
    reflexivity.
  - intros k e te He Hte.
    rewrite Forall_lookup in Hread. destruct (Hread k e He te Hte) as [Hp Hfields0].
    destruct (after_import_entry st templates table table' k e te Hfol He Hte Hfields0) as
      (e' & He' & Hh & Hl & Hfields).
    pose proof (template_key_same_header _ _ Hh) as Hkey.
    assert (Haddr : record_address e' = record_address e) by (now destruct Hh as (_&_&_&_&->)).
    exists e', (field_chunks st (snd te) (record_data e')).
    split; [exact He'|]. split; [exact Haddr|].
    split; [now apply field_chunks_length|]. split.
    + intros i dt nm Hi.
      destruct (Hfields i dt nm Hi) as (x' & c & w & Hx' & Hw & Hc & Hptr & _).
      exists x', c. split; [exact Hx'|]. split; [exact Hc|]. split; [|exact Hptr].
      rewrite (field_chunks_lookup st _ _ i (dt, nm) x' Hi Hx'). unfold chunk. simpl.
      now rewrite Hc.
    + rewrite (take_S_r _ _ _ He'). unfold writeMXEFile. rewrite write_entries_app.
      assert (Hpre : Forall (fun e => forall te, find_template templates (template_key e) = Ok te ->
                        0 <= followAddress (record_address e)
                        /\ Forall2 (fun fld x => DataTypes (fst fld) <> None
                                                 /\ exists c, field_bytes st (fst fld) x = Ok c)
                                   (snd te) (record_data e)) (take k table'))
        by (apply Forall_take; exact Hwr).
      destruct (write_entries_ok st templates _ Hpre (File.open target)) as [f1 ->].
      cbn [write_entries].
      rewrite Forall_lookup in Hwr.
      assert (Hte' : find_template templates (template_key e') = Ok te) by (now rewrite Hkey).
      destruct (Hwr k e' He' te Hte') as [Hp' HF].
      rewrite (write_entry_chunks _ _ _ _ f1 Hte' Hp' HF). cbn [fst File.content].
      rewrite Haddr.
      apply (write_region _ (File.mk (File.content f1) (followAddress (record_address e)))).
      exact Hp.
Qed.

Lemma import_keeps_raw_pointers_witness :
  let table' :=
    fst (@applyCSVDIRtoMXE example_runtime example_table example_templates [csv_edit]) in
  snd (writeMXEFile (replicate 412 x00) table' example_templates MXE_SETTINGS) = Ok tt
  /\ forall k e te,
       example_table !! k = Some e ->
       find_template example_templates (template_key e) = Ok te ->
       exists e' (chunks : list bytes),
         table' !! k = Some e' /\ record_address e' = record_address e
         /\ length chunks = length (snd te)
         /\ (forall i dt nm, snd te !! i = Some (dt, nm) ->
               exists x' c,
                 record_data e' !! i = Some x' /\ field_bytes MXE_SETTINGS dt x' = Ok c
                 /\ chunks !! i = Some c
                 /\ (resolved_pointer MXE_SETTINGS dt = true ->
                     record_data e !! i = Some x'
                     /\ ((exists val, x' = FPtrStr c val)
                         \/ (exists val, x' = FPtrBytes c val))))
         /\ take (length (concat chunks))
              (drop (Z.to_nat (followAddress (record_address e)))
                 (fst (writeMXEFile (replicate 412 x00) (take (S k) table') example_templates
                         MXE_SETTINGS)))
            = concat chunks.
Proof.
  apply (@import_keeps_raw_pointers example_runtime mxe_example example_templates
           MXE_SETTINGS example_table [csv_edit] (replicate 412 x00)).
  - vm_compute. reflexivity.
  - reflexivity.
  - constructor; [exists weapon_template; reflexivity | constructor].
Defined.

(** ** The length of the file *)

Lemma chunks_width st (fields : list (string * string)) (data : list field) :
  Forall2 (fun fld x => exists w, DataTypes (fst fld) = Some w
                                  /\ (length (chunk st (fst fld) x) <= Z.to_nat w)%nat)
          fields data ->
  Z.of_nat (length (concat (field_chunks st fields data))) <= record_width fields.
Proof.
  induction 1 as [|[dt nm] x fields data (w & Hw & Hl) _ IH]; [simpl; lia|].
  cbn [field_chunks concat record_width fold_right fst]. simpl in Hw, Hl. rewrite Hw.
  fold (record_width fields). rewrite length_app.
  assert (0 <= w) by (destruct (DataTypes_width _ _ Hw) as [->|[->| ->]]; lia).
  lia.
Qed.

Lemma write_entries_length st templates (n : nat) (table : main_table) :
  Forall (fun e => forall te, find_template templates (template_key e) = Ok te ->
            0 <= followAddress (record_address e)
            /\ Forall2 (fun fld x => DataTypes (fst fld) <> None
                                     /\ exists c, field_bytes st (fst fld) x = Ok c)
                       (snd te) (record_data e)
            /\ followAddress (record_address e)
               + Z.of_nat (length (concat (field_chunks st (snd te) (record_data e))))
               <= Z.of_nat n) table ->
  forall f, length (File.content f) = n ->
    exists f', write_entries st templates table f = (f', Ok tt)
               /\ length (File.content f') = n.
Proof.
  induction 1 as [|e table He _ IH]; intros f Hf; [exists f; auto|].
  cbn [write_entries].
  destruct (find_template_cases templates (template_key e)) as [E|(te & E & _)].
  - rewrite (write_entry_no_template _ _ _ _ E). now apply IH.
  - destruct (He te E) as (Hp & HF & Hin). rewrite (write_entry_chunks _ _ _ _ _ E Hp HF).
    apply IH. rewrite write_length; cbn [File.pos File.content]; [exact Hf | exact Hp|].
    rewrite Hf. exact Hin.
Qed.

Lemma after_import_inside `{Runtime} st templates (tb tbl : main_table) (file : bytes) :
  follows templates tb tbl ->
  Forall (fun e => forall t, find_template templates (template_key e) = Ok t ->
            0 <= followAddress (record_address e)
            /\ Forall2 (fun fld x => as_read st (fst fld) x) (snd t) (record_data e)) tb ->
  (forall en s b, float_pack en s = Ok b -> length b = 4%nat) ->
  records_inside templates tb file ->
  Forall (fun e => forall te, find_template templates (template_key e) = Ok te ->
            0 <= followAddress (record_address e)
            /\ Forall2 (fun fld x => DataTypes (fst fld) <> None
                                     /\ exists c, field_bytes st (fst fld) x = Ok c)
                       (snd te) (record_data e)
            /\ followAddress (record_address e)
               + Z.of_nat (length (concat (field_chunks st (snd te) (record_data e))))
               <= Z.of_nat (length file)) tbl.
Proof.
  intros Hfol Hread Hfloat Hin.
  pose proof (after_import_writable st templates tb tbl Hfol Hread) as Hwr.
  apply Forall_lookup. intros k e' He' te Hte.
  rewrite Forall_lookup in Hwr. destruct (Hwr k e' He' te Hte) as [Hp HF].
  split; [exact Hp|]. split; [exact HF|].
  pose proof Hfol as [Hlen Hrows].
  assert (Hlt : (k < length tb)%nat) by (rewrite <- Hlen; eapply lookup_lt_Some; exact He').
  destruct (lookup_lt_is_Some_2 _ _ Hlt) as [e He].
  destruct (Hrows k e He) as (e0 & He0 & Hh0 & _).
  assert (e0 = e') by congruence. subst e0.
  rewrite (template_key_same_header _ _ Hh0) in Hte.
  rewrite Forall_lookup in Hread. destruct (Hread k e He te Hte) as [_ Hr].
  destruct (after_import_entry st templates tb tbl k e te Hfol He Hte Hr) as
    (e'' & He'' & Hh & Hl & Hfields).
  assert (e'' = e') by congruence. subst e''.
  unfold records_inside in Hin. rewrite Forall_lookup in Hin.
  specialize (Hin k e He te Hte).
  assert (Haddr : record_address e' = record_address e) by (now destruct Hh as (_&_&_&_&->)).
  rewrite Haddr.
  assert (Hw : Z.of_nat (length (concat (field_chunks st (snd te) (record_data e'))))
               <= record_width (snd te)); [|lia].
  apply chunks_width. apply Forall2_same_length_lookup_2; [congruence|].
  intros i [dt nm] x' Hi Hx'.
  destruct (Hfields i dt nm Hi) as (y & c & w & Hy & Hw & Hc & _ & Hlc).
  assert (y = x') by congruence. subst y.
  exists w. simpl. split; [exact Hw|]. unfold chunk. rewrite Hc. exact (Hlc Hfloat).
Qed.

(** C9, from the file to the file: when every data type of the templates
    is known, writing back the table that [readMXEFile] returned for a file
    leaves the file byte for byte as it was; and after the import of any
    record tables that fit the main table, one after the other, the write
    still ends without an exception and the file has the length it had,
    provided every record that has a template lies inside the file and the
    float encoder returns four bytes. *)
Theorem write_after_read_keeps_file `{Runtime} (file : bytes) (templates : list template)
    (st : mxe_settings) (table : main_table) :
  readMXEFile file templates st = Ok table ->
  known_types templates = true ->
  writeMXEFile file table templates st = (file, Ok tt)
  /\ forall (files : list (list (nat * row))),
       tables_fit templates table files ->
       (forall en s b, float_pack en s = Ok b -> length b = 4%nat) ->
       records_inside templates table file ->
       exists out,
         writeMXEFile file (fst (applyCSVDIRtoMXE table templates files)) templates st
         = (out, Ok tt)
         /\ length out = length file.
Proof.
  intros Hr Hk. split; [exact (proj2 (readMXEFile_loaded _ _ _ _ Hr Hk))|].
  intros files Hfit Hfloat Hin.
  pose proof (readMXEFile_as_read _ _ _ _ Hr Hk) as Hread.
  pose proof (applyCSVDIRtoMXE_follows templates table files Hfit table
                (follows_refl templates table)) as Hfol.
  pose proof (after_import_inside st templates table _ file Hfol Hread Hfloat Hin) as Hall.
  destruct (write_entries_length st templates (length file) _ Hall (File.open file) eq_refl)
    as (f' & Hw & Hl).
  exists (File.content f'). unfold writeMXEFile. rewrite Hw. auto.
Qed.

Lemma write_after_read_keeps_file_witness :
  writeMXEFile mxe_example example_table example_templates MXE_SETTINGS
  = (mxe_example, Ok tt)
  /\ exists out,
       writeMXEFile mxe_example
         (fst (@applyCSVDIRtoMXE example_runtime example_table example_templates [csv_edit]))
         example_templates MXE_SETTINGS = (out, Ok tt)
       /\ length out = length mxe_example.
Proof.
  destruct (@write_after_read_keeps_file example_runtime mxe_example example_templates
              MXE_SETTINGS example_table) as [Hsame Himport].
  - vm_compute. reflexivity.
  - reflexivity.
  - split; [exact Hsame|].
    apply (Himport [csv_edit]).
    + constructor; [exists weapon_template; reflexivity | constructor].
    + intros en s b Hb. discriminate Hb.
    + unfold records_inside. repeat constructor; intros t Ht; vm_compute in Ht;
        try discriminate Ht; injection Ht as <-; vm_compute; discriminate.
Defined.

(** Two runs in which the file grows.  Written to a file that ends inside
    the first weapon record, the example table makes the file longer; and
    on the whole file, a record table of another template that names a
    weapon puts 200 where the weapon has its pointer, for which write-back
    sends 200 zero bytes. *)
Lemma write_after_read_keeps_file_counterexample :
  (length (take 390 mxe_example) = 390%nat
   /\ writeMXEFile (take 390 mxe_example) example_table example_templates MXE_SETTINGS
      = (take 404 mxe_example, Ok tt))
  /\ (@readMXEFile example_runtime mxe_example example_templates MXE_SETTINGS
      = Ok example_table
      /\ length mxe_example = 412%nat
      /\ snd (writeMXEFile mxe_example
                (fst (@applyCSVtoMXE example_runtime example_table example_templates csv_wide))
                example_templates MXE_SETTINGS) = Ok tt
      /\ length (fst (writeMXEFile mxe_example
                        (fst (@applyCSVtoMXE example_runtime example_table example_templates
                                csv_wide))
                        example_templates MXE_SETTINGS)) = 590%nat).
Proof. repeat split; vm_compute; reflexivity. Qed.
